(** * Verification of the documentation generator

  A shallow embedding of [.github/scripts/generate_docs.py]: the path
  arithmetic of the build driver, the enumeration of source files, the
  directory-tree parser, the link-suffixing pass, the notebook metadata
  extraction, the C preprocessor fallback, the incremental build loop and
  the insertion of the copy-button script.

  Conventions of the embedding.
  - A Python [str] is a [string]; the text handled is ASCII, so a character
    is an [ascii] and the whitespace of [str.strip], [str.split] and of the
    regular expression class [\s] is the ASCII part of Python's
    (codes 9-13, 28-32).
  - A [pathlib.Path] is the list of its components below the anchor.
  - An integer is a [Z]; an index that Python reports as [-1] is [-1].
  - Code that raises returns [None] or the exception in a sum.
  - The disk holds regular files and directories and has no permissions:
    opening a path fails when it is a directory and, for reading, when it is
    missing; a regular file can always be read and replaced. *)

From Stdlib Require Import String Ascii List ZArith Lia Bool DecimalString.
From stdpp Require Import gmap strings list sorting.

Local Open Scope string_scope.
Local Open Scope list_scope.
Local Open Scope Z_scope.

(** ** Python strings *)

Module PyStr.

(** The double quote, which a string literal of this file cannot hold. *)
Definition DQ : string := String (ascii_of_nat 34) EmptyString.

(** The line feed ['\n']. *)
Definition LF_char : ascii := ascii_of_nat 10.
Definition LF : string := String LF_char EmptyString.

(** [len(s)] *)
Definition len (s : string) : Z := Z.of_nat (String.length s).

(** [s[n:]] for [0 <= n] *)
Fixpoint sdrop (n : nat) (s : string) : string :=
  match n, s with
  | O, _ => s
  | S n', String _ s' => sdrop n' s'
  | S _, EmptyString => EmptyString
  end.

(** [s[:n]] for [0 <= n] *)
Fixpoint stake (n : nat) (s : string) : string :=
  match n, s with
  | O, _ => EmptyString
  | S n', String a s' => String a (stake n' s')
  | S _, EmptyString => EmptyString
  end.

(** [s.startswith(p)] *)
Fixpoint startswith (s p : string) : bool :=
  match p, s with
  | EmptyString, _ => true
  | String b p', String a s' => Ascii.eqb a b && startswith s' p'
  | String _ _, EmptyString => false
  end.

(** [s.endswith(p)] *)
Definition endswith (s p : string) : bool :=
  (String.length p <=? String.length s)%nat
  && String.eqb (sdrop (String.length s - String.length p) s) p.

(** [s.find(p)]: the least index at which [p] occurs, [-1] if none. *)
Fixpoint find (s p : string) : Z :=
  if startswith s p then 0
  else match s with
       | EmptyString => -1
       | String _ s' => let r := find s' p in if r <? 0 then -1 else r + 1
       end.

(** [p in s] *)
Definition contains (s p : string) : bool := 0 <=? find s p.

(** [s.rfind(c)] for a one-character [c]: the greatest index, [-1] if none. *)
Fixpoint rfind_char (s : string) (c : ascii) : Z :=
  match s with
  | EmptyString => -1
  | String a s' =>
      let r := rfind_char s' c in
      if 0 <=? r then r + 1 else if Ascii.eqb a c then 0 else -1
  end.

(** [sep.join(l)] *)
Definition join (sep : string) (l : list string) : string := String.concat sep l.

(** [c.isspace()] on ASCII: tab to carriage return, the four separators
    28-31 and the space. *)
Definition is_space (a : ascii) : bool :=
  let n := nat_of_ascii a in
  ((9 <=? n) && (n <=? 13) || (28 <=? n) && (n <=? 32))%nat.

(** [c in chars] *)
Fixpoint mem_char (a : ascii) (chars : string) : bool :=
  match chars with
  | EmptyString => false
  | String b chars' => Ascii.eqb a b || mem_char a chars'
  end.

(** Removal of the leading characters that satisfy [f]. *)
Fixpoint lstrip_by (f : ascii -> bool) (s : string) : string :=
  match s with
  | EmptyString => EmptyString
  | String a s' => if f a then lstrip_by f s' else s
  end.

(** Removal of the trailing characters that satisfy [f]. *)
Fixpoint rstrip_by (f : ascii -> bool) (s : string) : string :=
  match s with
  | EmptyString => EmptyString
  | String a s' =>
      match rstrip_by f s' with
      | EmptyString => if f a then EmptyString else String a EmptyString
      | r => String a r
      end
  end.

(** [s.strip()], [s.lstrip(chars)], [s.rstrip(chars)] *)
Definition strip (s : string) : string := rstrip_by is_space (lstrip_by is_space s).
Definition lstrip (s chars : string) : string := lstrip_by (fun a => mem_char a chars) s.
Definition rstrip (s chars : string) : string := rstrip_by (fun a => mem_char a chars) s.

(** [s.count(p)] for a non-empty [p]: the occurrences met from left to
    right, none overlapping the one before; [skip] characters of the last
    occurrence are still to pass. *)
Fixpoint count_from (p : string) (skip : nat) (s : string) : Z :=
  match s with
  | EmptyString => 0
  | String _ s' =>
      match skip with
      | S k => count_from p k s'
      | O => if startswith s p then 1 + count_from p (String.length p - 1) s'
             else count_from p 0 s'
      end
  end.

(** [s.count(p)]; an empty [p] is counted between all characters. *)
Definition count (s p : string) : Z :=
  match p with
  | EmptyString => len s + 1
  | _ => count_from p 0 s
  end.

(** [s.replace(old, new)] for a non-empty [old], scanning as [count_from]. *)
Fixpoint replace_from (old new : string) (skip : nat) (s : string) : string :=
  match s with
  | EmptyString => EmptyString
  | String a s' =>
      match skip with
      | S k => replace_from old new k s'
      | O => if startswith s old
             then new +:+ replace_from old new (String.length old - 1) s'
             else String a (replace_from old new 0 s')
      end
  end.

(** [s.replace('', new)] puts [new] before every character and at the end. *)
Fixpoint intersperse (new s : string) : string :=
  match s with
  | EmptyString => new
  | String a s' => new +:+ String a (intersperse new s')
  end.

(** [s.replace(old, new)] *)
Definition replace (s old new : string) : string :=
  match old with
  | EmptyString => intersperse new s
  | _ => replace_from old new 0 s
  end.

(** [s.split(c)] for a one-character separator. *)
Fixpoint split_char (c : ascii) (s : string) : list string :=
  match s with
  | EmptyString => [EmptyString]
  | String a s' =>
      if Ascii.eqb a c then EmptyString :: split_char c s'
      else match split_char c s' with
           | h :: t => String a h :: t
           | [] => [String a EmptyString]
           end
  end.

(** The leading characters that do not satisfy [f], and the rest. *)
Fixpoint span_not (f : ascii -> bool) (s : string) : string * string :=
  match s with
  | EmptyString => (EmptyString, EmptyString)
  | String a s' =>
      if f a then (EmptyString, s)
      else let (w, r) := span_not f s' in (String a w, r)
  end.

(** [s.split(None, 1)]: the first word, then what follows the whitespace
    after it, when anything does. *)
Definition split_ws_1 (s : string) : list string :=
  match lstrip_by is_space s with
  | EmptyString => []
  | s1 =>
      let (w, r) := span_not is_space s1 in
      match lstrip_by is_space r with
      | EmptyString => [w]
      | r' => [w; r']
      end
  end.

(** [s * n] *)
Fixpoint repeat_str (s : string) (n : nat) : string :=
  match n with
  | O => EmptyString
  | S n' => s +:+ repeat_str s n'
  end.

(** [s.lower()] on ASCII *)
Definition lower_char (a : ascii) : ascii :=
  let n := nat_of_ascii a in
  if ((65 <=? n) && (n <=? 90))%nat then ascii_of_nat (n + 32) else a.

Fixpoint lower (s : string) : string :=
  match s with
  | EmptyString => EmptyString
  | String a s' => String (lower_char a) (lower s')
  end.

(** [str(n)] for an integer *)
Definition str_of_Z (n : Z) : string := NilZero.string_of_int (Z.to_int n).

(** [append] does not unfold under [simpl]; these are its equations. *)
Lemma append_nil_l (s : string) : "" +:+ s = s.
Proof. reflexivity. Qed.

Lemma append_cons (a : ascii) (s t : string) : String a s +:+ t = String a (s +:+ t).
Proof. reflexivity. Qed.

Lemma append_nil_r (s : string) : s +:+ "" = s.
Proof.
  induction s as [|a s IH]; [reflexivity|].
  now rewrite append_cons, IH.
Qed.

Lemma append_assoc (s1 s2 s3 : string) : (s1 +:+ s2) +:+ s3 = s1 +:+ (s2 +:+ s3).
Proof.
  induction s1 as [|a s1 IH]; [reflexivity|].
  now rewrite !append_cons, IH.
Qed.

Lemma length_append (s t : string) :
  String.length (s +:+ t) = (String.length s + String.length t)%nat.
Proof.
  induction s as [|a s IH]; [reflexivity|].
  rewrite append_cons. simpl. now rewrite IH.
Qed.

Lemma stake_sdrop (n : nat) (s : string) : stake n s +:+ sdrop n s = s.
Proof.
  revert s; induction n as [|n IH]; intros [|a s]; simpl; try reflexivity.
  now rewrite append_cons, IH.
Qed.

Lemma append_inj_r (s1 s2 t : string) : s1 +:+ t = s2 +:+ t -> s1 = s2.
Proof.
  intros H.
  assert (Hl : String.length s1 = String.length s2).
  { apply (f_equal String.length) in H. rewrite !length_append in H. lia. }
  revert s2 H Hl; induction s1 as [|a s1 IH]; intros [|b s2] H Hl;
    simpl in Hl; try discriminate; [reflexivity|].
  rewrite !append_cons in H. injection H as -> H.
  f_equal. apply IH; [assumption | lia].
Qed.

End PyStr.

(** ** pathlib paths *)

Module PyPath.
Import PyStr.

(** A path is the list of its components; [Path.__eq__] compares them. *)
Definition path := list string.

(** [p.name] *)
Definition name (p : path) : string := List.last p "".

(** [p.parent] *)
Definition parent (p : path) : path := removelast p.

(** [p / q] for a relative [q] *)
Definition joinpath (p q : path) : path := p ++ q.

(** [p.relative_to(other)], [None] for the [ValueError] raised when [p] is
    not below [other]. *)
Fixpoint relative_to (p other : path) : option path :=
  match other, p with
  | [], _ => Some p
  | o :: other', x :: p' => if String.eqb x o then relative_to p' other' else None
  | _ :: _, [] => None
  end.

(** [p.parents] of a relative path: its proper prefixes, the longest first,
    down to the empty path ['.']. *)
Definition parents (p : path) : list path :=
  List.map (fun k => firstn k p) (List.rev (List.seq 0 (List.length p))).

(** [p.suffix]: the name from its last dot on, when that dot is neither the
    first nor the last character of the name. *)
Definition suffix (p : path) : string :=
  let nm := name p in
  let i := rfind_char nm "." in
  if (0 <? i) && (i <? len nm - 1) then sdrop (Z.to_nat i) nm else "".

(** [p.with_suffix(suf)], [None] for the [ValueError] of an invalid suffix or
    of a path with an empty name. *)
Definition with_suffix (p : path) (suf : string) : option path :=
  if contains suf "/" then None
  else if (negb (String.eqb suf "") && negb (startswith suf ".")) || String.eqb suf "."
  then None
  else
    let nm := name p in
    if String.eqb nm "" then None
    else
      let old_suffix := suffix p in
      let nm' :=
        if String.eqb old_suffix "" then nm +:+ suf
        else stake (String.length nm - String.length old_suffix) nm +:+ suf in
      Some (removelast p ++ [nm']).

End PyPath.

(** ** The generator *)

Import PyStr PyPath.

(** [calculate_asset_prefix] *)
Definition calculate_asset_prefix (output_html_path docs_dir : path) : string :=
  if String.eqb (name output_html_path) "index.html"
     && bool_decide (parent output_html_path = docs_dir)
  then "."
  else
    match relative_to output_html_path docs_dir with
    | None => "."
    | Some rel =>
        let depth := Z.of_nat (List.length (parents rel)) - 1 in
        if depth <=? 0 then "." else join "/" (List.repeat ".." (Z.to_nat depth))
    end.

(** The tests of [find_source_files] on one file [f]. *)
Definition valid_exts : list string := [".c"; ".h"; ".py"; ".sh"; ".ipynb"].
Definition valid_names : list string := ["Makefile"].

Definition accepted (f : path) : bool :=
  if bool_decide (name f ∈ valid_names) then true
  else bool_decide (suffix f ∈ valid_exts) && negb (endswith (name f) ".dat").

(** The output path computed at the head of the loop of [main]:
    [DOCS_DIR / relative_path.with_suffix(relative_path.suffix + '.html')]
    with [relative_path = file_path.relative_to(REPO_ROOT)]. *)
Definition output_path_of (REPO_ROOT DOCS_DIR file_path : path) : option path :=
  match relative_to file_path REPO_ROOT with
  | None => None
  | Some relative_path =>
      match with_suffix relative_path (suffix relative_path +:+ ".html") with
      | None => None
      | Some q => Some (joinpath DOCS_DIR q)
      end
  end.

(** A file that [rglob] or [iterdir] yields lies strictly below the directory
    that was scanned. *)
Definition strictly_below (root f : path) : bool :=
  match relative_to f root with
  | Some (_ :: _) => true
  | _ => false
  end.

(** ** Paths: lemmas *)

Lemma name_snoc (p : path) (x : string) : name (p ++ [x]) = x.
Proof. unfold name. apply last_last. Qed.

Lemma parent_snoc (p : path) (x : string) : parent (p ++ [x]) = p.
Proof. unfold parent. apply removelast_last. Qed.

Lemma relative_to_app (other rel : path) : relative_to (other ++ rel) other = Some rel.
Proof.
  induction other as [|o other IH]; simpl; [now destruct rel|].
  now rewrite String.eqb_refl.
Qed.

Lemma relative_to_Some (p other rel : path) :
  relative_to p other = Some rel -> p = other ++ rel.
Proof.
  revert p; induction other as [|o other IH]; intros [|x p] H; simpl in H;
    try discriminate; try (injection H as <-; reflexivity).
  destruct (String.eqb_spec x o) as [->|]; [|discriminate].
  simpl. f_equal. now apply IH.
Qed.

Lemma length_parents (p : path) : List.length (parents p) = List.length p.
Proof. unfold parents. now rewrite length_map, length_rev, length_seq. Qed.

Lemma app_eq_self_nil {A} (l k : list A) : l ++ k = l -> k = [].
Proof.
  intros H. apply (f_equal (@List.length A)) in H. rewrite length_app in H.
  destruct k; [reflexivity | simpl in H; lia].
Qed.

(** The prefix of a file [dirs/file] below the documentation root depends on
    the number of directories [dirs] alone. *)
Lemma calculate_asset_prefix_below (docs_dir dirs : path) (file : string) :
  calculate_asset_prefix (docs_dir ++ dirs ++ [file]) docs_dir =
  match dirs with
  | [] => "."
  | _ :: _ => join "/" (List.repeat ".." (List.length dirs))
  end.
Proof.
  unfold calculate_asset_prefix.
  rewrite relative_to_app, length_parents, length_app. simpl List.length.
  rewrite app_assoc, name_snoc, parent_snoc.
  destruct dirs as [|d ds].
  - simpl. now destruct (_ && _).
  - rewrite bool_decide_eq_false_2, andb_false_r.
    + replace (Z.of_nat (List.length (d :: ds) + 1) - 1)
        with (Z.of_nat (List.length (d :: ds))) by lia.
      simpl List.length. rewrite Nat2Z.id.
      destruct (Z.leb_spec (Z.of_nat (S (List.length ds))) 0); [lia | reflexivity].
    + intros H. apply app_eq_self_nil in H. discriminate.
Qed.

(** C2. [calculate_asset_prefix] answers [.] for the root index file, for
    any file directly under the documentation root and for the root itself
    (depth at most 0); for a file that lies [d >= 1] directories below the
    root it answers exactly [d] segments [..] joined by [/]. *)
Theorem calculate_asset_prefix_spec (docs_dir : path) :
  calculate_asset_prefix (docs_dir ++ ["index.html"]) docs_dir = "."
  /\ (forall file : string, calculate_asset_prefix (docs_dir ++ [file]) docs_dir = ".")
  /\ calculate_asset_prefix docs_dir docs_dir = "."
  /\ (forall (d : string) (ds : path) (file : string),
        calculate_asset_prefix (docs_dir ++ (d :: ds) ++ [file]) docs_dir
        = join "/" (List.repeat ".." (S (List.length ds))))
  /\ calculate_asset_prefix (docs_dir ++ ["a"; "b"; "f.c.html"]) docs_dir = "../..".
Proof.
  repeat split.
  - apply (calculate_asset_prefix_below docs_dir [] "index.html").
  - intros file. apply (calculate_asset_prefix_below docs_dir [] file).
  - unfold calculate_asset_prefix.
    replace (relative_to docs_dir docs_dir) with (Some (@nil string)).
    + now destruct (_ && _).
    + symmetry. rewrite <- (app_nil_r docs_dir) at 1. apply relative_to_app.
  - intros d ds file. apply (calculate_asset_prefix_below docs_dir (d :: ds) file).
  - apply (calculate_asset_prefix_below docs_dir ["a"; "b"] "f.c.html").
Qed.

(** ** The output path of a source file *)

Lemma length_sdrop (n : nat) (s : string) :
  String.length (sdrop n s) = (String.length s - n)%nat.
Proof. revert s; induction n as [|n IH]; intros [|a s]; simpl; auto with arith. Qed.

Lemma stake_all (s : string) : stake (String.length s) s = s.
Proof. induction s as [|a s IH]; simpl; [reflexivity | now rewrite IH]. Qed.

Lemma rfind_char_lt (s : string) (c : ascii) : rfind_char s c < len s.
Proof.
  unfold len. induction s as [|a s IH]; simpl String.length; simpl rfind_char; [lia|].
  destruct (Z.leb_spec 0 (rfind_char s c)); [lia|].
  destruct (Ascii.eqb a c); lia.
Qed.

(** A name is its stem followed by its suffix. *)
Lemma stem_suffix (p : path) :
  stake (String.length (name p) - String.length (suffix p)) (name p) +:+ suffix p = name p.
Proof.
  unfold suffix. cbv zeta.
  destruct (_ && _) eqn:E.
  - apply andb_true_iff in E as [E1 E2].
    apply Z.ltb_lt in E1. apply Z.ltb_lt in E2. unfold len in E2.
    rewrite length_sdrop.
    replace (String.length (name p) - (String.length (name p) - Z.to_nat (rfind_char (name p) ".")))%nat
      with (Z.to_nat (rfind_char (name p) ".")) by lia.
    apply stake_sdrop.
  - simpl String.length. rewrite Nat.sub_0_r, stake_all. apply append_nil_r.
Qed.

Lemma with_suffix_eq (p : path) (suf : string) :
  contains suf "/" = false ->
  (negb (String.eqb suf "") && negb (startswith suf ".")) || String.eqb suf "." = false ->
  String.eqb (name p) "" = false ->
  with_suffix p suf =
  Some (removelast p ++
        [if String.eqb (suffix p) "" then name p +:+ suf
         else stake (String.length (name p) - String.length (suffix p)) (name p) +:+ suf]).
Proof. intros H1 H2 H3. unfold with_suffix. now rewrite H1, H2, H3. Qed.

Lemma name_with_html (p : path) :
  (if String.eqb (suffix p) "" then name p +:+ (suffix p +:+ ".html")
   else stake (String.length (name p) - String.length (suffix p)) (name p)
        +:+ (suffix p +:+ ".html"))
  = name p +:+ ".html".
Proof.
  destruct (String.eqb_spec (suffix p) "") as [E|_].
  - now rewrite E.
  - now rewrite <- append_assoc, stem_suffix.
Qed.

(** For a file that [find_source_files] accepts, [with_suffix] never raises
    and appends [.html] to the whole name. *)
Lemma with_suffix_html (p : path) :
  accepted p = true ->
  with_suffix p (suffix p +:+ ".html") = Some (removelast p ++ [name p +:+ ".html"]).
Proof.
  intros Hacc. rewrite <- (name_with_html p).
  unfold accepted in Hacc.
  destruct (bool_decide (name p ∈ valid_names)) eqn:Hn.
  - apply bool_decide_eq_true_1 in Hn. unfold valid_names in Hn.
    apply list_elem_of_singleton in Hn.
    assert (Hs : suffix p = "") by (unfold suffix; now rewrite Hn).
    apply with_suffix_eq; rewrite ?Hs, ?Hn; reflexivity.
  - apply andb_true_iff in Hacc as [Hs _]. apply bool_decide_eq_true_1 in Hs.
    apply list_elem_of_In in Hs. unfold valid_exts in Hs. simpl in Hs.
    assert (Hne : String.eqb (name p) "" = false).
    { destruct (String.eqb_spec (name p) "") as [E|]; [|reflexivity].
      unfold suffix in Hs. rewrite E in Hs. vm_compute in Hs.
      repeat (destruct Hs as [Hs|Hs]; [discriminate|]). destruct Hs. }
    repeat (destruct Hs as [Hs|Hs];
            [apply with_suffix_eq; rewrite <- ?Hs; first [exact Hne | reflexivity]|]).
    destruct Hs.
Qed.

Lemma name_app (r rel : path) : rel <> [] -> name (r ++ rel) = name rel.
Proof.
  intros H. destruct (exists_last H) as (l & x & ->).
  now rewrite app_assoc, !name_snoc.
Qed.

Lemma accepted_app (r rel : path) : rel <> [] -> accepted (r ++ rel) = accepted rel.
Proof. intros H. unfold accepted, suffix. now rewrite (name_app r rel H). Qed.

Lemma output_path_of_eq (REPO_ROOT DOCS_DIR rel : path) :
  rel <> [] -> accepted (REPO_ROOT ++ rel) = true ->
  output_path_of REPO_ROOT DOCS_DIR (REPO_ROOT ++ rel)
  = Some (DOCS_DIR ++ parent rel ++ [name rel +:+ ".html"]).
Proof.
  intros Hne Hacc. rewrite accepted_app in Hacc by assumption.
  unfold output_path_of. rewrite relative_to_app.
  now rewrite (with_suffix_html rel Hacc).
Qed.

Lemma snoc_html_inj (l1 l2 : path) (n1 n2 : string) :
  l1 ++ [n1 +:+ ".html"] = l2 ++ [n2 +:+ ".html"] -> l1 ++ [n1] = l2 ++ [n2].
Proof.
  intros H. apply app_inj_tail in H as [-> H].
  now apply append_inj_r in H as ->.
Qed.

Lemma parent_name (rel : path) : rel <> [] -> parent rel ++ [name rel] = rel.
Proof.
  intros H. destruct (exists_last H) as (l & x & ->).
  now rewrite parent_snoc, name_snoc.
Qed.

Lemma strictly_below_inv (root f : path) :
  strictly_below root f = true ->
  exists rel, rel <> [] /\ f = root ++ rel /\ relative_to f root = Some rel.
Proof.
  unfold strictly_below. destruct (relative_to f root) as [[|x rel]|] eqn:E;
    try discriminate.
  intros _. exists (x :: rel). repeat split; [discriminate|].
  now apply relative_to_Some.
Qed.

(** C1. For every accepted source file below the repository root, the output
    path is the documentation root joined with the repository-relative path
    whose name has [.html] appended after the original suffix
    (a/b/file.c goes to docs/a/b/file.c.html), and two accepted files with the
    same output path are the same file. *)
Theorem output_path_injective (REPO_ROOT DOCS_DIR f1 f2 : path) :
  strictly_below REPO_ROOT f1 = true -> accepted f1 = true ->
  strictly_below REPO_ROOT f2 = true -> accepted f2 = true ->
  (exists rel1,
      relative_to f1 REPO_ROOT = Some rel1
      /\ output_path_of REPO_ROOT DOCS_DIR f1
         = Some (joinpath DOCS_DIR (parent rel1 ++ [name rel1 +:+ ".html"])))
  /\ (output_path_of REPO_ROOT DOCS_DIR f1 = output_path_of REPO_ROOT DOCS_DIR f2 ->
      f1 = f2)
  /\ output_path_of ["repo"] ["repo"; "docs"] ["repo"; "a"; "b"; "file.c"]
     = Some ["repo"; "docs"; "a"; "b"; "file.c.html"].
Proof.
  intros B1 A1 B2 A2.
  destruct (strictly_below_inv _ _ B1) as (rel1 & N1 & -> & R1).
  destruct (strictly_below_inv _ _ B2) as (rel2 & N2 & -> & R2).
  pose proof (output_path_of_eq REPO_ROOT DOCS_DIR rel1 N1 A1) as O1.
  pose proof (output_path_of_eq REPO_ROOT DOCS_DIR rel2 N2 A2) as O2.
  split; [|split].
  - exists rel1. split; [exact R1 | exact O1].
  - rewrite O1, O2. intros H. injection H as H.
    apply app_inv_head in H. apply snoc_html_inj in H.
    rewrite !parent_name in H by assumption. now rewrite H.
  - reflexivity.
Qed.

Lemma output_path_injective_witness :
  (exists rel1,
      relative_to ["repo"; "a"; "b"; "file.c"] ["repo"] = Some rel1
      /\ output_path_of ["repo"] ["repo"; "docs"] ["repo"; "a"; "b"; "file.c"]
         = Some (joinpath ["repo"; "docs"] (parent rel1 ++ [name rel1 +:+ ".html"])))
  /\ (output_path_of ["repo"] ["repo"; "docs"] ["repo"; "a"; "b"; "file.c"]
      = output_path_of ["repo"] ["repo"; "docs"] ["repo"; "Makefile"] ->
      ["repo"; "a"; "b"; "file.c"] = ["repo"; "Makefile"])
  /\ output_path_of ["repo"] ["repo"; "docs"] ["repo"; "a"; "b"; "file.c"]
     = Some ["repo"; "docs"; "a"; "b"; "file.c.html"].
Proof.
  apply (output_path_injective ["repo"] ["repo"; "docs"]
           ["repo"; "a"; "b"; "file.c"] ["repo"; "Makefile"]); reflexivity.
Defined.

(** ** The order of paths *)

(** Python compares sequences lexicographically: the first unequal pair of
    elements decides, and a proper prefix is smaller. *)
Section Lex.
Context {A : Type} (cmp : A -> A -> comparison).

Fixpoint lex_compare (p q : list A) : comparison :=
  match p, q with
  | [], [] => Eq
  | [], _ :: _ => Lt
  | _ :: _, [] => Gt
  | x :: p', y :: q' =>
      match cmp x y with
      | Eq => lex_compare p' q'
      | c => c
      end
  end.

Hypothesis cmp_eq : forall x y, cmp x y = Eq -> x = y.
Hypothesis cmp_antisym : forall x y, cmp x y = CompOpp (cmp y x).
Hypothesis cmp_trans : forall x y z, cmp x y = Lt -> cmp y z = Lt -> cmp x z = Lt.

Lemma cmp_refl (x : A) : cmp x x = Eq.
Proof. pose proof (cmp_antisym x x) as H. destruct (cmp x x); simpl in H; congruence. Qed.

Lemma lex_compare_eq (p q : list A) : lex_compare p q = Eq -> p = q.
Proof.
  revert q; induction p as [|x p IH]; intros [|y q] H; simpl in H;
    try discriminate; [reflexivity|].
  destruct (cmp x y) eqn:E; try discriminate.
  apply cmp_eq in E as ->. f_equal. now apply IH.
Qed.

Lemma lex_compare_antisym (p q : list A) :
  lex_compare p q = CompOpp (lex_compare q p).
Proof.
  revert q; induction p as [|x p IH]; intros [|y q]; simpl; try reflexivity.
  rewrite (cmp_antisym x y). destruct (cmp y x); simpl; auto.
Qed.

Lemma lex_compare_trans (p q r : list A) :
  lex_compare p q = Lt -> lex_compare q r = Lt -> lex_compare p r = Lt.
Proof.
  revert q r; induction p as [|x p IH]; intros [|y q] [|z r] H1 H2; simpl in *;
    try discriminate; try reflexivity.
  destruct (cmp x y) eqn:Exy; try discriminate.
  - apply cmp_eq in Exy as ->.
    destruct (cmp y z) eqn:Eyz; try discriminate; [now apply (IH q r) | reflexivity].
  - destruct (cmp y z) eqn:Eyz; try discriminate.
    + apply cmp_eq in Eyz as <-. now rewrite Exy.
    + now rewrite (cmp_trans x y z Exy Eyz).
Qed.

End Lex.

(** [str.__lt__] is [String.compare], the lexicographic order of the codes. *)
Lemma string_compare_lex (s t : string) :
  String.compare s t
  = lex_compare Ascii.compare (list_ascii_of_string s) (list_ascii_of_string t).
Proof.
  revert t; induction s as [|a s IH]; intros [|b t]; simpl; try reflexivity.
  now rewrite IH.
Qed.

Lemma ascii_compare_trans (a b c : ascii) :
  Ascii.compare a b = Lt -> Ascii.compare b c = Lt -> Ascii.compare a c = Lt.
Proof.
  unfold Ascii.compare. rewrite !N.compare_lt_iff. apply N.lt_trans.
Qed.

Lemma string_compare_trans (s t u : string) :
  String.compare s t = Lt -> String.compare t u = Lt -> String.compare s u = Lt.
Proof.
  rewrite !string_compare_lex.
  apply lex_compare_trans;
    [exact Ascii.compare_eq_iff | exact ascii_compare_trans].
Qed.

(** [Path.__lt__] compares the component lists. *)
Definition path_compare (p q : path) : comparison := lex_compare String.compare p q.

Definition path_lt (p q : path) : Prop := path_compare p q = Lt.
Definition path_le (p q : path) : Prop := path_compare p q <> Gt.

#[global] Instance path_le_dec (p q : path) : Decision (path_le p q).
Proof. unfold path_le. destruct (path_compare p q); [left|left|right]; congruence. Defined.

Lemma path_compare_eq (p q : path) : path_compare p q = Eq -> p = q.
Proof. unfold path_compare. apply lex_compare_eq. exact String.compare_eq_iff. Qed.

Lemma path_compare_antisym (p q : path) :
  path_compare p q = CompOpp (path_compare q p).
Proof. unfold path_compare. apply lex_compare_antisym. exact String.compare_antisym. Qed.

Lemma path_compare_trans (p q r : path) :
  path_compare p q = Lt -> path_compare q r = Lt -> path_compare p r = Lt.
Proof.
  unfold path_compare. apply lex_compare_trans;
    [exact String.compare_eq_iff | exact string_compare_trans].
Qed.

#[global] Instance path_le_total : Total path_le.
Proof.
  intros p q. unfold path_le. rewrite (path_compare_antisym q p).
  destruct (path_compare p q); simpl; [left|left|right]; congruence.
Qed.

#[global] Instance path_le_trans : Transitive path_le.
Proof.
  intros p q r. unfold path_le. intros H1 H2.
  destruct (path_compare p q) eqn:E1; [| |congruence].
  - now apply path_compare_eq in E1 as ->.
  - destruct (path_compare q r) eqn:E2; [| |congruence].
    + apply path_compare_eq in E2 as <-. now rewrite E1.
    + now rewrite (path_compare_trans p q r E1 E2).
Qed.

#[global] Instance path_le_antisym : AntiSymm eq path_le.
Proof.
  intros p q. unfold path_le. rewrite (path_compare_antisym q p).
  intros H1 H2. apply path_compare_eq.
  destruct (path_compare p q); simpl in *; congruence.
Qed.

(** ** Enumeration of the source files *)

(** What [find_source_files] asks of the disk: [is_dir], [is_file], the
    listing of [src_path.rglob('*')] and that of [root_dir.iterdir()], each
    in whatever order, and with whatever repetitions, the system answers. *)
Record filesystem := {
  is_dir : path -> bool;
  is_file : path -> bool;
  rglob : path -> list path;
  iterdir : path -> list path
}.

(** The body of both loops: [files.add(f)] for a regular file that passes
    the tests on its name. *)
Definition scan_file (fs : filesystem) (files : gset path) (f : path) : gset path :=
  if is_file fs f then
    if accepted f then {[f]} ∪ files else files
  else files.

(** [sorted(files)] *)
Definition sorted (files : gset path) : list path := merge_sort path_le (elements files).

(** [find_source_files]; a name of [source_dirs] is one path component. *)
Definition find_source_files (fs : filesystem) (root_dir : path) (source_dirs : list string)
  : list path :=
  let files :=
    foldl (fun files dir_name =>
             let src_path := joinpath root_dir [dir_name] in
             if is_dir fs src_path
             then foldl (scan_file fs) files (rglob fs src_path)
             else files)
          ∅ source_dirs in
  let files := foldl (scan_file fs) files (iterdir fs root_dir) in
  sorted files.

Definition path_eq_dec : forall p q : path, {p = q} + {p <> q} :=
  List.list_eq_dec string_dec.

(** Two views of one disk: the same directories and files, listed in any
    order. *)
Definition same_files (fs fs' : filesystem) : Prop :=
  (forall p, is_dir fs p = is_dir fs' p)
  /\ (forall p, is_file fs p = is_file fs' p)
  /\ (forall d f, f ∈ rglob fs d <-> f ∈ rglob fs' d)
  /\ (forall d f, f ∈ iterdir fs d <-> f ∈ iterdir fs' d).

(** A file is found when it is a regular, accepted file listed by the scan of
    a source directory or by the scan of the root. *)
Definition found (fs : filesystem) (root_dir : path) (source_dirs : list string) (f : path)
  : Prop :=
  is_file fs f = true /\ accepted f = true
  /\ ((exists d, d ∈ source_dirs /\ is_dir fs (joinpath root_dir [d]) = true
                 /\ f ∈ rglob fs (joinpath root_dir [d]))
      \/ f ∈ iterdir fs root_dir).

Lemma elem_of_scan_files (fs : filesystem) (l : list path) (files : gset path) (f : path) :
  f ∈ foldl (scan_file fs) files l
  <-> f ∈ files \/ (f ∈ l /\ is_file fs f = true /\ accepted f = true).
Proof.
  revert files; induction l as [|x l IH]; intros files; simpl.
  - rewrite elem_of_nil. tauto.
  - rewrite IH, elem_of_cons. unfold scan_file.
    destruct (is_file fs x) eqn:Ef; [destruct (accepted x) eqn:Ea|].
    + rewrite elem_of_union, elem_of_singleton. split.
      * intros [[->|H]|H]; tauto.
      * intros [H|[[->|H] H']]; tauto.
    + split; [tauto|]. intros [H|[[->|H] [H1 H2]]]; try tauto; congruence.
    + split; [tauto|]. intros [H|[[->|H] [H1 H2]]]; try tauto; congruence.
Qed.

Lemma elem_of_scan_dirs (fs : filesystem) (root_dir : path) (dirs : list string)
      (files : gset path) (f : path) :
  f ∈ foldl (fun files dir_name =>
               let src_path := joinpath root_dir [dir_name] in
               if is_dir fs src_path
               then foldl (scan_file fs) files (rglob fs src_path)
               else files) files dirs
  <-> f ∈ files
      \/ (is_file fs f = true /\ accepted f = true
          /\ exists d, d ∈ dirs /\ is_dir fs (joinpath root_dir [d]) = true
                       /\ f ∈ rglob fs (joinpath root_dir [d])).
Proof.
  revert files; induction dirs as [|d dirs IH]; intros files; simpl.
  - split; [tauto|]. intros [H|(_ & _ & d & H & _)]; [exact H|].
    now apply elem_of_nil in H.
  - rewrite IH. destruct (is_dir fs (joinpath root_dir [d])) eqn:Ed.
    + rewrite elem_of_scan_files. split.
      * intros [[H|(H1 & H2 & H3)]|(H1 & H2 & d' & H3 & H4 & H5)].
        -- now left.
        -- right. repeat split; try assumption. exists d.
           rewrite elem_of_cons. auto.
        -- right. repeat split; try assumption. exists d'.
           rewrite elem_of_cons. auto.
      * intros [H|(H1 & H2 & d' & H3 & H4 & H5)]; [tauto|].
        apply elem_of_cons in H3 as [->|H3]; [tauto|].
        right. repeat split; try assumption. now exists d'.
    + split.
      * intros [H|(H1 & H2 & d' & H3 & H4 & H5)]; [tauto|].
        right. repeat split; try assumption. exists d'.
        rewrite elem_of_cons. auto.
      * intros [H|(H1 & H2 & d' & H3 & H4 & H5)]; [tauto|].
        apply elem_of_cons in H3 as [->|H3]; [congruence|].
        right. repeat split; try assumption. now exists d'.
Qed.

Lemma elem_of_find_source_files (fs : filesystem) (root_dir : path)
      (source_dirs : list string) (f : path) :
  f ∈ find_source_files fs root_dir source_dirs <-> found fs root_dir source_dirs f.
Proof.
  unfold find_source_files, sorted, found. cbv zeta.
  rewrite merge_sort_Permutation, elem_of_elements, elem_of_scan_files, elem_of_scan_dirs.
  rewrite elem_of_empty. tauto.
Qed.

Lemma sorted_Sorted (files : gset path) : Sorted path_le (sorted files).
Proof. apply (Sorted_merge_sort path_le). Qed.

Lemma sorted_NoDup (files : gset path) : NoDup (sorted files).
Proof. unfold sorted. rewrite merge_sort_Permutation. apply NoDup_elements. Qed.

Lemma found_same_files (fs fs' : filesystem) (root_dir : path) (source_dirs : list string)
      (f : path) :
  same_files fs fs' -> found fs root_dir source_dirs f -> found fs' root_dir source_dirs f.
Proof.
  intros (Hd & Hf & Hr & Hi) (H1 & H2 & H3). unfold found.
  rewrite <- Hf. repeat split; try assumption.
  destruct H3 as [(d & H3 & H4 & H5)|H3].
  - left. exists d. rewrite <- Hd, <- Hr. auto.
  - right. now apply Hi.
Qed.

Lemma same_files_sym (fs fs' : filesystem) : same_files fs fs' -> same_files fs' fs.
Proof.
  intros (Hd & Hf & Hr & Hi). repeat split; intros; try symmetry; auto;
    try (now apply Hr); now apply Hi.
Qed.

Lemma Sorted_le_lt (l : list path) : Sorted path_le l -> NoDup l -> Sorted path_lt l.
Proof.
  induction l as [|x l IH]; intros Hs Hn; [constructor|].
  apply Sorted_inv in Hs as [Hs Hh]. apply NoDup_cons in Hn as [Hx Hn].
  constructor; [now apply IH|].
  destruct Hh as [|y l Hxy]; constructor.
  unfold path_lt. unfold path_le in Hxy.
  destruct (path_compare x y) eqn:E; [|reflexivity|congruence].
  apply path_compare_eq in E as ->. exfalso. apply Hx. now left.
Qed.

(** C9. [find_source_files] returns a list without duplicates, in strictly
    ascending order of paths; a file found by the scan of a source directory,
    by the scan of the root or by both occurs exactly once; and two listings
    of the same files on disk, in whatever order, give the same list. *)
Theorem find_source_files_sorted (fs : filesystem) (root_dir : path)
        (source_dirs : list string) :
  NoDup (find_source_files fs root_dir source_dirs)
  /\ Sorted path_lt (find_source_files fs root_dir source_dirs)
  /\ (forall f, found fs root_dir source_dirs f <->
                count_occ path_eq_dec
                          (find_source_files fs root_dir source_dirs) f = 1%nat)
  /\ (forall fs', same_files fs fs' ->
        find_source_files fs' root_dir source_dirs
        = find_source_files fs root_dir source_dirs).
Proof.
  assert (Hn : forall fs0, NoDup (find_source_files fs0 root_dir source_dirs))
    by (intros; apply sorted_NoDup).
  assert (Hs : forall fs0, Sorted path_le (find_source_files fs0 root_dir source_dirs))
    by (intros; apply sorted_Sorted).
  split; [apply Hn|].
  split; [apply Sorted_le_lt; [apply Hs | apply Hn]|].
  split.
  - intros f. split.
    + intros Hf. apply elem_of_find_source_files in Hf.
      apply (proj1 (NoDup_count_occ' _ _)); [apply NoDup_ListNoDup, Hn|].
      now apply list_elem_of_In.
    + intros Hc. apply elem_of_find_source_files, list_elem_of_In.
      apply (count_occ_In path_eq_dec). lia.
  - intros fs' Hsame.
    apply (Sorted_unique path_le); [apply Hs | apply Hs |].
    apply NoDup_Permutation; [apply Hn | apply Hn |].
    intros f. rewrite !elem_of_find_source_files. split.
    + apply found_same_files. now apply same_files_sym.
    + now apply found_same_files.
Qed.

(** ** The directory-tree parser *)

(** The state of the loop of [convert_directory_tree_to_html]. *)
Record tree_state := {
  path_stack : list string;
  prev_indent : Z;
  html_structure : list string
}.

(** The indentation level of a line. The tree symbols of the three string
    constants are blanks in the source: the first test looks for three
    spaces and counts them, the second for four spaces and one space. *)
Definition indent_level_of (line : string) : Z :=
  if contains line "   " then count line "   "
  else if contains line "    " && (contains line " " || contains line " ")
  then (len line - len (lstrip line " ")) / 4
  else 0.

(** [for _ in range(n): if path_stack: path_stack.pop()] *)
Fixpoint pop_n (n : nat) (stack : list string) : list string :=
  match n with
  | O => stack
  | S n' => pop_n n' (match stack with [] => [] | _ :: _ => removelast stack end)
  end.

(** One turn of the loop on [line]; [None] stands for an [IndexError]. *)
Definition tree_step (st : tree_state) (line : string) : option tree_state :=
  if String.eqb (strip line) "" then Some st
  else
    let indent_level := indent_level_of line in
    let clean_line := replace (replace (replace line " " "") " " "") "   " "" in
    let parts := split_ws_1 (strip clean_line) in
    match parts with
    | [] => None
    | path :: rest =>
        let description := match rest with d :: _ => d | [] => "" end in
        let is_dir := endswith path "/" in
        let stack1 :=
          if prev_indent st <? indent_level then
            match path_stack st with
            | [] => []
            | _ :: _ =>
                if 0 <=? prev_indent st
                then path_stack st ++ [List.last (path_stack st) ""]
                else path_stack st
            end
          else if indent_level <? prev_indent st
          then pop_n (Z.to_nat (prev_indent st - indent_level)) (path_stack st)
          else path_stack st in
        let indent := repeat_str "  " (Z.to_nat indent_level) in
        let item_html := indent +:+ "* " in
        if is_dir then
          let dir_name := rstrip path "/" in
          let item_html :=
            if String.eqb dir_name "basilisk/src"
            then item_html +:+ "**" +:+ path +:+ "** - " +:+ description
            else item_html +:+ "**[" +:+ path +:+ "](" +:+ dir_name +:+ ")** - "
                 +:+ description in
          let stack2 :=
            if Z.of_nat (List.length stack1) <=? indent_level
            then stack1 ++ [dir_name]
            else <[Z.to_nat indent_level := dir_name]> stack1 in
          Some {| path_stack := stack2; prev_indent := indent_level;
                  html_structure := html_structure st ++ [item_html] |}
        else
          let parent_path :=
            if (0 <? indent_level) && negb (bool_decide (stack1 = []))
            then stack1 !! Z.to_nat (indent_level - 1)
            else Some "" in
          match parent_path with
          | None => None
          | Some parent_path =>
              let file_path :=
                if String.eqb parent_path "" then path
                else parent_path +:+ "/" +:+ path in
              let file_path := lstrip file_path "/" in
              let item_html :=
                item_html +:+ "**[" +:+ path +:+ "](" +:+ file_path +:+ ".html)** - "
                +:+ description in
              Some {| path_stack := stack1; prev_indent := indent_level;
                      html_structure := html_structure st ++ [item_html] |}
          end
    end.

(** The loop over the lines. *)
Fixpoint tree_loop (st : tree_state) (lines : list string) : option tree_state :=
  match lines with
  | [] => Some st
  | line :: lines' =>
      match tree_step st line with
      | None => None
      | Some st' => tree_loop st' lines'
      end
  end.

(** The lines of the HTML structure built from [tree_text], the first group
    of the match: from the opening [div] to the closing one. *)
Definition parse_tree (tree_text : string) : option (list string) :=
  let st0 := {| path_stack := []; prev_indent := -1;
                html_structure := ["<div class=" +:+ DQ +:+ "repository-structure" +:+ DQ +:+ ">"] |} in
  match tree_loop st0 (split_char LF_char tree_text) with
  | None => None
  | Some st => Some (html_structure st ++ ["</div>"])
  end.

(** The item of [name] links to [target]: some line holds [[name](target)]. *)
Definition links_to (lines : list string) (name target : string) : bool :=
  existsb (fun line => contains line ("[" +:+ name +:+ "](" +:+ target +:+ ")")) lines.

(** The tree text of the example: app/, core/ below it, main.c below core/. *)
Definition example_tree : string :=
  "app/" +:+ LF +:+ "   core/" +:+ LF +:+ "      main.c".

(** The parser on the example, line by line. *)
Lemma parse_tree_example :
  parse_tree example_tree
  = Some ["<div class=" +:+ DQ +:+ "repository-structure" +:+ DQ +:+ ">";
          "* **[app/](app)** - ";
          "  * **[core/](core)** - ";
          "    * **[main.c](core/main.c.html)** - ";
          "</div>"].
Proof. vm_compute. reflexivity. Qed.

(** C3, as stated, fails: on the example the parser emits no link from
    core/ to app/core and none from main.c to app/core/main.c.html. *)
Lemma tree_example_not_nested :
  ~ (exists out,
        parse_tree example_tree = Some out
        /\ links_to out "app/" "app" = true
        /\ links_to out "core/" "app/core" = true
        /\ links_to out "main.c" "app/core/main.c.html" = true).
Proof.
  intros (out & H & _ & H2 & _). rewrite parse_tree_example in H.
  injection H as <-. vm_compute in H2. discriminate.
Qed.

(** C3, on the code. On the example the parser links app/ to app, but
    core/ to core and main.c to core/main.c.html: a directory is linked
    under its own token and a file under the directory token of the level
    above, and the names of further ancestors are not put before either. The
    page that the build writes for app/core/main.c is
    docs/app/core/main.c.html, the target that the claim names, so the link
    that the parser emits for main.c leads to no page. *)
Theorem tree_example_links :
  exists out,
    parse_tree example_tree = Some out
    /\ links_to out "app/" "app" = true
    /\ links_to out "core/" "core" = true
    /\ links_to out "main.c" "core/main.c.html" = true
    /\ links_to out "core/" "app/core" = false
    /\ links_to out "main.c" "app/core/main.c.html" = false
    /\ output_path_of ["repo"] ["repo"; "docs"] ["repo"; "app"; "core"; "main.c"]
       = Some ["repo"; "docs"; "app"; "core"; "main.c.html"].
Proof.
  eexists. split; [apply parse_tree_example|].
  vm_compute. repeat split.
Qed.

(** ** Regular expressions

    The part of Python's [re] that the generator uses, as a backtracking
    matcher in continuation-passing style: alternatives are tried in the
    order of [re] (left branch first, a greedy repetition longest first, a
    lazy one shortest first) and the first complete match wins. The flags
    of a pattern are resolved when its syntax tree is written: [dot] and the
    anchors take [DOTALL] and [MULTILINE] as an argument. *)

Module Re.

Inductive regex : Type :=
| Eps
| Chr (f : ascii -> bool)
| Seq (r1 r2 : regex)
| Alt (r1 r2 : regex)
| Star (greedy : bool) (r : regex)
| Group (n : nat) (r : regex)
| Bol (multiline : bool)
| Eol (multiline : bool)
| EndZ
| Ahead (r : regex).

(** A position in the subject: the offset, the character before it, the
    text from it on, and the spans of the groups closed so far. *)
Record cursor := {
  pos : nat;
  prev : option ascii;
  rest : string;
  caps : list (nat * (nat * nat))
}.

Definition advance (c : cursor) (a : ascii) (s : string) : cursor :=
  {| pos := S (pos c); prev := Some a; rest := s; caps := caps c |}.

Definition at_bol (multiline : bool) (c : cursor) : bool :=
  match prev c with
  | None => true
  | Some a => multiline && Ascii.eqb a LF_char
  end.

Definition at_eol (multiline : bool) (c : cursor) : bool :=
  match rest c with
  | EmptyString => true
  | String a s => Ascii.eqb a LF_char && (multiline || String.eqb s "")
  end.

(** [run r k c]: match [r] at [c], then go on with [k]; [None] when every
    way of matching [r] makes [k] fail. A repetition never takes an empty
    turn, so its fuel, the length of the remaining text, is never used up. *)
Fixpoint run (r : regex) (k : cursor -> option cursor) (c : cursor) {struct r}
  : option cursor :=
  match r with
  | Eps => k c
  | Chr f =>
      match rest c with
      | String a s => if f a then k (advance c a s) else None
      | EmptyString => None
      end
  | Seq r1 r2 => run r1 (run r2 k) c
  | Alt r1 r2 =>
      match run r1 k c with
      | Some c' => Some c'
      | None => run r2 k c
      end
  | Star greedy r1 =>
      (fix loop (fuel : nat) (c : cursor) {struct fuel} : option cursor :=
         match fuel with
         | O => k c
         | S fuel' =>
             let turn (_ : unit) :=
               run r1 (fun c' => if (pos c <? pos c')%nat then loop fuel' c' else None) c in
             if greedy then
               match turn tt with
               | Some c' => Some c'
               | None => k c
               end
             else
               match k c with
               | Some c' => Some c'
               | None => turn tt
               end
         end) (S (String.length (rest c))) c
  | Group n r1 =>
      run r1 (fun c' => k {| pos := pos c'; prev := prev c'; rest := rest c';
                             caps := (n, (pos c, pos c')) :: caps c' |}) c
  | Bol multiline => if at_bol multiline c then k c else None
  | Eol multiline => if at_eol multiline c then k c else None
  | EndZ => match rest c with EmptyString => k c | _ => None end
  | Ahead r1 =>
      match run r1 Some c with
      | Some c' => k {| pos := pos c; prev := prev c; rest := rest c; caps := caps c' |}
      | None => None
      end
  end.

(** Pattern syntax. *)
Definition plus (greedy : bool) (r : regex) : regex := Seq r (Star greedy r).
Definition char (a : ascii) : regex := Chr (Ascii.eqb a).
Definition not_char (a : ascii) : regex := Chr (fun b => negb (Ascii.eqb b a)).
Definition dot (dotall : bool) : regex := Chr (fun b => dotall || negb (Ascii.eqb b LF_char)).
Definition space : regex := Chr is_space.
Definition one_of (chars : string) : regex := Chr (fun b => mem_char b chars).

Fixpoint lit (s : string) : regex :=
  match s with
  | EmptyString => Eps
  | String a s' => Seq (char a) (lit s')
  end.

Fixpoint seqs (l : list regex) : regex :=
  match l with
  | [] => Eps
  | [r] => r
  | r :: l' => Seq r (seqs l')
  end.

(** A match object: the subject and the spans of the match and its groups. *)
Record rmatch := {
  m_string : string;
  m_start : nat;
  m_end : nat;
  m_caps : list (nat * (nat * nat))
}.

Definition substr (s : string) (i j : nat) : string := stake (j - i) (sdrop i s).

(** [m.group(0)] *)
Definition group0 (m : rmatch) : string := substr (m_string m) (m_start m) (m_end m).

(** [m.group(n)] for [n >= 1]; [None] when the group took no part. *)
Definition group (m : rmatch) (n : nat) : option string :=
  match List.find (fun e => Nat.eqb (fst e) n) (m_caps m) with
  | Some (_, (i, j)) => Some (substr (m_string m) i j)
  | None => None
  end.

(** A match of [r] that starts at [c], in the subject [subject]. *)
Definition match_at (r : regex) (subject : string) (c : cursor) : option rmatch :=
  match run r Some {| pos := pos c; prev := prev c; rest := rest c; caps := [] |} with
  | Some c' => Some {| m_string := subject; m_start := pos c; m_end := pos c';
                       m_caps := caps c' |}
  | None => None
  end.

(** The leftmost match at or after the cursor; [s] is the text from it on. *)
Fixpoint search_at (r : regex) (subject : string) (p : nat) (pv : option ascii)
         (s : string) {struct s} : option rmatch :=
  match match_at r subject {| pos := p; prev := pv; rest := s; caps := [] |} with
  | Some m => Some m
  | None =>
      match s with
      | EmptyString => None
      | String a s' => search_at r subject (S p) (Some a) s'
      end
  end.

(** [re.search(r, subject)] *)
Definition search (r : regex) (subject : string) : option rmatch :=
  search_at r subject 0 None subject.

(** The matches that [re.finditer], [re.findall] and [re.sub] walk through:
    the next match is looked for where the last one ended, one character
    further after an empty match. *)
Fixpoint matches_from (r : regex) (subject : string) (fuel : nat) (p : nat)
         (pv : option ascii) (s : string) {struct fuel} : list rmatch :=
  match fuel with
  | O => []
  | S fuel' =>
      match search_at r subject p pv s with
      | None => []
      | Some m =>
          let s1 := sdrop (m_end m - p) s in
          let pv1 := if (p <? m_end m)%nat
                     then String.get (m_end m - p - 1) s
                     else pv in
          if (m_start m <? m_end m)%nat
          then m :: matches_from r subject fuel' (m_end m) pv1 s1
          else match s1 with
               | EmptyString => [m]
               | String a s2 => m :: matches_from r subject fuel' (S (m_end m)) (Some a) s2
               end
      end
  end.

(** [re.finditer(r, subject)] *)
Definition finditer (r : regex) (subject : string) : list rmatch :=
  matches_from r subject (S (String.length subject)) 0 None subject.

(** [re.findall(r, subject)] for a pattern with exactly one group. *)
Definition findall1 (r : regex) (subject : string) : list string :=
  List.map (fun m => match group m 1 with Some g => g | None => "" end)
           (finditer r subject).

(** The text between the matches [ms], from offset [p] on, with [repl m] in
    the place of each match [m]; [None] as soon as [repl] fails. *)
Fixpoint splice (repl : rmatch -> option string) (subject : string) (p : nat)
         (ms : list rmatch) : option string :=
  match ms with
  | [] => Some (sdrop p subject)
  | m :: ms' =>
      match repl m, splice repl subject (m_end m) ms' with
      | Some t, Some u => Some (substr subject p (m_start m) +:+ t +:+ u)
      | _, _ => None
      end
  end.

(** [re.sub(r, repl, subject)] for a function [repl]. *)
Definition sub (r : regex) (repl : rmatch -> option string) (subject : string)
  : option string :=
  splice repl subject 0 (finditer r subject).

(** [re.sub(r, repl, subject)] for a function [repl] that never fails. *)
Fixpoint splice_with (repl : rmatch -> string) (subject : string) (p : nat)
         (ms : list rmatch) : string :=
  match ms with
  | [] => sdrop p subject
  | m :: ms' =>
      substr subject p (m_start m) +:+ repl m +:+ splice_with repl subject (m_end m) ms'
  end.

Definition sub_with (r : regex) (repl : rmatch -> string) (subject : string) : string :=
  splice_with repl subject 0 (finditer r subject).

(** A replacement template without a backslash stands for itself; the
    escapes that a backslash starts are not modelled ([None]). *)
Definition template (t : string) (m : rmatch) : option string :=
  if contains t (String (ascii_of_nat 92) EmptyString) then None else Some t.

End Re.

(** ** Notebook metadata *)

(** A cell of the parsed notebook: its [cell_type] and the strings of its
    [source], which the code joins. *)
Record cell := {
  cell_type : string;
  source : list string
}.

Record notebook_info := {
  notebook_title : string;
  notebook_description : string;
  notebook_features : list string
}.

(** [^#\s+(.+)$] with [MULTILINE] *)
Definition title_re : Re.regex :=
  Re.seqs [Re.Bol true; Re.char "#"; Re.plus true Re.space;
           Re.Group 1 (Re.plus true (Re.dot false)); Re.Eol true].

(** [^#\s+.+\n\n(.+?)(?=\n\n|\Z)] with [DOTALL] and [MULTILINE] *)
Definition desc_re : Re.regex :=
  Re.seqs [Re.Bol true; Re.char "#"; Re.plus true Re.space; Re.plus true (Re.dot true);
           Re.lit (LF +:+ LF); Re.Group 1 (Re.plus false (Re.dot true));
           Re.Ahead (Re.Alt (Re.lit (LF +:+ LF)) Re.EndZ)].

(** [^\s*[\*\-\+]\s+(.+)$] with [MULTILINE] *)
Definition features_re : Re.regex :=
  Re.seqs [Re.Bol true; Re.Star true Re.space; Re.one_of "*-+"; Re.plus true Re.space;
           Re.Group 1 (Re.plus true (Re.dot false)); Re.Eol true].

Definition group1 (m : Re.rmatch) : string :=
  match Re.group m 1 with
  | Some g => g
  | None => ""
  end.

(** The loop of [process_jupyter_notebook] over the cells: it stops at the
    first markdown cell in which the title pattern matches. *)
Fixpoint scan_cells (info : notebook_info) (cells : list cell) : notebook_info :=
  match cells with
  | [] => info
  | c :: cells' =>
      if String.eqb (cell_type c) "markdown" then
        let src := join "" (source c) in
        match Re.search title_re src with
        | Some title_match =>
            let title := strip (group1 title_match) in
            match Re.search desc_re src with
            | Some desc_match =>
                let description := strip (group1 desc_match) in
                let features_match := Re.findall1 features_re src in
                {| notebook_title := title;
                   notebook_description := description;
                   notebook_features :=
                     match features_match with
                     | [] => notebook_features info
                     | _ :: _ => List.map strip (firstn 3 features_match)
                     end |}
            | None =>
                {| notebook_title := title;
                   notebook_description := notebook_description info;
                   notebook_features := notebook_features info |}
            end
        | None => scan_cells info cells'
        end
      else scan_cells info cells'
  end.

(** The title, description and features that [process_jupyter_notebook]
    puts in the page, before they are escaped, for a notebook whose cells
    are well typed: dictionaries with a [cell_type] and a list of strings as
    [source]. What the code does with any other parsed notebook is
    [page_metadata], further down. *)
Definition notebook_metadata (notebook_filename : string) (cells : list cell)
  : notebook_info :=
  let info := scan_cells {| notebook_title := notebook_filename;
                            notebook_description := "";
                            notebook_features := [] |} cells in
  {| notebook_title := notebook_title info;
     notebook_description :=
       if String.eqb (notebook_description info) ""
       then "This notebook provides visualization and analysis related to "
            +:+ replace (replace (List.hd "" (split_char "." notebook_filename)) "-" " ")
                        "_" " "
            +:+ "."
       else notebook_description info;
     notebook_features :=
       match notebook_features info with
       | [] => ["Visualization of data and results";
                "Analysis of simulation outputs";
                "Interactive exploration of parameters"]
       | fs => fs
       end |}.

(** The first markdown cell of the example. *)
Definition demo_source : string :=
  "# Demo" +:+ LF +:+ LF +:+ "Short blurb." +:+ LF +:+ LF +:+ "* F1" +:+ LF +:+ "* F2".

(** C5, on the code. For the notebook of the example the title is Demo and
    the features are F1 and F2, but the description is the bullet list, not
    the paragraph after the heading: under [DOTALL] the greedy [.+] of the
    description pattern runs on to the last blank line of the cell. When the
    cell has a single blank line the paragraph after the heading is found. *)
Theorem notebook_demo_metadata :
  notebook_metadata "demo.ipynb" [{| cell_type := "markdown"; source := [demo_source] |}]
  = {| notebook_title := "Demo";
       notebook_description := "* F1" +:+ LF +:+ "* F2";
       notebook_features := ["F1"; "F2"] |}
  /\ notebook_description
       (notebook_metadata "demo.ipynb"
          [{| cell_type := "markdown";
              source := ["# Demo" +:+ LF +:+ LF +:+ "Short blurb."] |}])
     = "Short blurb.".
Proof. split; vm_compute; reflexivity. Qed.

(** ** Link suffixing *)

Definition DQ_char : ascii := ascii_of_nat 34.

(** [<a[^>]+href=Q[^Q]+Q>[^<]+</a>], where Q stands for the double quote *)
Definition anchor_re : Re.regex :=
  Re.seqs [Re.lit "<a"; Re.plus true (Re.not_char ">"); Re.lit ("href=" +:+ DQ);
           Re.plus true (Re.not_char DQ_char); Re.lit (DQ +:+ ">");
           Re.plus true (Re.not_char "<"); Re.lit "</a>"].

(** [href=Q([^Q]+)Q] *)
Definition href_re : Re.regex :=
  Re.seqs [Re.lit ("href=" +:+ DQ); Re.Group 1 (Re.plus true (Re.not_char DQ_char));
           Re.lit DQ].

(** [\.(c|h|py|sh|md)$] *)
Definition doc_ext_re : Re.regex :=
  Re.seqs [Re.char ".";
           Re.Group 1 (Re.Alt (Re.lit "c") (Re.Alt (Re.lit "h") (Re.Alt (Re.lit "py")
                        (Re.Alt (Re.lit "sh") (Re.lit "md")))));
           Re.Eol false].

(** The test that leaves a link alone: an external link, an anchor of the
    page, or a link that ends in [.html] already. *)
Definition skipped_href (href : string) : bool :=
  startswith href "http" || startswith href "https" || startswith href "#"
  || endswith href ".html".

(** [fix_doc_links] on the text [link_tag] of the match. *)
Definition fix_doc_links (link_tag : string) : option string :=
  match Re.search href_re link_tag with
  | Some href_match =>
      let href := group1 href_match in
      if skipped_href href then Some link_tag
      else
        match Re.search doc_ext_re href with
        | Some _ =>
            Re.sub href_re (Re.template ("href=" +:+ DQ +:+ href +:+ ".html" +:+ DQ))
                   link_tag
        | None => Some link_tag
        end
  | None => Some link_tag
  end.

(** The link-suffixing pass of [post_process_python_shell_html]. *)
Definition link_suffixing (processed_html : string) : option string :=
  Re.sub anchor_re (fun m => fix_doc_links (Re.group0 m)) processed_html.

(** The anchor [<a href=Qhref Q>text</a>]. *)
Definition anchor (href text : string) : string :=
  "<a href=" +:+ DQ +:+ href +:+ DQ +:+ ">" +:+ text +:+ "</a>".

Lemma link_suffixing_examples :
  link_suffixing (anchor "util.py" "x") = Some (anchor "util.py.html" "x")
  /\ link_suffixing (anchor "https://example.com/util.py" "x")
     = Some (anchor "https://example.com/util.py" "x")
  /\ link_suffixing (anchor "#sec" "x") = Some (anchor "#sec" "x")
  /\ link_suffixing (anchor "util.py.html" "x") = Some (anchor "util.py.html" "x").
Proof. repeat split; vm_compute; reflexivity. Qed.

(** ** The disk, the console and the external tools *)

(** What the generator reads and writes: the regular files with their
    content, the directories, and the lines printed. A path is a directory
    when it is in [dirs] and holds no regular file. The disk has no
    permissions: a regular file can be read and replaced, and the directory
    above a file that is written is taken to exist. *)
Record world := {
  files : gmap path string;
  dirs : gset path;
  printed : list string
}.

(** A Python exception: its class and its message. *)
Record exn := { exn_class : string; exn_msg : string }.

(** A computation that reads and writes the world and may raise. *)
Definition M (A : Type) : Type := world -> (exn + A) * world.

Definition ret {A} (a : A) : M A := fun w => (inr a, w).
Definition raise {A} (e : exn) : M A := fun w => (inl e, w).

Definition bind {A B} (m : M A) (k : A -> M B) : M B :=
  fun w =>
    match m w with
    | (inr a, w') => k a w'
    | (inl e, w') => (inl e, w')
    end.

(** [try: m except Exception as e: h e] *)
Definition try_except {A} (m : M A) (h : exn -> M A) : M A :=
  fun w =>
    match m w with
    | (inr a, w') => (inr a, w')
    | (inl e, w') => h e w'
    end.

Notation "'do' x <- m ; k" := (bind m (fun x => k))
  (at level 10, x name, m at level 100, k at level 200).
Notation "m ;; k" := (bind m (fun _ => k))
  (at level 100, k at level 200, right associativity).

(** [str(p)] of an absolute path. *)
Definition path_str (p : path) : string := "/" +:+ join "/" p.

(** [str(e)] *)
Definition exn_str (e : exn) : string := exn_msg e.

Definition FileNotFoundError (p : path) : exn :=
  {| exn_class := "FileNotFoundError";
     exn_msg := "[Errno 2] No such file or directory: '" +:+ path_str p +:+ "'" |}.

(** [print(line)] *)
Definition print (line : string) : M unit :=
  fun w => (inr tt, {| files := files w; dirs := dirs w; printed := printed w ++ [line] |}).

Definition IsADirectoryError (p : path) : exn :=
  {| exn_class := "IsADirectoryError";
     exn_msg := "[Errno 21] Is a directory: '" +:+ path_str p +:+ "'" |}.

(** The exception of [open(p)] when no regular file is at [p]: the path is
    a directory or it is missing. *)
Definition open_error (w : world) (p : path) : exn :=
  if bool_decide (p ∈ dirs w) then IsADirectoryError p else FileNotFoundError p.

(** [open(p, 'r').read()] *)
Definition read_text (p : path) : M string :=
  fun w =>
    match files w !! p with
    | Some content => (inr content, w)
    | None => (inl (open_error w p), w)
    end.

(** [open(p, 'w').write(content)]: a regular file is replaced, a missing one
    is created, and a directory raises. *)
Definition write_text (p : path) (content : string) : M unit :=
  fun w =>
    match files w !! p with
    | None =>
        if bool_decide (p ∈ dirs w) then (inl (IsADirectoryError p), w)
        else (inr tt, {| files := <[p := content]> (files w); dirs := dirs w;
                         printed := printed w |})
    | Some _ => (inr tt, {| files := <[p := content]> (files w); dirs := dirs w;
                            printed := printed w |})
    end.

(** [p.exists()] *)
Definition exists_path (p : path) : M bool :=
  fun w => (inr (bool_decide (is_Some (files w !! p)) || bool_decide (p ∈ dirs w)), w).

(** The ancestors of [p] and [p] itself, the shortest first. *)
Definition ancestors (p : path) : list path :=
  List.map (fun k => firstn k p) (List.seq 1 (List.length p)).

(** [p.mkdir(parents=True, exist_ok=True)]; a regular file in the way
    raises: [FileExistsError] when it is at [p] itself, [NotADirectoryError]
    when it is at a directory above [p]. *)
Definition mkdir_parents (p : path) : M unit :=
  fun w =>
    if existsb (fun q => bool_decide (is_Some (files w !! q))) (ancestors p)
    then (inl (if bool_decide (is_Some (files w !! p))
               then {| exn_class := "FileExistsError";
                       exn_msg := "[Errno 17] File exists: '" +:+ path_str p +:+ "'" |}
               else {| exn_class := "NotADirectoryError";
                       exn_msg := "[Errno 20] Not a directory: '" +:+ path_str p +:+ "'" |}),
          w)
    else (inr tt, {| files := files w; dirs := list_to_set (ancestors p) ∪ dirs w;
                     printed := printed w |}).

(** The result of a subprocess: return code, standard output and standard
    error. *)
Record completed := {
  returncode : Z;
  stdout : string;
  stderr : string
}.

(** The external programs, each a function of its command line, its
    standard input and the world, which it may change; starting one may
    raise. *)
Record tools := {
  literate_c : list string -> M completed;
  pandoc : list string -> string -> M completed
}.

(** The command-line flags. *)
Record flags := {
  DEBUG : bool;
  FORCE_REBUILD : bool
}.

(** [debug_print] *)
Definition debug_print (fl : flags) (message : string) : M unit :=
  if DEBUG fl then print message else ret tt.

(** ** The C preprocessor *)

(** The plain rendering of a C file: its name as a heading, then its content
    in a code block tagged c. *)
Definition markdown_content_of (file_name file_content : string) : string :=
  "# " +:+ file_name +:+ LF +:+ LF +:+ "```c" +:+ LF +:+ file_content +:+ LF +:+ "```" +:+ LF.

(** [process_c_file] *)
Definition process_c_file (tl : tools) (fl : flags) (file_path literate_c_script : path)
  : M string :=
  do file_content <- read_text file_path;
  let markdown_content := markdown_content_of (name file_path) file_content in
  let literate_c_cmd := [path_str literate_c_script; path_str file_path; "0"] in
  try_except
    (do preproc_proc <- literate_c tl literate_c_cmd;
     let content := stdout preproc_proc in
     if (returncode preproc_proc =? 0) && negb (String.eqb (strip content) "")
     then ret (replace content "~~~literatec" "~~~c")
     else
       debug_print fl ("  [Debug] Using simple markdown for " +:+ path_str file_path
                       +:+ " due to literate-c error: " +:+ stderr preproc_proc);;
       ret markdown_content)
    (fun e =>
       debug_print fl ("  [Debug] Using simple markdown for " +:+ path_str file_path
                       +:+ " due to error: " +:+ exn_str e);;
       ret markdown_content).

(** A tool that exits with code 0 after printing a single line feed, and a
    disk with one C file. *)
Definition blank_tools : tools :=
  {| literate_c := fun _ => ret {| returncode := 0; stdout := LF; stderr := "" |};
     pandoc := fun _ _ => ret {| returncode := 0; stdout := ""; stderr := "" |} |}.

Definition quiet : flags := {| DEBUG := false; FORCE_REBUILD := false |}.

Definition one_c_file : world :=
  {| files := {[ ["repo"; "src"; "a.c"] := "int x;" ]}; dirs := ∅; printed := [] |}.

(** C6, as stated, fails: the tool exits with code 0 and its output, a line
    feed, is not empty, yet the result is the plain rendering and not that
    output. *)
Lemma process_c_file_blank_output :
  exists proc w1,
    literate_c blank_tools ["/repo/literate-c"; "/repo/src/a.c"; "0"] one_c_file
    = (inr proc, w1)
    /\ returncode proc = 0
    /\ stdout proc <> ""
    /\ fst (process_c_file blank_tools quiet ["repo"; "src"; "a.c"] ["repo"; "literate-c"]
                           one_c_file)
       = inr (markdown_content_of "a.c" "int x;")
    /\ fst (process_c_file blank_tools quiet ["repo"; "src"; "a.c"] ["repo"; "literate-c"]
                           one_c_file)
       <> inr (replace (stdout proc) "~~~literatec" "~~~c").
Proof.
  eexists _, _. split; [reflexivity|].
  split; [reflexivity|]. split; [discriminate|].
  split; [vm_compute; reflexivity|]. vm_compute. discriminate.
Qed.

(** C6, amended. For a readable C file: when the tool exits with code 0 and
    its output holds a character that is not whitespace, the result is that
    output with the marker ~~~literatec replaced by ~~~c; when the tool exits
    with another code, prints nothing but whitespace, or cannot be run, the
    result is the plain rendering: the file name as a heading, then the
    whole content in a code block tagged c. *)
Theorem process_c_file_result (tl : tools) (fl : flags) (file_path literate_c_script : path)
        (w : world) (file_content : string) :
  files w !! file_path = Some file_content ->
  let cmd := [path_str literate_c_script; path_str file_path; "0"] in
  let fallback :=
    "# " +:+ name file_path +:+ LF +:+ LF +:+ "```c" +:+ LF +:+ file_content +:+ LF
    +:+ "```" +:+ LF in
  (forall proc w1,
      literate_c tl cmd w = (inr proc, w1) ->
      returncode proc = 0 -> strip (stdout proc) <> "" ->
      fst (process_c_file tl fl file_path literate_c_script w)
      = inr (replace (stdout proc) "~~~literatec" "~~~c"))
  /\ (forall proc w1,
        literate_c tl cmd w = (inr proc, w1) ->
        returncode proc <> 0 \/ strip (stdout proc) = "" ->
        fst (process_c_file tl fl file_path literate_c_script w) = inr fallback)
  /\ (forall e w1,
        literate_c tl cmd w = (inl e, w1) ->
        fst (process_c_file tl fl file_path literate_c_script w) = inr fallback).
Proof.
  intros Hfile cmd fallback.
  assert (Hchar :
            fst (process_c_file tl fl file_path literate_c_script w)
            = inr (match literate_c tl cmd w with
                   | (inr proc, _) =>
                       if (returncode proc =? 0) && negb (String.eqb (strip (stdout proc)) "")
                       then replace (stdout proc) "~~~literatec" "~~~c"
                       else fallback
                   | (inl _, _) => fallback
                   end)).
  { unfold process_c_file, try_except, bind, read_text. rewrite Hfile.
    fold cmd. destruct (literate_c tl cmd w) as [[e|proc] w1].
    - unfold debug_print, print, ret. now destruct (DEBUG fl).
    - destruct (_ && _); [reflexivity|].
      unfold debug_print, print, ret. now destruct (DEBUG fl). }
  rewrite Hchar. repeat split.
  - intros proc w1 Hrun Hrc Hout. rewrite Hrun, Hrc. simpl.
    destruct (String.eqb_spec (strip (stdout proc)) ""); [contradiction|reflexivity].
  - intros proc w1 Hrun Hbad. rewrite Hrun.
    destruct Hbad as [Hrc|Hout].
    + now destruct (Z.eqb_spec (returncode proc) 0).
    + rewrite Hout. now rewrite andb_false_r.
  - intros e w1 Hrun. now rewrite Hrun.
Qed.

Lemma process_c_file_result_witness :
  fst (process_c_file blank_tools quiet ["repo"; "src"; "a.c"] ["repo"; "literate-c"]
                      one_c_file)
  = inr ("# a.c" +:+ LF +:+ LF +:+ "```c" +:+ LF +:+ "int x;" +:+ LF +:+ "```" +:+ LF).
Proof.
  refine (proj1 (proj2 (process_c_file_result blank_tools quiet ["repo"; "src"; "a.c"]
                          ["repo"; "literate-c"] one_c_file "int x;" _))
                {| returncode := 0; stdout := LF; stderr := "" |} one_c_file _ _).
  - reflexivity.
  - reflexivity.
  - right. reflexivity.
Defined.

(** ** The copy-button script *)

(** The text of [copy_js]. *)
Definition copy_js : string :=
  "
    <script type=" +:+ DQ +:+ "text/javascript" +:+ DQ +:+ ">
    document.addEventListener('DOMContentLoaded', function() {
        // Add copy button to each code block container
        const codeBlocks = document.querySelectorAll('.code-block-container pre');
        codeBlocks.forEach(function(codeBlock, index) {
            // Create button element
            const button = document.createElement('button');
            button.className = 'copy-button';
            button.textContent = 'Copy';
            button.setAttribute('aria-label', 'Copy code to clipboard');
            button.setAttribute('data-copy-state', 'copy');
            
            // Get the code block container (parent of the pre)
            const container = codeBlock.parentNode;
            
            // Add the button to the container
            container.appendChild(button);
            
            // Set up click event
            button.addEventListener('click', function() {
                // Create a textarea element to copy from
                const textarea = document.createElement('textarea');
                // Get the text content from the pre element (the actual code)
                textarea.value = codeBlock.textContent;
                document.body.appendChild(textarea);
                textarea.select();
                
                try {
                    // Execute copy command
                    document.execCommand('copy');
                    // Update button state
                    button.textContent = 'Copied!';
                    button.classList.add('copied');
                    
                    // Reset button state after 2 seconds
                    setTimeout(function() {
                        button.textContent = 'Copy';
                        button.classList.remove('copied');
                    }, 2000);
                } catch (err) {
                    console.error('Copy failed:', err);
                    button.textContent = 'Error!';
                }
                
                // Clean up
                document.body.removeChild(textarea);
            });
        });
    });
    </script>
        ".

(** The page built around a content that has no body tag. *)
Definition body_scaffold (content : string) : string :=
  "<!DOCTYPE html>
<html xmlns=" +:+ DQ +:+ "http://www.w3.org/1999/xhtml" +:+ DQ +:+ ">
<head>
    <meta http-equiv=" +:+ DQ +:+ "Content-Type" +:+ DQ +:+ " content=" +:+ DQ +:+ "text/html; charset=UTF-8" +:+ DQ +:+ " />
</head>
<body>
"
  +:+ content +:+ "
" +:+ copy_js +:+ "
</body>
</html>".

(** The content that [insert_javascript_in_html] writes back, [None] when
    it finds the marker of the copy button and writes nothing. *)
Definition insert_javascript (content : string) : option string :=
  if contains content ("class=" +:+ DQ +:+ "copy-button" +:+ DQ) then None
  else
    let body_end_idx := find content "</body>" in
    if body_end_idx =? -1 then
      let body_start_idx := find content "<body>" in
      if negb (body_start_idx =? -1) then Some (content +:+ copy_js)
      else Some (body_scaffold content)
    else
      Some (stake (Z.to_nat body_end_idx) content +:+ copy_js
            +:+ sdrop (Z.to_nat body_end_idx) content).

(** [insert_javascript_in_html] *)
Definition insert_javascript_in_html (fl : flags) (html_file_path : path) : M bool :=
  try_except
    (do content <- read_text html_file_path;
     match insert_javascript content with
     | None => ret true
     | Some modified_content =>
         (if (find content "</body>" =? -1) && (find content "<body>" =? -1)
          then debug_print fl ("Warning: No body tag found in " +:+ path_str html_file_path
                               +:+ ", creating complete HTML structure")
          else ret tt);;
         write_text html_file_path modified_content;;
         ret true
     end)
    (fun e =>
       print ("Error inserting JavaScript in " +:+ path_str html_file_path +:+ ": "
              +:+ exn_str e);;
       ret false).

(** A page with a body and no copy button, alone on the disk. *)
Definition plain_page : world :=
  {| files := {[ ["repo"; "docs"; "a.html"] := "<html><body><p>hi</p></body></html>" ]};
     dirs := ∅; printed := [] |}.

(** C10, on the code. The script that is inserted does not hold the marker
    that the function looks for (the script sets className to 'copy-button',
    the marker is the attribute class= followed by the quoted name), so a
    second application to the page it has processed finds no marker and
    inserts the script once more: both applications return True, and the
    content changes again. *)
Theorem insert_javascript_twice :
  let p := ["repo"; "docs"; "a.html"] in
  let r1 := insert_javascript_in_html quiet p plain_page in
  let r2 := insert_javascript_in_html quiet p (snd r1) in
  contains copy_js ("class=" +:+ DQ +:+ "copy-button" +:+ DQ) = false
  /\ fst r1 = inr true
  /\ files (snd r1) !! p = Some ("<html><body><p>hi</p>" +:+ copy_js +:+ "</body></html>")
  /\ fst r2 = inr true
  /\ files (snd r2) !! p
     = Some ("<html><body><p>hi</p>" +:+ copy_js +:+ copy_js +:+ "</body></html>")
  /\ files (snd r2) !! p <> files (snd r1) !! p.
Proof.
  cbv zeta. repeat split; try (vm_compute; reflexivity).
  vm_compute. discriminate.
Qed.

(** ** The build driver *)

(** The constants of the configuration. [DOCS_DIR] is [REPO_ROOT / 'docs']. *)
Record site := {
  REPO_ROOT : path;
  DARCSIT_DIR : path;
  TEMPLATE_PATH : path;
  LITERATE_C_SCRIPT : path;
  BASE_URL : string;
  WIKI_TITLE : string;
  REPO_NAME : string
}.

Definition DOCS_DIR (st : site) : path := joinpath (REPO_ROOT st) ["docs"].

(** The callees of [process_file_with_page2html_logic] whose text
    transformations are not studied here; each may read and write the world
    and raise, and the theorems on the driver hold whatever they do. *)
Record steps := {
  process_python_file : path -> M string;
  process_jupyter_notebook : path -> M string;
  post_process_python_shell_html : string -> M string;
  run_awk_post_processing : string -> path -> M string;
  post_process_c_html : string -> path -> M string
}.

(** [str(p)] and [p.as_posix()] of a relative path. *)
Definition rel_str (p : path) : string :=
  match p with
  | [] => "."
  | _ :: _ => join "/" p
  end.

(** [p.relative_to(other)] in the monad. *)
Definition relative_to_M (p other : path) : M path :=
  match relative_to p other with
  | Some rel => ret rel
  | None => raise {| exn_class := "ValueError";
                     exn_msg := "'" +:+ path_str p +:+ "' is not in the subpath of '"
                                +:+ path_str other +:+ "'" |}
  end.

(** [shutil.copy2(src, dst)] for a file destination. *)
Definition copy2 (src dst : path) : M unit :=
  do content <- read_text src;
  write_text dst content.

(** [process_markdown_file] *)
Definition process_markdown_file (file_path : path) : M string := read_text file_path.

(** [process_shell_file] *)
Definition process_shell_file (file_path : path) : M string :=
  do file_content <- read_text file_path;
  ret ("```bash" +:+ LF +:+ file_content +:+ LF +:+ "```").

(** [prepare_pandoc_input] *)
Definition prepare_pandoc_input (tl : tools) (fl : flags) (sp : steps)
           (file_path literate_c_script : path) : M string :=
  let file_suffix := lower (suffix file_path) in
  let file_name := name file_path in
  if String.eqb file_suffix ".md" then process_markdown_file file_path
  else if String.eqb file_suffix ".py" then process_python_file sp file_path
  else if String.eqb file_suffix ".sh" then process_shell_file file_path
  else if String.eqb file_suffix ".ipynb" then process_jupyter_notebook sp file_path
  else if String.eqb file_name "Makefile" then process_shell_file file_path
  else process_c_file tl fl file_path literate_c_script.

(** [seo_metadata.get(key, '')]; [extract_seo_metadata] has no return
    statement, so the metadata is [None], which [run_pandoc] replaces by an
    empty dictionary. *)
Definition seo_get (seo_metadata : option (gmap string string)) (key : string) : string :=
  match seo_metadata with
  | Some d => default "" (d !! key)
  | None => ""
  end.

Definition extract_seo_metadata (file_path : path) (file_content : string)
  : option (gmap string string) := None.

(** [<a[^>]*>\s*</a>] *)
Definition empty_anchor_re : Re.regex :=
  Re.seqs [Re.lit "<a"; Re.Star true (Re.not_char ">"); Re.char ">";
           Re.Star true Re.space; Re.lit "</a>"].

(** The page that [run_pandoc] builds around an output without doctype or
    html tag. *)
Definition fixed_content_of (wiki_title page_title : string)
           (seo_metadata : option (gmap string string)) (content : string) : string :=
  "<!DOCTYPE html>
<html xmlns=" +:+ DQ +:+ "http://www.w3.org/1999/xhtml" +:+ DQ +:+ ">
<head>
    <meta http-equiv=" +:+ DQ +:+ "Content-Type" +:+ DQ +:+ " content=" +:+ DQ +:+ "text/html; charset=UTF-8" +:+ DQ +:+ " />
    <title>"
  +:+ wiki_title
  +:+ " - "
  +:+ page_title
  +:+ "</title>
    <meta name=" +:+ DQ +:+ "description" +:+ DQ +:+ " content=" +:+ DQ
  +:+ seo_get seo_metadata "description"
  +:+ DQ +:+ " />
    <meta name=" +:+ DQ +:+ "keywords" +:+ DQ +:+ " content=" +:+ DQ
  +:+ seo_get seo_metadata "keywords"
  +:+ DQ +:+ " />
</head>
<body>
"
  +:+ content
  +:+ "
</body>
</html>".

(** [run_pandoc] *)
Definition run_pandoc (tl : tools) (fl : flags) (st : site) (pandoc_input : string)
           (output_html_path template_path : path) (base_url wiki_title page_url
           page_title asset_path_prefix : string)
           (seo_metadata : option (gmap string string)) : M string :=
  let pandoc_cmd :=
    ["pandoc"; "-f"; "markdown+smart+raw_html"; "-t"; "html5"; "--standalone";
     "--template"; path_str template_path;
     "-V"; "base=" +:+ base_url;
     "-V"; "wikititle=" +:+ wiki_title;
     "-V"; "pageUrl=" +:+ page_url;
     "-V"; "pagetitle=" +:+ page_title;
     "-V"; "reponame=" +:+ REPO_NAME st;
     "-V"; "description=" +:+ seo_get seo_metadata "description";
     "-V"; "keywords=" +:+ seo_get seo_metadata "keywords";
     "-V"; "image=" +:+ seo_get seo_metadata "image";
     "-V"; "asset_path_prefix=" +:+ asset_path_prefix;
     "-o"; path_str output_html_path] in
  debug_print fl ("  [Debug Pandoc] Command: " +:+ join " " pandoc_cmd);;
  debug_print fl ("  [Debug Pandoc] Input content length: " +:+ str_of_Z (len pandoc_input)
                  +:+ " chars");;
  debug_print fl ("  [Debug Pandoc] First 200 chars of input: " +:+ stake 200 pandoc_input);;
  do process <- pandoc tl pandoc_cmd pandoc_input;
  debug_print fl ("  [Debug Pandoc] Return Code: " +:+ str_of_Z (returncode process));;
  (if String.eqb (stdout process) "" then ret tt
   else debug_print fl ("  [Debug Pandoc] STDOUT:" +:+ LF +:+ stdout process));;
  (if String.eqb (stderr process) "" then ret tt
   else debug_print fl ("  [Debug Pandoc] STDERR:" +:+ LF +:+ stderr process));;
  if negb (returncode process =? 0) then
    print ("Error running pandoc: " +:+ stderr process);;
    ret ""
  else
    try_except
      (do content <- read_text output_html_path;
       let content := Re.sub_with empty_anchor_re (fun _ => "") content in
       do content <-
         (if negb (contains content "<!DOCTYPE") || negb (contains content "<html")
          then
            print ("Warning: Generated HTML for " +:+ path_str output_html_path
                   +:+ " is missing DOCTYPE or html tag");;
            ret (fixed_content_of wiki_title page_title seo_metadata content)
          else ret content);
       write_text output_html_path content)
      (fun e => print ("Error verifying HTML structure: " +:+ exn_str e));;
    ret (stdout process).

(** [s.strip(chars)] *)
Definition strip_chars (s chars : string) : string := rstrip (lstrip s chars) chars.

Definition TAB : string := String (ascii_of_nat 9) EmptyString.

(** [process_file_with_page2html_logic] *)
Definition process_file_with_page2html_logic (tl : tools) (fl : flags) (st : site)
           (sp : steps) (file_path output_html_path : path) : M bool :=
  let repo_root := REPO_ROOT st in
  let docs := joinpath repo_root ["docs"] in
  do rel_in <- relative_to_M file_path repo_root;
  do rel_out <- relative_to_M output_html_path docs;
  print ("  Processing " +:+ rel_str rel_in +:+ " -> " +:+ rel_str rel_out);;
  try_except
    (let is_jupyter_notebook := String.eqb (lower (suffix file_path)) ".ipynb" in
     (if is_jupyter_notebook then
        let notebook_dest := joinpath (parent output_html_path) [name file_path] in
        try_except
          (copy2 file_path notebook_dest;;
           do rel_dest <- relative_to_M notebook_dest docs;
           print ("  Copied notebook " +:+ name file_path +:+ " to " +:+ rel_str rel_dest))
          (fun e => print ("  Warning: Failed to copy notebook file: " +:+ exn_str e))
      else ret tt);;
     do pandoc_input_content <-
       prepare_pandoc_input tl fl sp file_path (LITERATE_C_SCRIPT st);
     do rel_out' <- relative_to_M output_html_path docs;
     let page_url := replace (BASE_URL st +:+ rel_str rel_out') "//" "/" in
     do rel_in' <- relative_to_M file_path repo_root;
     let page_title := strip_chars (rel_str rel_in') ("- " +:+ TAB) in
     print ("Processing file: " +:+ name file_path +:+ " with REPO_NAME=" +:+ REPO_NAME st);;
     let seo_metadata := extract_seo_metadata file_path pandoc_input_content in
     let asset_path_prefix := calculate_asset_prefix output_html_path (DOCS_DIR st) in
     do pandoc_stdout <-
       run_pandoc tl fl st pandoc_input_content output_html_path (TEMPLATE_PATH st)
                  (BASE_URL st) (WIKI_TITLE st) page_url page_title asset_path_prefix
                  seo_metadata;
     let is_python_file := String.eqb (lower (suffix file_path)) ".py" in
     let is_shell_file := String.eqb (lower (suffix file_path)) ".sh" in
     let is_markdown_file := String.eqb (lower (suffix file_path)) ".md" in
     (if is_python_file || is_shell_file || is_markdown_file || is_jupyter_notebook then
        do html_content <- read_text output_html_path;
        do processed_html <- post_process_python_shell_html sp html_content;
        write_text output_html_path processed_html
      else
        do html_content <- read_text output_html_path;
        do processed_html <- run_awk_post_processing sp html_content file_path;
        do cleaned_html <- post_process_c_html sp processed_html file_path;
        write_text output_html_path cleaned_html);;
     insert_javascript_in_html fl output_html_path;;
     ret true)
    (fun e =>
       print ("  Error processing " +:+ path_str file_path +:+ ": " +:+ exn_str e);;
       ret false).

(** One turn of the loop of [main] over the source files. *)
Definition build_one (tl : tools) (fl : flags) (st : site) (sp : steps)
           (generated_files : gmap path path) (file_path : path)
  : M (gmap path path) :=
  do relative_path <- relative_to_M file_path (REPO_ROOT st);
  match with_suffix relative_path (suffix relative_path +:+ ".html") with
  | None => raise {| exn_class := "ValueError"; exn_msg := "Invalid suffix" |}
  | Some q =>
      let output_html_path := joinpath (DOCS_DIR st) q in
      mkdir_parents (parent output_html_path);;
      do present <- exists_path output_html_path;
      if negb (FORCE_REBUILD fl) && present then
        do rel_out <- relative_to_M output_html_path (DOCS_DIR st);
        print ("  Skipping existing file: " +:+ rel_str rel_out);;
        ret (<[file_path := output_html_path]> generated_files)
      else
        do ok <- process_file_with_page2html_logic tl fl st sp file_path output_html_path;
        if ok then ret (<[file_path := output_html_path]> generated_files)
        else ret generated_files
  end.

(** The loop of [main]: [generated_files] after all the source files. *)
Fixpoint build_all (tl : tools) (fl : flags) (st : site) (sp : steps)
         (generated_files : gmap path path) (source_files : list path)
  : M (gmap path path) :=
  match source_files with
  | [] => ret generated_files
  | file_path :: rest =>
      do generated_files' <- build_one tl fl st sp generated_files file_path;
      build_all tl fl st sp generated_files' rest
  end.

(** ** The driver: lemmas *)

Lemma bind_inr {A B} (m : M A) (k : A -> M B) (w w' : world) (a : A) :
  m w = (inr a, w') -> bind m k w = k a w'.
Proof. intros H. unfold bind. now rewrite H. Qed.

Lemma bind_inl {A B} (m : M A) (k : A -> M B) (w w' : world) (e : exn) :
  m w = (inl e, w') -> bind m k w = (inl e, w').
Proof. intros H. unfold bind. now rewrite H. Qed.

Lemma relative_to_M_Some (p other rel : path) (w : world) :
  relative_to p other = Some rel -> relative_to_M p other w = (inr rel, w).
Proof. intros H. unfold relative_to_M. now rewrite H. Qed.

Lemma mkdir_parents_ok (p : path) (w : world) :
  Forall (fun a => files w !! a = None) (ancestors p) ->
  mkdir_parents p w
  = (inr tt, {| files := files w; dirs := list_to_set (ancestors p) ∪ dirs w;
                printed := printed w |}).
Proof.
  intros H. unfold mkdir_parents.
  replace (existsb _ _) with false; [reflexivity|].
  symmetry. induction H as [|a l Ha _ IH]; [reflexivity|].
  simpl. rewrite Ha, IH. rewrite bool_decide_eq_false_2; [reflexivity|].
  intros [x Hx]. discriminate.
Qed.

(** C7. Without force-rebuild, when the output path of a source file exists
    (as a file or as a directory, with no regular file in the way of its
    directory), the turn of the loop for that file adds the pair to the
    mapping, prints that it skips the file and does nothing else: every file
    on disk, the output among them, keeps its content, and the turn is the
    same whatever the tools and the processing steps are, so none of them is
    invoked. *)
Theorem skip_existing_output (tl : tools) (fl : flags) (st : site) (sp : steps)
        (generated_files : gmap path path) (file_path relative_path q : path)
        (w : world) :
  FORCE_REBUILD fl = false ->
  relative_to file_path (REPO_ROOT st) = Some relative_path ->
  with_suffix relative_path (suffix relative_path +:+ ".html") = Some q ->
  Forall (fun a => files w !! a = None) (ancestors (parent (joinpath (DOCS_DIR st) q))) ->
  is_Some (files w !! joinpath (DOCS_DIR st) q) \/ joinpath (DOCS_DIR st) q ∈ dirs w ->
  exists w',
    build_one tl fl st sp generated_files file_path w
    = (inr (<[file_path := joinpath (DOCS_DIR st) q]> generated_files), w')
    /\ files w' = files w
    /\ printed w' = printed w ++ ["  Skipping existing file: " +:+ rel_str q]
    /\ (forall tl' sp',
           build_one tl' fl st sp' generated_files file_path w
           = build_one tl fl st sp generated_files file_path w).
Proof.
  intros Hforce Hrel Hq Habove Hex.
  assert (Hturn : forall tl0 sp0,
             build_one tl0 fl st sp0 generated_files file_path w
             = (inr (<[file_path := joinpath (DOCS_DIR st) q]> generated_files),
                {| files := files w;
                   dirs := list_to_set (ancestors (parent (joinpath (DOCS_DIR st) q)))
                           ∪ dirs w;
                   printed := printed w ++ ["  Skipping existing file: " +:+ rel_str q] |})).
  { intros tl0 sp0. unfold build_one.
    rewrite (bind_inr _ _ _ _ _ (relative_to_M_Some _ _ _ w Hrel)). rewrite Hq.
    rewrite (bind_inr _ _ _ _ _ (mkdir_parents_ok _ w Habove)).
    unfold bind at 1, exists_path. cbn [files dirs].
    replace (bool_decide _ || bool_decide _) with true.
    - rewrite Hforce. cbn [negb andb].
      unfold DOCS_DIR at 3, joinpath at 3.
      erewrite bind_inr; [|apply relative_to_M_Some, relative_to_app].
      reflexivity.
    - symmetry. apply orb_true_iff. destruct Hex as [Hex|Hex].
      + left. now apply bool_decide_eq_true_2.
      + right. apply bool_decide_eq_true_2. set_solver. }
  eexists. split; [apply Hturn|].
  split; [reflexivity|]. split; [reflexivity|].
  intros tl' sp'. now rewrite !Hturn.
Qed.

(** A small site, steps that do nothing, and a disk on which the page of
    src/a.c exists already. *)
Definition demo_site : site :=
  {| REPO_ROOT := ["repo"]; DARCSIT_DIR := ["repo"; "basilisk"; "src"; "darcsit"];
     TEMPLATE_PATH := ["repo"; ".github"; "assets"; "custom_template.temp.html"];
     LITERATE_C_SCRIPT := ["repo"; "basilisk"; "src"; "darcsit"; "literate-c"];
     BASE_URL := "/"; WIKI_TITLE := "Documentation"; REPO_NAME := "repo" |}.

Definition idle_steps : steps :=
  {| process_python_file := read_text;
     process_jupyter_notebook := read_text;
     post_process_python_shell_html := ret;
     run_awk_post_processing := fun html _ => ret html;
     post_process_c_html := fun html _ => ret html |}.

Definition built_once : world :=
  {| files := {[ ["repo"; "src"; "a.c"] := "int x;";
                 ["repo"; "docs"; "src"; "a.c.html"] := "<html>old</html>" ]};
     dirs := {[ ["repo"]; ["repo"; "src"]; ["repo"; "docs"]; ["repo"; "docs"; "src"] ]};
     printed := [] |}.

Lemma skip_existing_output_witness :
  exists w',
    build_one blank_tools quiet demo_site idle_steps ∅ ["repo"; "src"; "a.c"] built_once
    = (inr (<[ ["repo"; "src"; "a.c"] := joinpath (DOCS_DIR demo_site) ["src"; "a.c.html"] ]> ∅),
       w')
    /\ files w' = files built_once
    /\ printed w' = printed built_once ++ ["  Skipping existing file: " +:+ rel_str ["src"; "a.c.html"]]
    /\ (forall tl' sp',
           build_one tl' quiet demo_site sp' ∅ ["repo"; "src"; "a.c"] built_once
           = build_one blank_tools quiet demo_site idle_steps ∅ ["repo"; "src"; "a.c"]
                       built_once).
Proof.
  apply (skip_existing_output blank_tools quiet demo_site idle_steps ∅
           ["repo"; "src"; "a.c"] ["src"; "a.c"] ["src"; "a.c.html"] built_once).
  - reflexivity.
  - reflexivity.
  - reflexivity.
  - repeat constructor.
  - left. vm_compute. eexists. reflexivity.
Defined.

(** * Further properties

    The rest of this file covers code that the theorems above leave out:
    the insertion of the style-sheet link, the outcomes of the script
    insertion, the turns of the build loop that fail or that find the site up
    to date, the call of the renderer and the page structure after a render,
    the dispatch on the kind of file, the notebook as parsed, the rewriting
    of one link, the title of the site, the Markdown made from a Python
    source, the failures and the links of the tree parser, the descriptions
    of a directory index, the pipeline of a Makefile, the temporary file of
    the awk step and the validation of the configuration with its temporary
    template. *)

(** ** Strings: lemmas on [startswith], [find] and [contains] *)

Lemma startswith_nil (s : string) : startswith s "" = true.
Proof. now destruct s. Qed.

Lemma startswith_app (p t : string) : startswith (p +:+ t) p = true.
Proof.
  induction p as [|a p IH]; [apply startswith_nil|].
  rewrite append_cons. simpl. now rewrite Ascii.eqb_refl.
Qed.

Lemma startswith_length (s p : string) :
  startswith s p = true -> (String.length p <= String.length s)%nat.
Proof.
  revert s; induction p as [|b p IH]; intros [|a s] H; simpl in *; try lia; try discriminate.
  apply andb_true_iff in H as [_ H]. apply IH in H. lia.
Qed.

Lemma startswith_app_l (s t p : string) :
  (String.length p <= String.length s)%nat ->
  startswith (s +:+ t) p = startswith s p.
Proof.
  revert s; induction p as [|b p IH]; intros [|a s] H; simpl in *;
    rewrite ?append_nil_l, ?startswith_nil; try reflexivity; try lia.
  rewrite IH by lia. reflexivity.
Qed.

Lemma startswith_split (s p : string) :
  startswith s p = true -> s = p +:+ sdrop (String.length p) s.
Proof.
  revert s; induction p as [|b p IH]; intros [|a s] H; simpl in *; try reflexivity;
    try discriminate.
  apply andb_true_iff in H as [E H]. apply Ascii.eqb_eq in E as ->.
  rewrite append_cons. f_equal. now apply IH.
Qed.

Lemma find_eq (s p : string) :
  find s p =
  if startswith s p then 0
  else match s with
       | EmptyString => -1
       | String _ s' => if find s' p <? 0 then -1 else find s' p + 1
       end.
Proof. now destruct s. Qed.

Lemma find_range (s p : string) :
  find s p = -1 \/ (0 <= find s p /\ find s p + len p <= len s).
Proof.
  unfold len. induction s as [|a s IH]; rewrite find_eq.
  - destruct p; [right; simpl; lia | now left].
  - destruct (startswith (String a s) p) eqn:E.
    + right. apply startswith_length in E. lia.
    + destruct (Z.ltb_spec (find s p) 0); [now left|].
      right. simpl String.length. lia.
Qed.

Lemma find_startswith (s p : string) :
  0 <= find s p -> startswith (sdrop (Z.to_nat (find s p)) s) p = true.
Proof.
  induction s as [|a s IH]; rewrite find_eq.
  - destruct p; [reflexivity | simpl; lia].
  - destruct (startswith (String a s) p) eqn:E; [intros _; exact E|].
    destruct (Z.ltb_spec (find s p) 0); [lia|]. intros _.
    replace (Z.to_nat (find s p + 1)) with (S (Z.to_nat (find s p))) by lia.
    simpl. now apply IH.
Qed.

Lemma find_app_l (s t p : string) : 0 <= find s p -> find (s +:+ t) p = find s p.
Proof.
  induction s as [|a s IH]; intros H.
  - destruct p; [|simpl in H; lia]. simpl. now destruct t.
  - assert (Hl : (String.length p <= String.length (String a s))%nat).
    { destruct (find_range (String a s) p) as [E|[_ Hlen]]; unfold len in *; lia. }
    rewrite append_cons, (find_eq (String a (s +:+ t))), (find_eq (String a s)).
    rewrite find_eq in H.
    rewrite <- append_cons, startswith_app_l by exact Hl.
    destruct (startswith (String a s) p); [reflexivity|].
    destruct (Z.ltb_spec (find s p) 0) as [|Hs]; [lia|].
    rewrite (IH Hs). destruct (Z.ltb_spec (find s p) 0); [lia|reflexivity].
Qed.

Lemma find_app_mid (a p b : string) : 0 <= find (a +:+ p +:+ b) p.
Proof.
  induction a as [|c a IH].
  - rewrite append_nil_l, find_eq, startswith_app. lia.
  - rewrite append_cons, find_eq.
    destruct (startswith _ p); [lia|].
    destruct (Z.ltb_spec (find (a +:+ p +:+ b) p) 0); lia.
Qed.

Lemma contains_app_mid (a p b : string) : contains (a +:+ p +:+ b) p = true.
Proof. unfold contains. apply Z.leb_le, find_app_mid. Qed.

Lemma contains_app_l (s t p : string) :
  contains s p = true -> contains (s +:+ t) p = true.
Proof.
  unfold contains. intros H. apply Z.leb_le in H. apply Z.leb_le.
  now rewrite find_app_l.
Qed.

Lemma contains_app_r (s t p : string) :
  contains t p = true -> contains (s +:+ t) p = true.
Proof.
  unfold contains. intros H. apply Z.leb_le in H. apply Z.leb_le.
  induction s as [|a s IH]; [exact H|].
  rewrite append_cons, find_eq. destruct (startswith _ p); [lia|].
  destruct (Z.ltb_spec (find (s +:+ t) p) 0); lia.
Qed.

Lemma sdrop_nil (n : nat) : sdrop n "" = "".
Proof. now destruct n. Qed.

Lemma sdrop_add (n m : nat) (s : string) : sdrop m (sdrop n s) = sdrop (n + m) s.
Proof.
  revert s; induction n as [|n IH]; intros [|a s]; simpl; rewrite ?sdrop_nil; auto.
Qed.

Lemma length_stake_le (n : nat) (s : string) : (String.length (stake n s) <= n)%nat.
Proof.
  revert s; induction n as [|n IH]; intros [|a s]; simpl; try lia.
  specialize (IH s). lia.
Qed.

(** The first occurrence of a non-empty [p] splits [s] into a part that
    does not hold [p], then [p], then the rest. *)
Lemma find_split (s p : string) :
  p <> "" -> 0 <= find s p ->
  s = stake (Z.to_nat (find s p)) s +:+ p
      +:+ sdrop (Z.to_nat (find s p) + String.length p) s
  /\ contains (stake (Z.to_nat (find s p)) s) p = false.
Proof.
  intros Hp H. split.
  - rewrite <- sdrop_add, <- (startswith_split _ _ (find_startswith s p H)).
    now rewrite stake_sdrop.
  - unfold contains. apply Z.leb_gt.
    destruct (find_range (stake (Z.to_nat (find s p)) s) p) as [E|[H0 Hlen]]; [lia|].
    pose proof (find_app_l _ (sdrop (Z.to_nat (find s p)) s) p H0) as E.
    rewrite stake_sdrop in E.
    pose proof (length_stake_le (Z.to_nat (find s p)) s) as Hl.
    assert (0 < len p).
    { unfold len. destruct p; [congruence|simpl; lia]. }
    unfold len in *. lia.
Qed.

(** ** The style-sheet link *)

(** The link tag of [insert_css_link_in_html] for the style sheet named
    [css_name]. *)
Definition css_link_of (css_name : string) (is_root : bool) : string :=
  if is_root
  then "<link href=" +:+ DQ +:+ css_name +:+ DQ +:+ " rel=" +:+ DQ +:+ "stylesheet" +:+ DQ
       +:+ " type=" +:+ DQ +:+ "text/css" +:+ DQ +:+ " />"
  else "<link href=" +:+ DQ +:+ "../" +:+ css_name +:+ DQ +:+ " rel=" +:+ DQ +:+ "stylesheet"
       +:+ DQ +:+ " type=" +:+ DQ +:+ "text/css" +:+ DQ +:+ " />".

(** The page built around a content that has no head tag. *)
Definition head_scaffold (css_link content : string) : string :=
  "<!DOCTYPE html>
<html xmlns=" +:+ DQ +:+ "http://www.w3.org/1999/xhtml" +:+ DQ +:+ ">
<head>
    <meta http-equiv=" +:+ DQ +:+ "Content-Type" +:+ DQ +:+ " content=" +:+ DQ +:+ "text/html; charset=UTF-8" +:+ DQ +:+ " />
    " +:+ css_link +:+ "
</head>
<body>
" +:+ content +:+ "
</body>
</html>".

(** The content that [insert_css_link_in_html] writes back, [None] when a
    link to the style sheet is there already and nothing is written. *)
Definition insert_css_link (content css_name : string) (is_root : bool) : option string :=
  let css_link := css_link_of css_name is_root in
  if contains content ("link href=" +:+ DQ +:+ css_name +:+ DQ)
     || contains content ("link href=" +:+ DQ +:+ "../" +:+ css_name +:+ DQ)
  then None
  else
    let head_end_idx := find content "</head>" in
    if head_end_idx =? -1 then
      let head_start_idx := find content "<head>" in
      if negb (head_start_idx =? -1) then
        Some (stake (Z.to_nat (head_start_idx + 6)) content +:+ LF +:+ "    " +:+ css_link
              +:+ sdrop (Z.to_nat (head_start_idx + 6)) content)
      else Some (head_scaffold css_link content)
    else
      Some (stake (Z.to_nat head_end_idx) content +:+ "    " +:+ css_link +:+ LF +:+ "    "
            +:+ sdrop (Z.to_nat head_end_idx) content).

(** [insert_css_link_in_html] *)
Definition insert_css_link_in_html (fl : flags) (html_file_path css_path : path)
           (is_root : bool) : M bool :=
  try_except
    (do content <- read_text html_file_path;
     match insert_css_link content (name css_path) is_root with
     | None => ret true
     | Some modified_content =>
         (if (find content "</head>" =? -1) && (find content "<head>" =? -1)
          then debug_print fl ("Warning: No head tag found in " +:+ path_str html_file_path
                               +:+ ", creating complete HTML structure")
          else ret tt);;
         write_text html_file_path modified_content;;
         ret true
     end)
    (fun e =>
       print ("Error inserting CSS link in " +:+ path_str html_file_path +:+ ": "
              +:+ exn_str e);;
       ret false).

(** ** The style-sheet link: lemmas *)

(** The link tag holds the text that the function looks for. *)
Lemma css_link_marker (css_name : string) (is_root : bool) :
  exists post,
    css_link_of css_name is_root
    = "<" +:+ ("link href=" +:+ DQ +:+ (if is_root then "" else "../") +:+ css_name +:+ DQ)
      +:+ post.
Proof.
  exists (" rel=" +:+ DQ +:+ "stylesheet" +:+ DQ +:+ " type=" +:+ DQ +:+ "text/css" +:+ DQ
          +:+ " />").
  unfold css_link_of. destruct is_root; rewrite ?append_assoc; reflexivity.
Qed.

Lemma contains_css_link (a b css_name : string) (is_root : bool) :
  contains (a +:+ css_link_of css_name is_root +:+ b)
           ("link href=" +:+ DQ +:+ css_name +:+ DQ)
  || contains (a +:+ css_link_of css_name is_root +:+ b)
              ("link href=" +:+ DQ +:+ "../" +:+ css_name +:+ DQ) = true.
Proof.
  destruct (css_link_marker css_name is_root) as [post ->].
  apply orb_true_iff.
  replace (a +:+ ("<" +:+ ("link href=" +:+ DQ +:+ (if is_root then "" else "../")
                           +:+ css_name +:+ DQ) +:+ post) +:+ b)
    with ((a +:+ "<") +:+ ("link href=" +:+ DQ +:+ (if is_root then "" else "../")
                           +:+ css_name +:+ DQ) +:+ (post +:+ b))
    by (rewrite !append_assoc; reflexivity).
  destruct is_root; [left | right]; apply contains_app_mid.
Qed.

(** What is written holds the link tag. *)
Lemma insert_css_link_shape (content css_name : string) (is_root : bool) (c' : string) :
  insert_css_link content css_name is_root = Some c' ->
  exists a b, c' = a +:+ css_link_of css_name is_root +:+ b.
Proof.
  unfold insert_css_link. cbv zeta.
  destruct (_ || _); [discriminate|].
  destruct (find content "</head>" =? -1).
  - destruct (negb _); intros [= <-].
    + exists (stake (Z.to_nat (find content "<head>" + 6)) content +:+ LF +:+ "    "),
        (sdrop (Z.to_nat (find content "<head>" + 6)) content).
      rewrite !append_assoc. reflexivity.
    + exists ("<!DOCTYPE html>
<html xmlns=" +:+ DQ +:+ "http://www.w3.org/1999/xhtml" +:+ DQ +:+ ">
<head>
    <meta http-equiv=" +:+ DQ +:+ "Content-Type" +:+ DQ +:+ " content=" +:+ DQ +:+ "text/html; charset=UTF-8" +:+ DQ +:+ " />
    "), ("
</head>
<body>
" +:+ content +:+ "
</body>
</html>").
      unfold head_scaffold. rewrite !append_assoc. reflexivity.
  - intros [= <-].
    exists (stake (Z.to_nat (find content "</head>")) content +:+ "    "),
      (LF +:+ "    " +:+ sdrop (Z.to_nat (find content "</head>")) content).
    rewrite !append_assoc. reflexivity.
Qed.

(** X: idempotence of the link insertion on a content. *)
Lemma insert_css_link_again (content css_name : string) (is_root is_root' : bool)
      (c' : string) :
  insert_css_link content css_name is_root = Some c' ->
  insert_css_link c' css_name is_root' = None.
Proof.
  intros H. apply insert_css_link_shape in H as (a & b & ->).
  unfold insert_css_link. cbv zeta. now rewrite contains_css_link.
Qed.

Lemma insert_css_link_None (content css_name : string) (is_root is_root' : bool) :
  insert_css_link content css_name is_root = None ->
  insert_css_link content css_name is_root' = None.
Proof.
  unfold insert_css_link. cbv zeta. destruct (_ || _); [reflexivity|].
  destruct (_ =? _); [destruct (negb _)|]; discriminate.
Qed.

(** The world after a successful run of [insert_css_link_in_html] on a page
    whose content is [c]. *)
Lemma insert_css_link_in_html_run (fl : flags) (p css : path) (is_root : bool)
      (w : world) (c : string) :
  files w !! p = Some c ->
  exists w',
    insert_css_link_in_html fl p css is_root w = (inr true, w')
    /\ files w' = match insert_css_link c (name css) is_root with
                  | Some c' => <[p := c']> (files w)
                  | None => files w
                  end.
Proof.
  intros E. unfold insert_css_link_in_html, try_except, bind at 1, read_text. rewrite E.
  destruct (insert_css_link c (name css) is_root) as [c'|].
  - unfold bind, debug_print, write_text, print, ret.
    destruct (_ && _); [destruct (DEBUG fl)|]; cbn [files]; rewrite E;
      eexists; split; reflexivity.
  - eexists; split; reflexivity.
Qed.

(** X1. A second application of [insert_css_link_in_html] to the same page,
    with either value of [is_root], returns what the first returned and
    changes no file: the link tag that the first application writes holds
    the text that the function looks for. *)
Theorem insert_css_link_in_html_twice (fl : flags) (p css : path)
        (is_root is_root' : bool) (w : world) :
  let r1 := insert_css_link_in_html fl p css is_root w in
  let r2 := insert_css_link_in_html fl p css is_root' (snd r1) in
  fst r2 = fst r1
  /\ files (snd r2) = files (snd r1)
  /\ (forall c, files w !! p = Some c -> fst r1 = inr true).
Proof.
  cbv zeta. destruct (files w !! p) as [c|] eqn:E.
  - destruct (insert_css_link_in_html_run fl p css is_root w c E) as (w1 & E1 & F1).
    rewrite E1. cbn [fst snd].
    assert (exists c1, files w1 !! p = Some c1
                       /\ insert_css_link c1 (name css) is_root' = None)
      as (c1 & Ec1 & N1).
    { rewrite F1. destruct (insert_css_link c (name css) is_root) as [c'|] eqn:Ei.
      - exists c'. split; [apply lookup_insert_eq|].
        now apply (insert_css_link_again c _ is_root).
      - exists c. split; [exact E|]. now apply (insert_css_link_None c _ is_root). }
    destruct (insert_css_link_in_html_run fl p css is_root' w1 c1 Ec1) as (w2 & E2 & F2).
    rewrite E2, N1 in *. cbn [fst snd]. repeat split. exact F2.
  - unfold insert_css_link_in_html, try_except, bind, read_text, print, ret.
    rewrite E. cbn [fst snd files]. rewrite E. cbn [fst snd files].
    repeat split. intros c Hc. discriminate.
Qed.

(** ** The copy-button script: further properties *)

(** X2. [insert_javascript_in_html] never raises. It returns [True] exactly
    when the page is a regular file, and then the page holds the content
    with the script (or is left as it is when the marker is found); no file
    other than the page is touched; and for a path that is missing or is a
    directory nothing is written and one line is printed, with the error of
    [open] for that path. *)
Theorem insert_javascript_in_html_outcome (fl : flags) (p : path) (w : world) :
  let r := insert_javascript_in_html fl p w in
  fst r = inr (bool_decide (is_Some (files w !! p)))
  /\ (forall q, q <> p -> files (snd r) !! q = files w !! q)
  /\ (forall c, files w !! p = Some c ->
        files (snd r) !! p = Some (default c (insert_javascript c)))
  /\ (files w !! p = None ->
      files (snd r) = files w
      /\ printed (snd r)
         = printed w ++ ["Error inserting JavaScript in " +:+ path_str p +:+ ": "
                         +:+ exn_str (if bool_decide (p ∈ dirs w)
                                      then IsADirectoryError p
                                      else FileNotFoundError p)]).
Proof.
  cbv zeta. unfold insert_javascript_in_html, try_except, bind, read_text.
  destruct (files w !! p) as [c|] eqn:E.
  - rewrite bool_decide_eq_true_2 by eauto.
    destruct (insert_javascript c) as [c'|] eqn:Ei.
    + unfold debug_print, write_text, print, ret.
      destruct (_ && _); [destruct (DEBUG fl)|]; cbn [files]; rewrite E;
        cbn [fst snd files];
        (split; [reflexivity|]); (split; [intros q Hq; now rewrite lookup_insert_ne|]);
        (split; [|discriminate]); intros c0 [= <-]; rewrite Ei; apply lookup_insert_eq.
    + cbn [fst snd ret]. split; [reflexivity|]. split; [reflexivity|].
      split; [|discriminate]. intros c0 [= <-]. now rewrite Ei.
  - rewrite bool_decide_eq_false_2 by (intros [x Hx]; discriminate).
    unfold print, ret, open_error. cbn [fst snd files printed].
    split; [reflexivity|]. split; [reflexivity|]. split; [discriminate|].
    intros _. split; reflexivity.
Qed.

(** X3. When the page has a closing body tag (and no copy button yet), the
    script goes right before the first closing body tag and the rest of the
    page is kept as it is. *)
Theorem insert_javascript_before_body (content c' : string) :
  insert_javascript content = Some c' ->
  0 <= find content "</body>" ->
  exists pre post,
    content = pre +:+ "</body>" +:+ post
    /\ contains pre "</body>" = false
    /\ c' = pre +:+ copy_js +:+ "</body>" +:+ post.
Proof.
  unfold insert_javascript. cbv zeta.
  destruct (contains content _); [discriminate|].
  destruct (Z.eqb_spec (find content "</body>") (-1)) as [E|_]; [lia|].
  intros [= <-] H.
  assert (Hp : "</body>" <> "") by discriminate.
  destruct (find_split content "</body>" Hp H) as [Hs Hc].
  exists (stake (Z.to_nat (find content "</body>")) content),
    (sdrop (Z.to_nat (find content "</body>") + String.length "</body>") content).
  split; [exact Hs|]. split; [exact Hc|].
  do 2 f_equal.
  rewrite <- sdrop_add. apply (startswith_split _ _ (find_startswith _ _ H)).
Qed.

Lemma insert_javascript_before_body_witness :
  exists pre post,
    "<body><p>hi</p></body>" = pre +:+ "</body>" +:+ post
    /\ contains pre "</body>" = false
    /\ "<body><p>hi</p>" +:+ copy_js +:+ "</body>" = pre +:+ copy_js +:+ "</body>" +:+ post.
Proof.
  apply (insert_javascript_before_body "<body><p>hi</p></body>").
  - vm_compute. reflexivity.
  - vm_compute. discriminate.
Defined.

(** ** The driver: further lemmas *)

(** The world after some more lines are printed. *)
Definition say (w : world) (lines : list string) : world :=
  {| files := files w; dirs := dirs w; printed := printed w ++ lines |}.

Lemma bind_print {B} (line : string) (k : unit -> M B) (w : world) :
  bind (print line) k w = k tt (say w [line]).
Proof. reflexivity. Qed.

Lemma bind_ret {A B} (a : A) (k : A -> M B) (w : world) : bind (ret a) k w = k a w.
Proof. reflexivity. Qed.

(** A debug message leaves the disk alone. *)
Lemma debug_print_run (fl : flags) (message : string) (w : world) :
  exists w',
    debug_print fl message w = (inr tt, w')
    /\ files w' = files w /\ dirs w' = dirs w
    /\ (exists lines, printed w' = printed w ++ lines).
Proof.
  unfold debug_print. destruct (DEBUG fl).
  - eexists. split; [reflexivity|]. cbn. repeat split. now exists [message].
  - exists w. split; [reflexivity|]. repeat split. exists []. now rewrite app_nil_r.
Qed.

(** The handler of a [try] that never raises makes the whole never raise. *)
Lemma try_except_total {A} (m : M A) (h : exn -> M A) (w : world) :
  (forall e w0, exists a w1, h e w0 = (inr a, w1)) ->
  exists a w1, try_except m h w = (inr a, w1).
Proof.
  intros Hh. unfold try_except. destruct (m w) as [[e|a] w0]; [apply Hh|].
  now exists a, w0.
Qed.

(** The shape of the output path. *)
Lemma with_suffix_html_inv (rel q : path) :
  with_suffix rel (suffix rel +:+ ".html") = Some q ->
  name rel <> "" /\ q = removelast rel ++ [name rel +:+ ".html"].
Proof.
  unfold with_suffix.
  destruct (contains _ "/"); [discriminate|].
  destruct (_ || _); [discriminate|].
  destruct (String.eqb_spec (name rel) "") as [|Hn]; [discriminate|].
  intros [= <-]. split; [exact Hn|]. now rewrite name_with_html.
Qed.

Lemma output_path_of_Some (st : site) (file_path rel q : path) :
  relative_to file_path (REPO_ROOT st) = Some rel ->
  with_suffix rel (suffix rel +:+ ".html") = Some q ->
  output_path_of (REPO_ROOT st) (DOCS_DIR st) file_path = Some (joinpath (DOCS_DIR st) q).
Proof. intros H1 H2. unfold output_path_of. now rewrite H1, H2. Qed.

(** [process_file_with_page2html_logic] catches whatever its steps raise. *)
Lemma process_file_total (tl : tools) (fl : flags) (st : site) (sp : steps)
      (file_path rel q : path) (w : world) :
  relative_to file_path (REPO_ROOT st) = Some rel ->
  exists ok w',
    process_file_with_page2html_logic tl fl st sp file_path (joinpath (DOCS_DIR st) q) w
    = (inr ok, w').
Proof.
  intros Hrel. unfold process_file_with_page2html_logic. cbv zeta.
  rewrite (bind_inr _ _ _ _ _ (relative_to_M_Some _ _ _ w Hrel)).
  unfold DOCS_DIR at 1, joinpath at 1 2.
  rewrite (bind_inr _ _ w w q) by apply relative_to_M_Some, relative_to_app.
  rewrite bind_print.
  apply try_except_total. intros e w0. rewrite bind_print.
  now eexists _, _.
Qed.

(** The turns of [build_one]: the mapping is returned as it is or with the
    pair of the file, whenever the turn returns. *)
Lemma build_one_result (tl : tools) (fl : flags) (st : site) (sp : steps)
      (generated_files g' : gmap path path) (file_path : path) (w w' : world) :
  build_one tl fl st sp generated_files file_path w = (inr g', w') ->
  g' = generated_files
  \/ exists o, output_path_of (REPO_ROOT st) (DOCS_DIR st) file_path = Some o
               /\ g' = <[file_path := o]> generated_files.
Proof.
  unfold build_one, output_path_of, relative_to_M at 1.
  destruct (relative_to file_path (REPO_ROOT st)) as [rel|] eqn:Hrel;
    [|unfold bind, raise; discriminate].
  rewrite bind_ret.
  destruct (with_suffix rel _) as [q|] eqn:Hq; [|unfold raise; discriminate].
  unfold bind at 1. destruct (mkdir_parents _ w) as [[e|[]] w1]; [discriminate|].
  unfold bind at 1, exists_path at 1.
  destruct (negb (FORCE_REBUILD fl) && _).
  - unfold DOCS_DIR at 1, joinpath at 1.
    rewrite (bind_inr _ _ w1 w1 q) by apply relative_to_M_Some, relative_to_app.
    rewrite bind_print. intros [= <- <-]. right. now eexists.
  - destruct (process_file_total tl fl st sp file_path rel q w1 Hrel) as (ok & w2 & E).
    rewrite (bind_inr _ _ _ _ _ E).
    destruct ok; intros [= <- <-]; [right; now eexists | now left].
Qed.

(** The turn of [build_one] for a file whose page exists. *)
Lemma build_one_skip (tl : tools) (fl : flags) (st : site) (sp : steps)
      (generated_files : gmap path path) (file_path rel q : path) (w : world) :
  FORCE_REBUILD fl = false ->
  relative_to file_path (REPO_ROOT st) = Some rel ->
  with_suffix rel (suffix rel +:+ ".html") = Some q ->
  Forall (fun a => files w !! a = None) (ancestors (parent (joinpath (DOCS_DIR st) q))) ->
  is_Some (files w !! joinpath (DOCS_DIR st) q) ->
  build_one tl fl st sp generated_files file_path w
  = (inr (<[file_path := joinpath (DOCS_DIR st) q]> generated_files),
     {| files := files w;
        dirs := list_to_set (ancestors (parent (joinpath (DOCS_DIR st) q))) ∪ dirs w;
        printed := printed w ++ ["  Skipping existing file: " +:+ rel_str q] |}).
Proof.
  intros Hforce Hrel Hq Habove Hex. unfold build_one.
  rewrite (bind_inr _ _ _ _ _ (relative_to_M_Some _ _ _ w Hrel)). rewrite Hq.
  rewrite (bind_inr _ _ _ _ _ (mkdir_parents_ok _ w Habove)).
  unfold bind at 1, exists_path. cbn [files dirs].
  rewrite (bool_decide_eq_true_2 _ Hex), Hforce. cbn [negb andb orb].
  unfold DOCS_DIR at 3, joinpath at 3.
  erewrite bind_inr; [|apply relative_to_M_Some, relative_to_app].
  reflexivity.
Qed.

(** A source file is up to date on a disk when its page is there and no
    regular file stands where a directory of the page has to be. *)
Definition up_to_date (st : site) (disk : gmap path string) (file_path : path) : Prop :=
  exists rel q,
    relative_to file_path (REPO_ROOT st) = Some rel
    /\ with_suffix rel (suffix rel +:+ ".html") = Some q
    /\ Forall (fun a => disk !! a = None) (ancestors (parent (joinpath (DOCS_DIR st) q)))
    /\ is_Some (disk !! joinpath (DOCS_DIR st) q).

Lemma build_all_skip (fl : flags) (st : site) (source_files : list path) :
  FORCE_REBUILD fl = false ->
  forall (generated_files : gmap path path) (w : world),
    Forall (up_to_date st (files w)) source_files ->
    exists g' w',
      (forall tl sp,
          build_all tl fl st sp generated_files source_files w = (inr g', w'))
      /\ files w' = files w
      /\ (forall f, f ∈ source_files ->
            exists o, output_path_of (REPO_ROOT st) (DOCS_DIR st) f = Some o
                      /\ g' !! f = Some o)
      /\ (forall f, f ∉ source_files -> g' !! f = generated_files !! f).
Proof.
  intros Hforce. induction source_files as [|file rest IH]; intros gen w Hall.
  - exists gen, w. split; [reflexivity|]. split; [reflexivity|]. split.
    + intros f Hf. now apply elem_of_nil in Hf.
    + reflexivity.
  - apply Forall_cons in Hall as [(rel & q & Hrel & Hq & Habove & Hex) Hall].
    set (w1 := {| files := files w;
                  dirs := list_to_set (ancestors (parent (joinpath (DOCS_DIR st) q)))
                          ∪ dirs w;
                  printed := printed w ++ ["  Skipping existing file: " +:+ rel_str q] |}).
    destruct (IH (<[file := joinpath (DOCS_DIR st) q]> gen) w1 Hall)
      as (g' & w' & Hrun & Hfiles & Hin & Hout).
    exists g', w'. split; [|split; [exact Hfiles|split]].
    + intros tl sp. cbn [build_all].
      rewrite (bind_inr _ _ _ _ _
                 (build_one_skip tl fl st sp gen file rel q w Hforce Hrel Hq Habove Hex)).
      apply Hrun.
    + intros f Hf. destruct (decide (f ∈ rest)) as [Hr|Hr]; [now apply Hin|].
      apply elem_of_cons in Hf as [->|Hf]; [|contradiction].
      exists (joinpath (DOCS_DIR st) q). split; [now apply output_path_of_Some with rel|].
      rewrite (Hout _ Hr). apply lookup_insert_eq.
    + intros f Hf. apply not_elem_of_cons in Hf as [Hne Hf].
      rewrite (Hout _ Hf). now apply lookup_insert_ne.
Qed.

(** X4. [build_one] returns: for a file below the repository root whose
    page directory can be made, the turn of the loop never raises, whatever
    the tools and the processing steps do, and the mapping that it returns
    is the one it was given or that one with the pair of the file. *)
Theorem build_one_returns (tl : tools) (fl : flags) (st : site) (sp : steps)
        (generated_files : gmap path path) (file_path rel q : path) (w : world) :
  relative_to file_path (REPO_ROOT st) = Some rel ->
  with_suffix rel (suffix rel +:+ ".html") = Some q ->
  Forall (fun a => files w !! a = None) (ancestors (parent (joinpath (DOCS_DIR st) q))) ->
  exists g' w',
    build_one tl fl st sp generated_files file_path w = (inr g', w')
    /\ (g' = generated_files
        \/ g' = <[file_path := joinpath (DOCS_DIR st) q]> generated_files).
Proof.
  intros Hrel Hq Habove. unfold build_one.
  rewrite (bind_inr _ _ _ _ _ (relative_to_M_Some _ _ _ w Hrel)). rewrite Hq.
  rewrite (bind_inr _ _ _ _ _ (mkdir_parents_ok _ w Habove)).
  unfold bind at 1, exists_path at 1.
  destruct (negb (FORCE_REBUILD fl) && _).
  - unfold DOCS_DIR at 1, joinpath at 1.
    erewrite bind_inr; [|apply relative_to_M_Some, relative_to_app].
    rewrite bind_print. eexists _, _. split; [reflexivity|]. now right.
  - match goal with
    | |- context [bind _ _ ?w1] =>
        destruct (process_file_total tl fl st sp file_path rel q w1 Hrel) as (ok & w2 & E)
    end.
    rewrite (bind_inr _ _ _ _ _ E).
    destruct ok; eexists _, _; (split; [reflexivity|]); [now right | now left].
Qed.

(** X5. The mapping after the loop: whenever [build_all] returns, each entry
    of the mapping was there before the loop or maps a file of the list to
    its output path. *)
Theorem build_all_mapping (tl : tools) (fl : flags) (st : site) (sp : steps)
        (source_files : list path) (generated_files g' : gmap path path) (w w' : world) :
  build_all tl fl st sp generated_files source_files w = (inr g', w') ->
  forall f o,
    g' !! f = Some o ->
    generated_files !! f = Some o
    \/ (f ∈ source_files
        /\ output_path_of (REPO_ROOT st) (DOCS_DIR st) f = Some o).
Proof.
  revert generated_files w.
  induction source_files as [|file rest IH]; intros gen w Hrun f o Hf.
  - injection Hrun as <- <-. now left.
  - cbn [build_all] in Hrun. unfold bind in Hrun.
    destruct (build_one tl fl st sp gen file w) as [[e|g1] w1] eqn:E1; [discriminate|].
    destruct (IH g1 w1 Hrun f o Hf) as [H1|[Hin Ho]].
    + destruct (build_one_result _ _ _ _ _ _ _ _ _ E1) as [->|(o1 & Ho1 & ->)];
        [now left|].
      destruct (decide (file = f)) as [->|Hne].
      * rewrite lookup_insert_eq in H1. injection H1 as <-.
        right. split; [apply elem_of_cons; now left | exact Ho1].
      * rewrite lookup_insert_ne in H1 by exact Hne. now left.
    + right. split; [apply elem_of_cons; now right | exact Ho].
Qed.

(** X6. An incremental build of a site that is up to date: without
    force-rebuild, when the page of every source file of the list exists,
    the loop returns, no file on disk changes, every file of the list is
    mapped to its output path, the other entries of the mapping are kept,
    and the run is the same whatever the tools and the processing steps
    are: none of them is invoked. *)
Theorem build_all_up_to_date (tl : tools) (fl : flags) (st : site) (sp : steps)
        (source_files : list path) (generated_files : gmap path path) (w : world) :
  FORCE_REBUILD fl = false ->
  Forall (up_to_date st (files w)) source_files ->
  exists g' w',
    build_all tl fl st sp generated_files source_files w = (inr g', w')
    /\ files w' = files w
    /\ (forall f, f ∈ source_files ->
          exists o, output_path_of (REPO_ROOT st) (DOCS_DIR st) f = Some o
                    /\ g' !! f = Some o)
    /\ (forall f, f ∉ source_files -> g' !! f = generated_files !! f)
    /\ (forall tl' sp',
          build_all tl' fl st sp' generated_files source_files w
          = build_all tl fl st sp generated_files source_files w).
Proof.
  intros Hforce Hall.
  destruct (build_all_skip fl st source_files Hforce generated_files w Hall)
    as (g' & w' & Hrun & Hfiles & Hin & Hout).
  exists g', w'. split; [apply Hrun|]. split; [exact Hfiles|].
  split; [exact Hin|]. split; [exact Hout|].
  intros tl' sp'. now rewrite !Hrun.
Qed.

(** ** The call of the renderer *)

Lemma say_nil (w : world) : say w [] = w.
Proof. destruct w. unfold say. cbn. now rewrite app_nil_r. Qed.

Lemma say_say (w : world) (l1 l2 : list string) : say (say w l1) l2 = say w (l1 ++ l2).
Proof. unfold say. cbn. now rewrite app_assoc. Qed.

Lemma debug_print_eq (fl : flags) (message : string) (w : world) :
  debug_print fl message w = (inr tt, say w (if DEBUG fl then [message] else [])).
Proof.
  unfold debug_print. destruct (DEBUG fl); [reflexivity|]. now rewrite say_nil.
Qed.

Lemma bind_debug_print {B} (fl : flags) (message : string) (k : unit -> M B) (w : world) :
  bind (debug_print fl message) k w = k tt (say w (if DEBUG fl then [message] else [])).
Proof. apply bind_inr, debug_print_eq. Qed.

(** A debug message that is printed under a condition. *)
Lemma bind_if_debug_print {B} (fl : flags) (b : bool) (message : string)
      (k : unit -> M B) (w : world) :
  bind (if b then ret tt else debug_print fl message) k w
  = k tt (say w (if b then [] else if DEBUG fl then [message] else [])).
Proof.
  destruct b; [|apply bind_debug_print]. now rewrite bind_ret, say_nil.
Qed.

Lemma bind_assoc {A B C} (m : M A) (f : A -> M B) (g : B -> M C) (w : world) :
  bind (bind m f) g w = bind m (fun a => bind (f a) g) w.
Proof. unfold bind. now destruct (m w) as [[e|a] w1]. Qed.

(** The command line that [run_pandoc] builds. *)
Definition pandoc_cmd (st : site) (output_html_path template_path : path)
           (base_url wiki_title page_url page_title asset_path_prefix : string)
           (seo_metadata : option (gmap string string)) : list string :=
  ["pandoc"; "-f"; "markdown+smart+raw_html"; "-t"; "html5"; "--standalone";
   "--template"; path_str template_path;
   "-V"; "base=" +:+ base_url;
   "-V"; "wikititle=" +:+ wiki_title;
   "-V"; "pageUrl=" +:+ page_url;
   "-V"; "pagetitle=" +:+ page_title;
   "-V"; "reponame=" +:+ REPO_NAME st;
   "-V"; "description=" +:+ seo_get seo_metadata "description";
   "-V"; "keywords=" +:+ seo_get seo_metadata "keywords";
   "-V"; "image=" +:+ seo_get seo_metadata "image";
   "-V"; "asset_path_prefix=" +:+ asset_path_prefix;
   "-o"; path_str output_html_path].

(** The lines that [run_pandoc] prints under [DEBUG] before it calls the
    renderer and after the renderer has returned. *)
Definition pandoc_debug_before (fl : flags) (cmd : list string) (pandoc_input : string)
  : list string :=
  if DEBUG fl then
    ["  [Debug Pandoc] Command: " +:+ join " " cmd;
     "  [Debug Pandoc] Input content length: " +:+ str_of_Z (len pandoc_input) +:+ " chars";
     "  [Debug Pandoc] First 200 chars of input: " +:+ stake 200 pandoc_input]
  else [].

Definition pandoc_debug_after (fl : flags) (process : completed) : list string :=
  if DEBUG fl then
    ["  [Debug Pandoc] Return Code: " +:+ str_of_Z (returncode process)]
    ++ (if String.eqb (stdout process) "" then []
        else ["  [Debug Pandoc] STDOUT:" +:+ LF +:+ stdout process])
    ++ (if String.eqb (stderr process) "" then []
        else ["  [Debug Pandoc] STDERR:" +:+ LF +:+ stderr process])
  else [].

(** The page that [run_pandoc] leaves after a render that wrote [html]:
    the empty anchors are removed, and a page without doctype or html tag is
    wrapped. *)
Definition verified_page (wiki_title page_title : string)
           (seo_metadata : option (gmap string string)) (html : string) : string :=
  let content := Re.sub_with empty_anchor_re (fun _ => "") html in
  if negb (contains content "<!DOCTYPE") || negb (contains content "<html")
  then fixed_content_of wiki_title page_title seo_metadata content
  else content.

(** [run_pandoc] up to the return of the renderer. *)
Lemma run_pandoc_call (tl : tools) (fl : flags) (st : site) (pandoc_input : string)
      (out template_path : path) (base_url wiki_title page_url page_title
      asset_path_prefix : string) (seo_metadata : option (gmap string string))
      (w w1 : world) (proc : completed) :
  pandoc tl (pandoc_cmd st out template_path base_url wiki_title page_url page_title
                        asset_path_prefix seo_metadata)
         pandoc_input
         (say w (pandoc_debug_before fl
                   (pandoc_cmd st out template_path base_url wiki_title page_url
                               page_title asset_path_prefix seo_metadata)
                   pandoc_input))
  = (inr proc, w1) ->
  run_pandoc tl fl st pandoc_input out template_path base_url wiki_title page_url
             page_title asset_path_prefix seo_metadata w
  = (if negb (returncode proc =? 0) then
       print ("Error running pandoc: " +:+ stderr proc);;
       ret ""
     else
       try_except
         (do content <- read_text out;
          let content := Re.sub_with empty_anchor_re (fun _ => "") content in
          do content <-
            (if negb (contains content "<!DOCTYPE") || negb (contains content "<html")
             then
               print ("Warning: Generated HTML for " +:+ path_str out
                      +:+ " is missing DOCTYPE or html tag");;
               ret (fixed_content_of wiki_title page_title seo_metadata content)
             else ret content);
          write_text out content)
         (fun e => print ("Error verifying HTML structure: " +:+ exn_str e));;
       ret (stdout proc))
      (say w1 (pandoc_debug_after fl proc)).
Proof.
  intros Hcall. unfold run_pandoc. cbv zeta. fold (pandoc_cmd st out template_path base_url
    wiki_title page_url page_title asset_path_prefix seo_metadata).
  set (cmd := pandoc_cmd st out template_path base_url wiki_title page_url page_title
                         asset_path_prefix seo_metadata) in *.
  rewrite !bind_debug_print, !say_say.
  replace ((if DEBUG fl then ["  [Debug Pandoc] Command: " +:+ join " " cmd] else [])
           ++ (if DEBUG fl
               then ["  [Debug Pandoc] Input content length: "
                     +:+ str_of_Z (len pandoc_input) +:+ " chars"]
               else [])
           ++ (if DEBUG fl
               then ["  [Debug Pandoc] First 200 chars of input: " +:+ stake 200 pandoc_input]
               else []))
    with (pandoc_debug_before fl cmd pandoc_input)
    by (unfold pandoc_debug_before; now destruct (DEBUG fl)).
  rewrite (bind_inr _ _ _ _ _ Hcall).
  rewrite bind_debug_print, !bind_if_debug_print, !say_say.
  replace ((if DEBUG fl
            then ["  [Debug Pandoc] Return Code: " +:+ str_of_Z (returncode proc)]
            else [])
           ++ (if String.eqb (stdout proc) "" then []
               else if DEBUG fl
                    then ["  [Debug Pandoc] STDOUT:" +:+ LF +:+ stdout proc]
                    else [])
           ++ (if String.eqb (stderr proc) "" then []
               else if DEBUG fl
                    then ["  [Debug Pandoc] STDERR:" +:+ LF +:+ stderr proc]
                    else []))
    with (pandoc_debug_after fl proc).
  - reflexivity.
  - unfold pandoc_debug_after. destruct (DEBUG fl); [reflexivity|].
    now destruct (String.eqb (stdout proc) ""), (String.eqb (stderr proc) "").
Qed.

(** ** A render that succeeds *)

Lemma fixed_content_structure (wiki_title page_title : string)
      (seo_metadata : option (gmap string string)) (content : string) :
  contains (fixed_content_of wiki_title page_title seo_metadata content) "<!DOCTYPE" = true
  /\ contains (fixed_content_of wiki_title page_title seo_metadata content) "<html" = true.
Proof.
  unfold fixed_content_of. split; apply contains_app_l; vm_compute; reflexivity.
Qed.

Lemma verified_page_structure (wiki_title page_title : string)
      (seo_metadata : option (gmap string string)) (html : string) :
  contains (verified_page wiki_title page_title seo_metadata html) "<!DOCTYPE" = true
  /\ contains (verified_page wiki_title page_title seo_metadata html) "<html" = true.
Proof.
  unfold verified_page. cbv zeta.
  destruct (negb (contains _ "<!DOCTYPE") || negb (contains _ "<html")) eqn:E.
  - apply fixed_content_structure.
  - apply orb_false_iff in E as [E1 E2].
    apply negb_false_iff in E1. apply negb_false_iff in E2. now split.
Qed.

(** X8. After a render that succeeds, the page on disk holds a doctype and
    an html tag. When the renderer, called with the command line and the
    input of [run_pandoc], exits with code 0 and the page named after [-o]
    is there with the text [html], [run_pandoc] returns the standard output
    of that call without raising, and the page then holds [html] without its
    empty anchors, wrapped into a complete document when it lacks a doctype
    or an html tag; no other file is touched after the renderer. *)
Theorem run_pandoc_page_structure (tl : tools) (fl : flags) (st : site)
        (pandoc_input : string) (out template_path : path) (base_url wiki_title page_url
        page_title asset_path_prefix : string) (seo_metadata : option (gmap string string))
        (w w1 : world) (proc : completed) (html : string) :
  pandoc tl (pandoc_cmd st out template_path base_url wiki_title page_url page_title
                        asset_path_prefix seo_metadata)
         pandoc_input
         (say w (pandoc_debug_before fl
                   (pandoc_cmd st out template_path base_url wiki_title page_url
                               page_title asset_path_prefix seo_metadata)
                   pandoc_input))
  = (inr proc, w1) ->
  returncode proc = 0 ->
  files w1 !! out = Some html ->
  exists w',
    run_pandoc tl fl st pandoc_input out template_path base_url wiki_title page_url
               page_title asset_path_prefix seo_metadata w
    = (inr (stdout proc), w')
    /\ files w' = <[out := verified_page wiki_title page_title seo_metadata html]> (files w1)
    /\ contains (verified_page wiki_title page_title seo_metadata html) "<!DOCTYPE" = true
    /\ contains (verified_page wiki_title page_title seo_metadata html) "<html" = true.
Proof.
  intros Hcall Hrc Hpage. rewrite (run_pandoc_call _ _ _ _ _ _ _ _ _ _ _ _ _ _ _ Hcall).
  rewrite Hrc. cbn [Z.eqb negb].
  unfold bind at 1, try_except, bind at 1, read_text. cbn [files say]. rewrite Hpage.
  unfold verified_page. cbv zeta.
  set (content := Re.sub_with empty_anchor_re (fun _ => "") html).
  pose proof (verified_page_structure wiki_title page_title seo_metadata html) as Hs.
  unfold verified_page in Hs. cbv zeta in Hs. fold content in Hs.
  destruct (negb (contains content "<!DOCTYPE") || negb (contains content "<html")).
  - unfold bind, print, write_text, ret. cbn [files say]. rewrite Hpage.
    eexists. split; [reflexivity|]. split; [reflexivity | exact Hs].
  - unfold bind, write_text, ret. cbn [files say]. rewrite Hpage.
    eexists. split; [reflexivity|]. split; [reflexivity | exact Hs].
Qed.

(** A renderer that does what [-o] says: it writes a bare paragraph to the
    file named by the last word of its command line. *)
Definition path_of_str (s : string) : path := List.tl (split_char "/" s).

Definition bare_tools : tools :=
  {| literate_c := fun _ => ret {| returncode := 0; stdout := LF; stderr := "" |};
     pandoc := fun cmd _ =>
       write_text (path_of_str (List.last cmd "")) "<p>hi</p>";;
       ret {| returncode := 0; stdout := "done"; stderr := "" |} |}.

Lemma run_pandoc_page_structure_witness :
  exists w',
    run_pandoc bare_tools quiet demo_site "hi" ["repo"; "docs"; "src"; "a.c.html"]
               (TEMPLATE_PATH demo_site) "/" "Documentation" "/src/a.c.html" "src/a.c" ".."
               None one_c_file
    = (inr (stdout {| returncode := 0; stdout := "done"; stderr := "" |}), w')
    /\ files w'
       = <[ ["repo"; "docs"; "src"; "a.c.html"]
            := verified_page "Documentation" "src/a.c" None "<p>hi</p>" ]>
           (files (snd (write_text ["repo"; "docs"; "src"; "a.c.html"] "<p>hi</p>" one_c_file)))
    /\ contains (verified_page "Documentation" "src/a.c" None "<p>hi</p>") "<!DOCTYPE" = true
    /\ contains (verified_page "Documentation" "src/a.c" None "<p>hi</p>") "<html" = true.
Proof.
  apply (run_pandoc_page_structure bare_tools quiet demo_site "hi"
           ["repo"; "docs"; "src"; "a.c.html"] (TEMPLATE_PATH demo_site) "/" "Documentation"
           "/src/a.c.html" "src/a.c" ".." None one_c_file
           (snd (write_text ["repo"; "docs"; "src"; "a.c.html"] "<p>hi</p>" one_c_file))
           {| returncode := 0; stdout := "done"; stderr := "" |} "<p>hi</p>").
  - vm_compute. reflexivity.
  - reflexivity.
  - vm_compute. reflexivity.
Defined.

(** ** A failing render *)

(** The copy of a notebook beside its page, at the head of
    [process_file_with_page2html_logic]. *)
Definition copy_notebook (st : site) (file_path output_html_path : path) : M unit :=
  if String.eqb (lower (suffix file_path)) ".ipynb" then
    let notebook_dest := joinpath (parent output_html_path) [name file_path] in
    try_except
      (copy2 file_path notebook_dest;;
       do rel_dest <- relative_to_M notebook_dest (joinpath (REPO_ROOT st) ["docs"]);
       print ("  Copied notebook " +:+ name file_path +:+ " to " +:+ rel_str rel_dest))
      (fun e => print ("  Warning: Failed to copy notebook file: " +:+ exn_str e))
  else ret tt.

(** The page URL and the page title that [process_file_with_page2html_logic]
    hands to [run_pandoc], for the source file at [rel] below the root and
    the page at [q] below the docs directory. *)
Definition page_url_of (st : site) (q : path) : string :=
  replace (BASE_URL st +:+ rel_str q) "//" "/".

Definition page_title_of (rel : path) : string :=
  strip_chars (rel_str rel) ("- " +:+ TAB).

(** The command line of the renderer for that page. *)
Definition page_cmd (st : site) (file_path rel q : path) (pandoc_input : string)
  : list string :=
  pandoc_cmd st (joinpath (DOCS_DIR st) q) (TEMPLATE_PATH st) (BASE_URL st) (WIKI_TITLE st)
             (page_url_of st q) (page_title_of rel)
             (calculate_asset_prefix (joinpath (DOCS_DIR st) q) (DOCS_DIR st))
             (extract_seo_metadata file_path pandoc_input).

(** The two lines printed for a file whose render has failed. *)
Definition render_error_lines (file_path out : path) (proc : completed) (w : world)
  : list string :=
  ["Error running pandoc: " +:+ stderr proc;
   "  Error processing " +:+ path_str file_path +:+ ": " +:+ exn_str (open_error w out)].

(** What [process_file_with_page2html_logic] does when the call of the
    renderer fails and leaves no page. *)
Lemma process_file_failure (tl : tools) (fl : flags) (st : site) (sp : steps)
      (file_path rel q : path) (w w0 w1 : world) (pandoc_input : string)
      (proc : completed) :
  relative_to file_path (REPO_ROOT st) = Some rel ->
  bind (copy_notebook st file_path (joinpath (DOCS_DIR st) q))
       (fun _ => prepare_pandoc_input tl fl sp file_path (LITERATE_C_SCRIPT st))
       (say w ["  Processing " +:+ rel_str rel +:+ " -> " +:+ rel_str q])
  = (inr pandoc_input, w0) ->
  pandoc tl (page_cmd st file_path rel q pandoc_input) pandoc_input
         (say w0 (("Processing file: " +:+ name file_path +:+ " with REPO_NAME="
                   +:+ REPO_NAME st)
                  :: pandoc_debug_before fl (page_cmd st file_path rel q pandoc_input)
                                         pandoc_input))
  = (inr proc, w1) ->
  returncode proc <> 0 ->
  files w1 !! joinpath (DOCS_DIR st) q = None ->
  process_file_with_page2html_logic tl fl st sp file_path (joinpath (DOCS_DIR st) q) w
  = (inr false,
     say w1 (pandoc_debug_after fl proc
             ++ render_error_lines file_path (joinpath (DOCS_DIR st) q) proc w1)).
Proof.
  intros Hrel Hfront Hcall Hrc Hpage.
  set (out := joinpath (DOCS_DIR st) q) in *.
  assert (Hout : relative_to out (joinpath (REPO_ROOT st) ["docs"]) = Some q)
    by apply relative_to_app.
  unfold process_file_with_page2html_logic. cbv zeta.
  rewrite (bind_inr _ _ _ _ _ (relative_to_M_Some _ _ _ w Hrel)).
  rewrite (bind_inr _ _ _ _ _ (relative_to_M_Some _ _ _ w Hout)).
  rewrite bind_print. unfold try_except at 1.
  fold (copy_notebook st file_path out).
  rewrite <- (bind_assoc (copy_notebook st file_path out)
                         (fun _ => prepare_pandoc_input tl fl sp file_path
                                     (LITERATE_C_SCRIPT st))).
  rewrite (bind_inr _ _ _ _ _ Hfront).
  rewrite (bind_inr _ _ _ _ _ (relative_to_M_Some _ _ _ w0 Hout)).
  rewrite (bind_inr _ _ _ _ _ (relative_to_M_Some _ _ _ w0 Hrel)).
  rewrite bind_print.
  unfold page_cmd, page_url_of, page_title_of in Hcall.
  change (say w0 (?l :: ?ls)) with (say w0 ([l] ++ ls)) in Hcall.
  rewrite <- say_say in Hcall. fold out in Hcall.
  assert (Hrun : run_pandoc tl fl st pandoc_input out (TEMPLATE_PATH st) (BASE_URL st)
                   (WIKI_TITLE st) (replace (BASE_URL st +:+ rel_str q) "//" "/")
                   (strip_chars (rel_str rel) ("- " +:+ TAB))
                   (calculate_asset_prefix out (DOCS_DIR st))
                   (extract_seo_metadata file_path pandoc_input)
                   (say w0 ["Processing file: " +:+ name file_path +:+ " with REPO_NAME="
                            +:+ REPO_NAME st])
                 = (inr "", say w1 (pandoc_debug_after fl proc
                                    ++ ["Error running pandoc: " +:+ stderr proc]))).
  { rewrite (run_pandoc_call _ _ _ _ _ _ _ _ _ _ _ _ _ _ _ Hcall).
    destruct (Z.eqb_spec (returncode proc) 0) as [E|_]; [contradiction|].
    cbn [negb]. rewrite bind_print. unfold ret. now rewrite say_say. }
  match goal with
  | |- context [bind (run_pandoc ?a ?b ?c ?d ?e ?f ?g ?h ?i ?j ?k0 ?l) ?k ?w2] =>
      rewrite (bind_inr (run_pandoc a b c d e f g h i j k0 l) k _ _ _ Hrun)
  end.
  assert (Eread : forall w2, files w2 = files w1 -> dirs w2 = dirs w1 ->
                             read_text out w2 = (inl (open_error w1 out), w2)).
  { intros w2 Hf Hd. unfold read_text, open_error. now rewrite Hf, Hd, Hpage. }
  match goal with
  | |- context [bind (if ?c then bind (read_text out) ?k1 else bind (read_text out) ?k2)
                     ?k ?w2] =>
      assert (Epost : (if c then bind (read_text out) k1 else bind (read_text out) k2) w2
                      = (inl (open_error w1 out), w2))
        by (destruct c; apply (bind_inl _ _ _ _ _ (Eread w2 eq_refl eq_refl)));
      rewrite (bind_inl _ k _ _ _ Epost)
  end.
  rewrite bind_print. unfold ret. rewrite !say_say. unfold render_error_lines.
  rewrite <- app_assoc. reflexivity.
Qed.

(** The turn of the loop for a file whose render fails and leaves no page:
    what [build_one] returns. *)
Lemma build_one_render_failure (tl : tools) (fl : flags) (st : site) (sp : steps)
      (generated_files : gmap path path) (file_path rel q : path)
      (w wm w0 w1 : world) (pandoc_input : string) (proc : completed) :
  relative_to file_path (REPO_ROOT st) = Some rel ->
  with_suffix rel (suffix rel +:+ ".html") = Some q ->
  mkdir_parents (parent (joinpath (DOCS_DIR st) q)) w = (inr tt, wm) ->
  FORCE_REBUILD fl = true
  \/ (files wm !! joinpath (DOCS_DIR st) q = None /\ (joinpath (DOCS_DIR st) q ∉ dirs wm)) ->
  bind (copy_notebook st file_path (joinpath (DOCS_DIR st) q))
       (fun _ => prepare_pandoc_input tl fl sp file_path (LITERATE_C_SCRIPT st))
       (say wm ["  Processing " +:+ rel_str rel +:+ " -> " +:+ rel_str q])
  = (inr pandoc_input, w0) ->
  pandoc tl (page_cmd st file_path rel q pandoc_input) pandoc_input
         (say w0 (("Processing file: " +:+ name file_path +:+ " with REPO_NAME="
                   +:+ REPO_NAME st)
                  :: pandoc_debug_before fl (page_cmd st file_path rel q pandoc_input)
                                         pandoc_input))
  = (inr proc, w1) ->
  returncode proc <> 0 ->
  files w1 !! joinpath (DOCS_DIR st) q = None ->
  build_one tl fl st sp generated_files file_path w
  = (inr generated_files,
     say w1 (pandoc_debug_after fl proc
             ++ render_error_lines file_path (joinpath (DOCS_DIR st) q) proc w1)).
Proof.
  intros Hrel Hq Hmk Hnew Hfront Hcall Hrc Hpage.
  unfold build_one.
  rewrite (bind_inr _ _ _ _ _ (relative_to_M_Some _ _ _ w Hrel)). rewrite Hq.
  rewrite (bind_inr _ _ _ _ _ Hmk).
  unfold bind at 1, exists_path at 1.
  replace (negb (FORCE_REBUILD fl) && _) with false.
  - rewrite (bind_inr _ _ _ _ _
               (process_file_failure tl fl st sp file_path rel q wm w0 w1 pandoc_input
                                     proc Hrel Hfront Hcall Hrc Hpage)).
    reflexivity.
  - symmetry. destruct Hnew as [->|[Hf Hd]]; [reflexivity|].
    apply andb_false_intro2, orb_false_intro.
    + apply bool_decide_eq_false_2. rewrite Hf. intros [x Hx]. discriminate.
    + now apply bool_decide_eq_false_2.
Qed.

(** A key of the mapping after the loop was a key before it or is a file of
    the list. *)
Lemma build_all_key_origin (tl : tools) (fl : flags) (st : site) (sp : steps)
      (source_files : list path) (generated_files g' : gmap path path) (w w' : world)
      (f : path) :
  build_all tl fl st sp generated_files source_files w = (inr g', w') ->
  is_Some (g' !! f) -> is_Some (generated_files !! f) \/ f ∈ source_files.
Proof.
  revert generated_files w.
  induction source_files as [|file rest IH]; intros gen w Hrun Hf.
  - injection Hrun as <- <-. now left.
  - cbn [build_all] in Hrun. unfold bind in Hrun.
    destruct (build_one tl fl st sp gen file w) as [[e|g1] w1] eqn:E1; [discriminate|].
    destruct (IH g1 w1 Hrun Hf) as [H1|Hin].
    + destruct (build_one_result _ _ _ _ _ _ _ _ _ E1) as [->|(o1 & _ & ->)];
        [now left|].
      destruct (decide (file = f)) as [->|Hne].
      * right. apply elem_of_cons. now left.
      * rewrite lookup_insert_ne in H1 by exact Hne. now left.
    + right. apply elem_of_cons. now right.
Qed.

(** X7. A file whose render fails is left out and the loop goes on. In a
    turn of the loop that reaches the renderer (the page directory is made,
    the file is not skipped, the notebook copy and the preprocessing return
    the input), when this call of the renderer exits with a code other than
    0 and no page is there afterwards, the turn returns the mapping
    unchanged: the file gets no entry. Nothing is written after the
    renderer, the last two lines printed are the error of the renderer, with
    its standard error, and the error of the file, with the error of [open]
    for the page, and the loop goes on with the rest of the files. *)
Theorem failed_render_excluded (tl : tools) (fl : flags) (st : site) (sp : steps)
        (generated_files : gmap path path) (file_path rel q : path)
        (w wm w0 w1 : world) (pandoc_input : string) (proc : completed) :
  relative_to file_path (REPO_ROOT st) = Some rel ->
  with_suffix rel (suffix rel +:+ ".html") = Some q ->
  mkdir_parents (parent (joinpath (DOCS_DIR st) q)) w = (inr tt, wm) ->
  FORCE_REBUILD fl = true
  \/ (files wm !! joinpath (DOCS_DIR st) q = None /\ (joinpath (DOCS_DIR st) q ∉ dirs wm)) ->
  bind (copy_notebook st file_path (joinpath (DOCS_DIR st) q))
       (fun _ => prepare_pandoc_input tl fl sp file_path (LITERATE_C_SCRIPT st))
       (say wm ["  Processing " +:+ rel_str rel +:+ " -> " +:+ rel_str q])
  = (inr pandoc_input, w0) ->
  pandoc tl (page_cmd st file_path rel q pandoc_input) pandoc_input
         (say w0 (("Processing file: " +:+ name file_path +:+ " with REPO_NAME="
                   +:+ REPO_NAME st)
                  :: pandoc_debug_before fl (page_cmd st file_path rel q pandoc_input)
                                         pandoc_input))
  = (inr proc, w1) ->
  returncode proc <> 0 ->
  files w1 !! joinpath (DOCS_DIR st) q = None ->
  build_one tl fl st sp generated_files file_path w
  = (inr generated_files,
     say w1 (pandoc_debug_after fl proc
             ++ render_error_lines file_path (joinpath (DOCS_DIR st) q) proc w1))
  /\ (forall rest,
        build_all tl fl st sp generated_files (file_path :: rest) w
        = build_all tl fl st sp generated_files rest
            (say w1 (pandoc_debug_after fl proc
                     ++ render_error_lines file_path (joinpath (DOCS_DIR st) q) proc w1))).
Proof.
  intros Hrel Hq Hmk Hnew Hfront Hcall Hrc Hpage.
  pose proof (build_one_render_failure tl fl st sp generated_files file_path rel q w wm w0
                w1 pandoc_input proc Hrel Hq Hmk Hnew Hfront Hcall Hrc Hpage) as Hturn.
  split; [exact Hturn|].
  intros rest. cbn [build_all]. now rewrite (bind_inr _ _ _ _ _ Hturn).
Qed.

(** A renderer that fails, and one that fails on a single input: the plain
    rendering of the C file of [one_c_file]. *)
Definition failing_tools : tools :=
  {| literate_c := fun _ => ret {| returncode := 0; stdout := LF; stderr := "" |};
     pandoc := fun _ _ => ret {| returncode := 1; stdout := ""; stderr := "boom" |} |}.

Definition picky_tools : tools :=
  {| literate_c := fun _ => ret {| returncode := 0; stdout := LF; stderr := "" |};
     pandoc := fun cmd input =>
       if String.eqb input (markdown_content_of "a.c" "int x;")
       then ret {| returncode := 1; stdout := ""; stderr := "boom" |}
       else
         write_text (path_of_str (List.last cmd "")) "<p>hi</p>";;
         ret {| returncode := 0; stdout := "done"; stderr := "" |} |}.

(** The disk of [one_c_file] when the renderer is called for src/a.c. *)
Definition at_the_renderer : world :=
  say (snd (mkdir_parents ["repo"; "docs"; "src"] one_c_file))
      ["  Processing src/a.c -> src/a.c.html";
       "Processing file: a.c with REPO_NAME=repo"].

Lemma failed_render_excluded_witness :
  build_one picky_tools quiet demo_site idle_steps ∅ ["repo"; "src"; "a.c"] one_c_file
  = (inr ∅,
     say at_the_renderer
         (pandoc_debug_after quiet {| returncode := 1; stdout := ""; stderr := "boom" |}
          ++ render_error_lines ["repo"; "src"; "a.c"]
               (joinpath (DOCS_DIR demo_site) ["src"; "a.c.html"])
               {| returncode := 1; stdout := ""; stderr := "boom" |} at_the_renderer))
  /\ (forall rest,
        build_all picky_tools quiet demo_site idle_steps ∅
                  (["repo"; "src"; "a.c"] :: rest) one_c_file
        = build_all picky_tools quiet demo_site idle_steps ∅ rest
            (say at_the_renderer
                 (pandoc_debug_after quiet
                    {| returncode := 1; stdout := ""; stderr := "boom" |}
                  ++ render_error_lines ["repo"; "src"; "a.c"]
                       (joinpath (DOCS_DIR demo_site) ["src"; "a.c.html"])
                       {| returncode := 1; stdout := ""; stderr := "boom" |}
                       at_the_renderer))).
Proof.
  apply (failed_render_excluded picky_tools quiet demo_site idle_steps ∅
           ["repo"; "src"; "a.c"] ["src"; "a.c"] ["src"; "a.c.html"] one_c_file
           (snd (mkdir_parents ["repo"; "docs"; "src"] one_c_file))
           (say (snd (mkdir_parents ["repo"; "docs"; "src"] one_c_file))
                ["  Processing src/a.c -> src/a.c.html"])
           at_the_renderer
           (markdown_content_of "a.c" "int x;")
           {| returncode := 1; stdout := ""; stderr := "boom" |}).
  - reflexivity.
  - reflexivity.
  - vm_compute. reflexivity.
  - right. split; [vm_compute; reflexivity | vm_compute; discriminate].
  - vm_compute. reflexivity.
  - vm_compute. reflexivity.
  - discriminate.
  - vm_compute. reflexivity.
Defined.



(** X30. A failed render that leaves no page keeps the file out of the
    mapping for good. In a turn of the loop that reaches the renderer, when
    this call of the renderer exits with a code other than 0 and no page is
    at the output path afterwards, the turn returns the mapping as it was,
    prints the error of the renderer and the error of the file, writes
    nothing, and the loop goes on with the remaining files; when the file
    had no entry before and does not come again in the list, it is not a key
    of [generated_files] when the loop ends. *)
Theorem failed_render_never_a_key (tl : tools) (fl : flags) (st : site) (sp : steps)
        (generated_files : gmap path path) (file_path rel q : path) (rest : list path)
        (w wm w0 w1 : world) (pandoc_input : string) (proc : completed) :
  relative_to file_path (REPO_ROOT st) = Some rel ->
  with_suffix rel (suffix rel +:+ ".html") = Some q ->
  mkdir_parents (parent (joinpath (DOCS_DIR st) q)) w = (inr tt, wm) ->
  FORCE_REBUILD fl = true
  \/ (files wm !! joinpath (DOCS_DIR st) q = None /\ (joinpath (DOCS_DIR st) q ∉ dirs wm)) ->
  bind (copy_notebook st file_path (joinpath (DOCS_DIR st) q))
       (fun _ => prepare_pandoc_input tl fl sp file_path (LITERATE_C_SCRIPT st))
       (say wm ["  Processing " +:+ rel_str rel +:+ " -> " +:+ rel_str q])
  = (inr pandoc_input, w0) ->
  pandoc tl (page_cmd st file_path rel q pandoc_input) pandoc_input
         (say w0 (("Processing file: " +:+ name file_path +:+ " with REPO_NAME="
                   +:+ REPO_NAME st)
                  :: pandoc_debug_before fl (page_cmd st file_path rel q pandoc_input)
                                         pandoc_input))
  = (inr proc, w1) ->
  returncode proc <> 0 ->
  files w1 !! joinpath (DOCS_DIR st) q = None ->
  generated_files !! file_path = None ->
  file_path ∉ rest ->
  exists w',
    build_one tl fl st sp generated_files file_path w = (inr generated_files, w')
    /\ printed w'
       = printed w1 ++ pandoc_debug_after fl proc
         ++ ["Error running pandoc: " +:+ stderr proc;
             "  Error processing " +:+ path_str file_path +:+ ": "
             +:+ exn_str (open_error w1 (joinpath (DOCS_DIR st) q))]
    /\ files w' = files w1
    /\ build_all tl fl st sp generated_files (file_path :: rest) w
       = build_all tl fl st sp generated_files rest w'
    /\ (forall g' w'',
          build_all tl fl st sp generated_files (file_path :: rest) w = (inr g', w'') ->
          g' !! file_path = None).
Proof.
  intros Hrel Hq Hmk Hnew Hfront Hcall Hrc Hpage Hkey Hrest.
  pose proof (build_one_render_failure tl fl st sp generated_files file_path rel q w wm w0
                w1 pandoc_input proc Hrel Hq Hmk Hnew Hfront Hcall Hrc Hpage) as Hturn.
  eexists. split; [exact Hturn|]. split; [reflexivity|]. split; [reflexivity|].
  assert (Hloop : build_all tl fl st sp generated_files (file_path :: rest) w
                  = build_all tl fl st sp generated_files rest
                      (say w1 (pandoc_debug_after fl proc
                               ++ render_error_lines file_path (joinpath (DOCS_DIR st) q)
                                                     proc w1))).
  { cbn [build_all]. now rewrite (bind_inr _ _ _ _ _ Hturn). }
  split; [exact Hloop|].
  intros g' w'' Hrun. rewrite Hloop in Hrun.
  destruct (g' !! file_path) as [o|] eqn:E; [|reflexivity].
  destruct (build_all_key_origin _ _ _ _ _ _ _ _ _ file_path Hrun) as [[x Hx]|Hin].
  - rewrite E. eauto.
  - congruence.
  - contradiction.
Qed.

Lemma failed_render_never_a_key_witness :
  exists w',
    build_one picky_tools quiet demo_site idle_steps ∅ ["repo"; "src"; "a.c"] one_c_file
    = (inr ∅, w')
    /\ printed w'
       = printed at_the_renderer
         ++ pandoc_debug_after quiet {| returncode := 1; stdout := ""; stderr := "boom" |}
         ++ ["Error running pandoc: "
             +:+ stderr {| returncode := 1; stdout := ""; stderr := "boom" |};
             "  Error processing " +:+ path_str ["repo"; "src"; "a.c"] +:+ ": "
             +:+ exn_str (open_error at_the_renderer
                            (joinpath (DOCS_DIR demo_site) ["src"; "a.c.html"]))]
    /\ files w' = files at_the_renderer
    /\ build_all picky_tools quiet demo_site idle_steps ∅
                 (["repo"; "src"; "a.c"] :: [["repo"; "src"; "b.c"]]) one_c_file
       = build_all picky_tools quiet demo_site idle_steps ∅ [["repo"; "src"; "b.c"]] w'
    /\ (forall g' w'',
          build_all picky_tools quiet demo_site idle_steps ∅
                    (["repo"; "src"; "a.c"] :: [["repo"; "src"; "b.c"]]) one_c_file
          = (inr g', w'') ->
          g' !! ["repo"; "src"; "a.c"] = None).
Proof.
  apply (failed_render_never_a_key picky_tools quiet demo_site idle_steps ∅
           ["repo"; "src"; "a.c"] ["src"; "a.c"] ["src"; "a.c.html"] [["repo"; "src"; "b.c"]]
           one_c_file
           (snd (mkdir_parents ["repo"; "docs"; "src"] one_c_file))
           (say (snd (mkdir_parents ["repo"; "docs"; "src"] one_c_file))
                ["  Processing src/a.c -> src/a.c.html"])
           at_the_renderer
           (markdown_content_of "a.c" "int x;")
           {| returncode := 1; stdout := ""; stderr := "boom" |}).
  - reflexivity.
  - reflexivity.
  - vm_compute. reflexivity.
  - right. split; [vm_compute; reflexivity | vm_compute; discriminate].
  - vm_compute. reflexivity.
  - vm_compute. reflexivity.
  - discriminate.
  - vm_compute. reflexivity.
  - reflexivity.
  - intros H. apply list_elem_of_singleton in H. discriminate.
Defined.

(** ** The turns of the loop: instances *)

Lemma build_one_returns_witness :
  exists g' w',
    build_one failing_tools quiet demo_site idle_steps ∅ ["repo"; "src"; "a.c"] one_c_file
    = (inr g', w')
    /\ (g' = ∅
        \/ g' = <[ ["repo"; "src"; "a.c"] := joinpath (DOCS_DIR demo_site) ["src"; "a.c.html"] ]> ∅).
Proof.
  apply (build_one_returns failing_tools quiet demo_site idle_steps ∅
           ["repo"; "src"; "a.c"] ["src"; "a.c"] ["src"; "a.c.html"] one_c_file).
  - reflexivity.
  - reflexivity.
  - repeat constructor.
Defined.

Lemma build_all_up_to_date_witness :
  exists g' w',
    build_all blank_tools quiet demo_site idle_steps ∅ [["repo"; "src"; "a.c"]] built_once
    = (inr g', w')
    /\ files w' = files built_once
    /\ (forall f, f ∈ [["repo"; "src"; "a.c"]] ->
          exists o, output_path_of (REPO_ROOT demo_site) (DOCS_DIR demo_site) f = Some o
                    /\ g' !! f = Some o)
    /\ (forall f, f ∉ [["repo"; "src"; "a.c"]] -> g' !! f = (∅ : gmap path path) !! f)
    /\ (forall tl' sp',
          build_all tl' quiet demo_site sp' ∅ [["repo"; "src"; "a.c"]] built_once
          = build_all blank_tools quiet demo_site idle_steps ∅ [["repo"; "src"; "a.c"]]
                      built_once).
Proof.
  apply (build_all_up_to_date blank_tools quiet demo_site idle_steps
           [["repo"; "src"; "a.c"]] ∅ built_once).
  - reflexivity.
  - constructor; [|constructor].
    exists ["src"; "a.c"], ["src"; "a.c.html"].
    split; [reflexivity|]. split; [reflexivity|]. split; [repeat constructor|].
    vm_compute. eexists. reflexivity.
Defined.

Lemma build_all_mapping_witness :
  (∅ : gmap path path) !! ["repo"; "src"; "a.c"] = Some ["repo"; "docs"; "src"; "a.c.html"]
  \/ (["repo"; "src"; "a.c"] ∈ [["repo"; "src"; "a.c"]]
      /\ output_path_of (REPO_ROOT demo_site) (DOCS_DIR demo_site) ["repo"; "src"; "a.c"]
         = Some ["repo"; "docs"; "src"; "a.c.html"]).
Proof.
  apply (build_all_mapping blank_tools quiet demo_site idle_steps [["repo"; "src"; "a.c"]]
           ∅ (<[ ["repo"; "src"; "a.c"] := ["repo"; "docs"; "src"; "a.c.html"] ]> ∅)
           built_once
           (snd (build_all blank_tools quiet demo_site idle_steps ∅
                           [["repo"; "src"; "a.c"]] built_once))).
  - vm_compute. reflexivity.
  - vm_compute. reflexivity.
Defined.

(** ** The dispatch on the kind of file *)

Lemma accepted_inv (f : path) :
  accepted f = true ->
  (name f = "Makefile" /\ suffix f = "")
  \/ (name f <> "Makefile" /\ In (suffix f) valid_exts).
Proof.
  unfold accepted.
  destruct (bool_decide (name f ∈ valid_names)) eqn:Hn.
  - intros _. left. apply bool_decide_eq_true_1 in Hn. unfold valid_names in Hn.
    apply list_elem_of_singleton in Hn. split; [exact Hn|].
    unfold suffix. now rewrite Hn.
  - intros H. right. apply andb_true_iff in H as [Hs _].
    apply bool_decide_eq_true_1, list_elem_of_In in Hs. split; [|exact Hs].
    intros E. apply bool_decide_eq_false_1 in Hn. apply Hn.
    rewrite E. unfold valid_names. apply list_elem_of_singleton. reflexivity.
Qed.

(** X9. The preprocessor of a source file that [find_source_files] accepts:
    a Python file goes to [process_python_file], a shell file and a Makefile
    to [process_shell_file], a notebook to [process_jupyter_notebook], a C
    file and a header to [process_c_file]; the branch for Markdown is never
    taken. *)
Theorem prepare_pandoc_input_accepted (tl : tools) (fl : flags) (sp : steps)
        (file_path literate_c_script : path) :
  accepted file_path = true ->
  (suffix file_path = ".py"
   /\ prepare_pandoc_input tl fl sp file_path literate_c_script
      = process_python_file sp file_path)
  \/ ((suffix file_path = ".sh" \/ name file_path = "Makefile")
      /\ prepare_pandoc_input tl fl sp file_path literate_c_script
         = process_shell_file file_path)
  \/ (suffix file_path = ".ipynb"
      /\ prepare_pandoc_input tl fl sp file_path literate_c_script
         = process_jupyter_notebook sp file_path)
  \/ ((suffix file_path = ".c" \/ suffix file_path = ".h")
      /\ prepare_pandoc_input tl fl sp file_path literate_c_script
         = process_c_file tl fl file_path literate_c_script).
Proof.
  intros Hacc. unfold prepare_pandoc_input. cbv zeta.
  destruct (accepted_inv _ Hacc) as [[Hn Hs]|[Hn Hs]].
  - rewrite Hs, Hn. right. left. split; [now right | reflexivity].
  - apply String.eqb_neq in Hn. unfold valid_exts in Hs. simpl in Hs.
    destruct Hs as [Hs|[Hs|[Hs|[Hs|[Hs|[]]]]]]; rewrite <- Hs; cbn; rewrite ?Hn.
    + right. right. right. split; [now left | reflexivity].
    + right. right. right. split; [now right | reflexivity].
    + left. split; reflexivity.
    + right. left. split; [now left | reflexivity].
    + right. right. left. split; reflexivity.
Qed.

Lemma prepare_pandoc_input_accepted_witness :
  (suffix ["repo"; "Makefile"] = ".py"
   /\ prepare_pandoc_input blank_tools quiet idle_steps ["repo"; "Makefile"] ["lc"]
      = process_python_file idle_steps ["repo"; "Makefile"])
  \/ ((suffix ["repo"; "Makefile"] = ".sh" \/ name ["repo"; "Makefile"] = "Makefile")
      /\ prepare_pandoc_input blank_tools quiet idle_steps ["repo"; "Makefile"] ["lc"]
         = process_shell_file ["repo"; "Makefile"])
  \/ (suffix ["repo"; "Makefile"] = ".ipynb"
      /\ prepare_pandoc_input blank_tools quiet idle_steps ["repo"; "Makefile"] ["lc"]
         = process_jupyter_notebook idle_steps ["repo"; "Makefile"])
  \/ ((suffix ["repo"; "Makefile"] = ".c" \/ suffix ["repo"; "Makefile"] = ".h")
      /\ prepare_pandoc_input blank_tools quiet idle_steps ["repo"; "Makefile"] ["lc"]
         = process_c_file blank_tools quiet ["repo"; "Makefile"] ["lc"]).
Proof.
  apply (prepare_pandoc_input_accepted blank_tools quiet idle_steps ["repo"; "Makefile"]
           ["lc"]).
  reflexivity.
Defined.

(** ** The tests on the name of a source file *)

(** The last character of a string. *)
Fixpoint last_char (s : string) : option ascii :=
  match s with
  | EmptyString => None
  | String a s' =>
      match last_char s' with
      | None => Some a
      | Some b => Some b
      end
  end.

Lemma last_char_app (s t : string) : t <> "" -> last_char (s +:+ t) = last_char t.
Proof.
  intros Ht. induction s as [|a s IH]; [reflexivity|].
  rewrite append_cons. simpl. rewrite IH.
  destruct t as [|b t]; [congruence|]. simpl. now destruct (last_char t).
Qed.

Lemma endswith_split (s p : string) :
  endswith s p = true -> s = stake (String.length s - String.length p) s +:+ p.
Proof.
  unfold endswith. intros H. apply andb_true_iff in H as [_ H].
  apply String.eqb_eq in H. rewrite <- H at 2. now rewrite stake_sdrop.
Qed.

Lemma accepted_last_char (f : path) :
  bool_decide (name f ∈ valid_names) || bool_decide (suffix f ∈ valid_exts) = true ->
  last_char (name f) <> Some "t"%char.
Proof.
  intros H. apply orb_true_iff in H as [H|H]; apply bool_decide_eq_true_1 in H.
  - unfold valid_names in H. apply list_elem_of_singleton in H. rewrite H. discriminate.
  - rewrite <- (stem_suffix f). apply list_elem_of_In in H. unfold valid_exts in H.
    simpl in H.
    destruct H as [H|[H|[H|[H|[H|[]]]]]]; rewrite <- H;
      rewrite last_char_app by discriminate; discriminate.
Qed.

(** X10. A file whose name ends in [.dat] is never accepted, and the test on
    [.dat] in [find_source_files] never decides: a name with one of the
    valid suffixes cannot end in [.dat], so the files accepted are those
    named Makefile and those with a valid suffix. *)
Theorem dat_files_not_accepted (f : path) :
  accepted f = bool_decide (name f ∈ valid_names) || bool_decide (suffix f ∈ valid_exts)
  /\ (endswith (name f) ".dat" = true -> accepted f = false).
Proof.
  assert (Hdat : endswith (name f) ".dat" = true ->
                 bool_decide (name f ∈ valid_names) || bool_decide (suffix f ∈ valid_exts)
                 = false).
  { intros He. destruct (_ || _) eqn:E; [|reflexivity].
    apply accepted_last_char in E. exfalso. apply E.
    rewrite (endswith_split _ _ He). now rewrite last_char_app. }
  assert (Hacc : accepted f
                 = bool_decide (name f ∈ valid_names)
                   || bool_decide (suffix f ∈ valid_exts)).
  { unfold accepted. destruct (bool_decide (name f ∈ valid_names)) eqn:Hn; [reflexivity|].
    cbn [orb]. destruct (endswith (name f) ".dat") eqn:He.
    - specialize (Hdat eq_refl). cbn [orb] in Hdat. now rewrite Hdat.
    - now rewrite andb_true_r. }
  split; [exact Hacc|]. intros He. rewrite Hacc. now apply Hdat.
Qed.

(** X11. The asset prefix of the page of a source file: for an accepted file
    [dirs/file] below the repository root, the page is written to
    [DOCS_DIR/dirs/file.html] and its prefix climbs one level per directory
    of [dirs]; it is [.] for a file right below the root. *)
Theorem page_asset_prefix (REPO_ROOT DOCS_DIR dirs : path) (file : string) :
  accepted (REPO_ROOT ++ dirs ++ [file]) = true ->
  output_path_of REPO_ROOT DOCS_DIR (REPO_ROOT ++ dirs ++ [file])
  = Some (DOCS_DIR ++ dirs ++ [file +:+ ".html"])
  /\ calculate_asset_prefix (DOCS_DIR ++ dirs ++ [file +:+ ".html"]) DOCS_DIR
     = match dirs with
       | [] => "."
       | _ :: _ => join "/" (List.repeat ".." (List.length dirs))
       end.
Proof.
  intros Hacc. split; [|apply calculate_asset_prefix_below].
  rewrite output_path_of_eq; [|now destruct dirs|exact Hacc].
  now rewrite parent_snoc, name_snoc.
Qed.

Lemma page_asset_prefix_witness :
  output_path_of ["repo"] ["repo"; "docs"] (["repo"] ++ ["src"; "lib"] ++ ["a.c"])
  = Some (["repo"; "docs"] ++ ["src"; "lib"] ++ ["a.c" +:+ ".html"])
  /\ calculate_asset_prefix (["repo"; "docs"] ++ ["src"; "lib"] ++ ["a.c" +:+ ".html"])
                            ["repo"; "docs"]
     = "../..".
Proof.
  apply (page_asset_prefix ["repo"] ["repo"; "docs"] ["src"; "lib"] "a.c").
  reflexivity.
Defined.

(** ** Notebook metadata: the parsed notebook and the bounds *)

(** What [json.loads] returns. *)
#[local] Unset Elimination Schemes.
Inductive json : Type :=
| JNull
| JBool (b : bool)
| JNum (n : Z)
| JStr (s : string)
| JArr (items : list json)
| JObj (members : list (string * json)).
#[local] Set Elimination Schemes.

(** [d.get(key)] for the dictionary made from the members of an object: the
    last member of that name counts. *)
Definition json_get (members : list (string * json)) (key : string) : option json :=
  option_map snd (List.find (fun kv => String.eqb (fst kv) key) (List.rev members)).

(** The keys of the dictionary, each once, in the order of their first
    occurrence. *)
Definition json_keys (members : list (string * json)) : list string :=
  List.rev (nodup string_dec (List.rev (List.map fst members))).

(** [iter(v)]: the items of a list, the keys of a dictionary, the characters
    of a string; [None] for the [TypeError] of a value that is not
    iterable. *)
Definition json_iter (v : json) : option (list json) :=
  match v with
  | JArr items => Some items
  | JObj members => Some (List.map JStr (json_keys members))
  | JStr s => Some (List.map (fun a => JStr (String a EmptyString)) (list_ascii_of_string s))
  | JNull | JBool _ | JNum _ => None
  end.

(** [''.join(v)]; [None] for the [TypeError] of a value that is not iterable
    or has an item that is not a string. *)
Fixpoint join_strings (items : list json) : option string :=
  match items with
  | [] => Some ""
  | JStr s :: items' =>
      match join_strings items' with
      | Some t => Some (s +:+ t)
      | None => None
      end
  | _ :: _ => None
  end.

Definition json_join (v : json) : option string :=
  match json_iter v with
  | Some items => join_strings items
  | None => None
  end.

(** The loop of [process_jupyter_notebook] over the cells as parsed; [None]
    for an exception that the inner handler does not catch: a cell
    that is not a dictionary has no [get], and a source that cannot be
    joined raises [TypeError]. *)
Fixpoint scan_json_cells (info : notebook_info) (cells : list json) : option notebook_info :=
  match cells with
  | [] => Some info
  | JObj cell :: cells' =>
      if match json_get cell "cell_type" with
         | Some (JStr t) => String.eqb t "markdown"
         | _ => false
         end
      then
        match json_join (default (JArr []) (json_get cell "source")) with
        | None => None
        | Some src =>
            match Re.search title_re src with
            | Some title_match =>
                let title := strip (group1 title_match) in
                match Re.search desc_re src with
                | Some desc_match =>
                    let description := strip (group1 desc_match) in
                    let features_match := Re.findall1 features_re src in
                    Some {| notebook_title := title;
                            notebook_description := description;
                            notebook_features :=
                              match features_match with
                              | [] => notebook_features info
                              | _ :: _ => List.map strip (firstn 3 features_match)
                              end |}
                | None =>
                    Some {| notebook_title := title;
                            notebook_description := notebook_description info;
                            notebook_features := notebook_features info |}
                end
            | None => scan_json_cells info cells'
            end
        end
      else scan_json_cells info cells'
  | _ :: _ => None
  end.

(** The defaults for a description and a list of features that were not
    found. *)
Definition with_defaults (notebook_filename : string) (info : notebook_info)
  : notebook_info :=
  {| notebook_title := notebook_title info;
     notebook_description :=
       if String.eqb (notebook_description info) ""
       then "This notebook provides visualization and analysis related to "
            +:+ replace (replace (List.hd "" (split_char "." notebook_filename)) "-" " ")
                        "_" " "
            +:+ "."
       else notebook_description info;
     notebook_features :=
       match notebook_features info with
       | [] => ["Visualization of data and results";
                "Analysis of simulation outputs";
                "Interactive exploration of parameters"]
       | fs => fs
       end |}.

(** The title, description and features of the page that
    [process_jupyter_notebook] builds from the text of a notebook, given
    what [json.loads] makes of it ([None] when it raises
    [JSONDecodeError], which leaves the defaults). The result is [None]
    when an exception reaches the outer handler, which returns the error
    page instead: that page has neither description nor features. *)
Definition page_metadata (notebook_filename : string) (notebook_data : option json)
  : option notebook_info :=
  let info0 := {| notebook_title := notebook_filename;
                  notebook_description := "";
                  notebook_features := [] |} in
  match notebook_data with
  | None => Some (with_defaults notebook_filename info0)
  | Some (JObj members) =>
      match json_iter (default (JArr []) (json_get members "cells")) with
      | None => None
      | Some cells =>
          match scan_json_cells info0 cells with
          | None => None
          | Some info => Some (with_defaults notebook_filename info)
          end
      end
  | Some _ => None
  end.

(** The parsed form of a notebook whose cells are well typed. *)
Definition json_of_cell (c : cell) : json :=
  JObj [("cell_type", JStr (cell_type c)); ("source", JArr (List.map JStr (source c)))].

Definition json_of_cells (cells : list cell) : json :=
  JObj [("cells", JArr (List.map json_of_cell cells))].

Lemma join_strings_map (l : list string) : join_strings (List.map JStr l) = Some (join "" l).
Proof.
  induction l as [|s l IH]; [reflexivity|].
  cbn [List.map join_strings]. rewrite IH. f_equal.
  unfold join. destruct l as [|t l]; [now rewrite append_nil_r|].
  cbn [String.concat]. now rewrite append_nil_l.
Qed.

Lemma scan_json_cells_typed (info : notebook_info) (cells : list cell) :
  scan_json_cells info (List.map json_of_cell cells) = Some (scan_cells info cells).
Proof.
  induction cells as [|c cells IH]; [reflexivity|].
  cbn [List.map scan_json_cells scan_cells json_of_cell].
  change (json_get [("cell_type", JStr (cell_type c));
                    ("source", JArr (List.map JStr (source c)))] "cell_type")
    with (Some (JStr (cell_type c))).
  change (json_get [("cell_type", JStr (cell_type c));
                    ("source", JArr (List.map JStr (source c)))] "source")
    with (Some (JArr (List.map JStr (source c)))).
  unfold json_join, default. cbn [from_option id json_iter]. rewrite join_strings_map.
  destruct (String.eqb (cell_type c) "markdown"); [|exact IH].
  destruct (Re.search title_re _); [|exact IH].
  now destruct (Re.search desc_re _).
Qed.

Lemma scan_json_cells_features (info info' : notebook_info) (cells : list json) :
  (List.length (notebook_features info) <= 3)%nat ->
  scan_json_cells info cells = Some info' ->
  (List.length (notebook_features info') <= 3)%nat.
Proof.
  intros H. induction cells as [|c cells IH]; [now intros [= <-]|].
  cbn [scan_json_cells]. destruct c as [| | | | |cell]; try discriminate.
  destruct (match json_get cell "cell_type" with
            | Some (JStr t) => String.eqb t "markdown"
            | _ => false
            end); [|exact IH].
  destruct (json_join _) as [src|]; [|discriminate].
  destruct (Re.search title_re src); [|exact IH].
  destruct (Re.search desc_re src); [|now intros [= <-]].
  cbv zeta. intros [= <-]. cbn [notebook_features].
  destruct (Re.findall1 features_re src) as [|x l]; [exact H|].
  rewrite length_map, length_firstn. lia.
Qed.

Lemma with_defaults_bounds (notebook_filename : string) (info : notebook_info) :
  (List.length (notebook_features info) <= 3)%nat ->
  notebook_description (with_defaults notebook_filename info) <> ""
  /\ (1 <= List.length (notebook_features (with_defaults notebook_filename info)) <= 3)%nat.
Proof.
  intros H. unfold with_defaults. cbn [notebook_description notebook_features]. split.
  - destruct (String.eqb_spec (notebook_description info) "") as [_|Hd]; [|exact Hd].
    intros E. apply (f_equal String.length) in E. rewrite length_append in E.
    simpl in E. discriminate.
  - destruct (notebook_features info) as [|x l]; simpl in *; lia.
Qed.

(** X12. The description and the features of a notebook page. Whatever
    [json.loads] makes of the notebook, when [process_jupyter_notebook]
    builds the page (no exception reaches its outer handler) the
    description in it is not empty and the list of features has between one
    and three entries. It builds the page when the text is not JSON and
    when the cells are well typed, with the metadata of
    [notebook_metadata]; a markdown cell whose source is null, met before a
    heading is found, makes it return the error page instead. *)
Theorem notebook_metadata_bounds (notebook_filename : string) :
  (forall notebook_data info,
      page_metadata notebook_filename notebook_data = Some info ->
      notebook_description info <> ""
      /\ (1 <= List.length (notebook_features info) <= 3)%nat)
  /\ (exists info, page_metadata notebook_filename None = Some info)
  /\ (forall cells,
        page_metadata notebook_filename (Some (json_of_cells cells))
        = Some (notebook_metadata notebook_filename cells))
  /\ (forall cells',
        page_metadata notebook_filename
          (Some (JObj [("cells",
                        JArr (JObj [("cell_type", JStr "markdown"); ("source", JNull)]
                              :: cells'))]))
        = None).
Proof.
  split; [|split; [|split]].
  - intros notebook_data info. unfold page_metadata. cbv zeta.
    destruct notebook_data as [[| | | | |members]|]; try discriminate.
    + destruct (json_iter _) as [cells|]; [|discriminate].
      destruct (scan_json_cells _ cells) as [info1|] eqn:E; [|discriminate].
      intros [= <-]. apply with_defaults_bounds.
      refine (scan_json_cells_features _ _ _ _ E). apply Nat.le_0_l.
    + intros [= <-]. apply with_defaults_bounds. apply Nat.le_0_l.
  - eexists. reflexivity.
  - intros cells. unfold page_metadata, json_of_cells. cbv zeta.
    change (json_get [("cells", JArr (List.map json_of_cell cells))] "cells")
      with (Some (JArr (List.map json_of_cell cells))).
    unfold default. cbn [from_option id json_iter]. now rewrite scan_json_cells_typed.
  - intros cells'. reflexivity.
Qed.

(** ** Regular expressions: lemmas *)

(** The cursor after the text [h] is passed, with [t] still to read. *)
Fixpoint walk (c : Re.cursor) (h t : string) : Re.cursor :=
  match h with
  | EmptyString =>
      {| Re.pos := Re.pos c; Re.prev := Re.prev c; Re.rest := t; Re.caps := Re.caps c |}
  | String a h' => walk (Re.advance c a (h' +:+ t)) h' t
  end.

Lemma walk_pos (c : Re.cursor) (h t : string) :
  Re.pos (walk c h t) = (Re.pos c + String.length h)%nat.
Proof.
  revert c; induction h as [|a h IH]; intros c; simpl; [lia|].
  rewrite IH. simpl. lia.
Qed.

Lemma walk_caps (c : Re.cursor) (h t : string) : Re.caps (walk c h t) = Re.caps c.
Proof. revert c; induction h as [|a h IH]; intros c; simpl; [reflexivity|]. now rewrite IH. Qed.

Lemma walk_rest (c : Re.cursor) (h t : string) : Re.rest (walk c h t) = t.
Proof. revert c; induction h as [|a h IH]; intros c; simpl; [reflexivity|]. now rewrite IH. Qed.

Lemma walk_nil (c : Re.cursor) : walk c "" (Re.rest c) = c.
Proof. now destruct c. Qed.

(** A literal passes exactly its own text. *)
Lemma run_lit (p : string) (k : Re.cursor -> option Re.cursor) (c : Re.cursor) (t : string) :
  Re.rest c = p +:+ t -> Re.run (Re.lit p) k c = k (walk c p t).
Proof.
  revert c; induction p as [|a p IH]; intros c Hc.
  - rewrite append_nil_l in Hc. subst t. now destruct c.
  - rewrite append_cons in Hc. cbn [Re.lit Re.run Re.char].
    rewrite Hc, Ascii.eqb_refl. cbn [walk]. now apply IH.
Qed.

Lemma run_lit_fail (p : string) (k : Re.cursor -> option Re.cursor) (c : Re.cursor) :
  startswith (Re.rest c) p = false -> Re.run (Re.lit p) k c = None.
Proof.
  revert c; induction p as [|a p IH]; intros c Hc.
  - now rewrite startswith_nil in Hc.
  - cbn [Re.lit Re.run Re.char].
    destruct (Re.rest c) as [|b s] eqn:E; [reflexivity|].
    simpl in Hc. rewrite (Ascii.eqb_sym a b).
    destruct (Ascii.eqb b a); [|reflexivity].
    apply IH. exact Hc.
Qed.

(** The loop of a repetition. *)
Definition star_loop (r1 : Re.regex) (greedy : bool) (k : Re.cursor -> option Re.cursor)
  : nat -> Re.cursor -> option Re.cursor :=
  fix loop (fuel : nat) (c : Re.cursor) {struct fuel} : option Re.cursor :=
    match fuel with
    | O => k c
    | S fuel' =>
        let turn (_ : unit) :=
          Re.run r1 (fun c' => if (Re.pos c <? Re.pos c')%nat then loop fuel' c' else None) c in
        if greedy then
          match turn tt with
          | Some c' => Some c'
          | None => k c
          end
        else
          match k c with
          | Some c' => Some c'
          | None => turn tt
          end
    end.

Lemma run_Star (greedy : bool) (r1 : Re.regex) (k : Re.cursor -> option Re.cursor)
      (c : Re.cursor) :
  Re.run (Re.Star greedy r1) k c
  = star_loop r1 greedy k (S (String.length (Re.rest c))) c.
Proof. reflexivity. Qed.

Lemma star_loop_S (r1 : Re.regex) (greedy : bool) (k : Re.cursor -> option Re.cursor)
      (fuel : nat) (c : Re.cursor) :
  star_loop r1 greedy k (S fuel) c
  = let turn :=
      Re.run r1 (fun c' => if (Re.pos c <? Re.pos c')%nat
                           then star_loop r1 greedy k fuel c' else None) c in
    if greedy then
      match turn with
      | Some c' => Some c'
      | None => k c
      end
    else
      match k c with
      | Some c' => Some c'
      | None => turn
      end.
Proof. reflexivity. Qed.

(** All the characters of [h] satisfy [f]. *)
Fixpoint all_chars (f : ascii -> bool) (h : string) : bool :=
  match h with
  | EmptyString => true
  | String a h' => f a && all_chars f h'
  end.

(** The text [t] does not go on with a character that satisfies [f]. *)
Definition stops (f : ascii -> bool) (t : string) : bool :=
  match t with
  | EmptyString => true
  | String b _ => negb (f b)
  end.

(** A greedy repetition of a character class takes the whole run of such
    characters when what follows matches there. *)
Lemma star_loop_greedy_chr (f : ascii -> bool) (k : Re.cursor -> option Re.cursor)
      (h t : string) (r : Re.cursor) :
  all_chars f h = true -> stops f t = true ->
  forall (fuel : nat) (c : Re.cursor),
    Re.rest c = h +:+ t -> (String.length h <= fuel)%nat ->
    k (walk c h t) = Some r ->
    star_loop (Re.Chr f) true k fuel c = Some r.
Proof.
  intros Hh Ht. induction h as [|a h IH]; intros fuel c Hc Hfuel Hk.
  - rewrite append_nil_l in Hc. rewrite <- Hc, walk_nil in Hk.
    destruct fuel as [|fuel]; [exact Hk|].
    rewrite star_loop_S. cbv zeta. cbn [Re.run]. rewrite Hc.
    destruct t as [|b t]; [exact Hk|].
    simpl in Ht. destruct (f b); [discriminate | exact Hk].
  - simpl in Hh. apply andb_true_iff in Hh as [Ha Hh].
    destruct fuel as [|fuel]; [simpl in Hfuel; lia|].
    rewrite append_cons in Hc.
    rewrite star_loop_S. cbv zeta. cbn [Re.run]. rewrite Hc, Ha.
    cbn [Re.advance Re.pos].
    replace (Re.pos c <? S (Re.pos c))%nat with true by (symmetry; apply Nat.ltb_lt; lia).
    rewrite (IH Hh fuel (Re.advance c a (h +:+ t))); [reflexivity|reflexivity| |exact Hk].
    simpl in Hfuel. lia.
Qed.

Lemma run_Seq (r1 r2 : Re.regex) (k : Re.cursor -> option Re.cursor) (c : Re.cursor) :
  Re.run (Re.Seq r1 r2) k c = Re.run r1 (Re.run r2 k) c.
Proof. reflexivity. Qed.

Lemma run_Chr (f : ascii -> bool) (k : Re.cursor -> option Re.cursor) (c : Re.cursor) :
  Re.run (Re.Chr f) k c
  = match Re.rest c with
    | String a s => if f a then k (Re.advance c a s) else None
    | EmptyString => None
    end.
Proof. reflexivity. Qed.

Lemma run_Group (n : nat) (r1 : Re.regex) (k : Re.cursor -> option Re.cursor)
      (c : Re.cursor) :
  Re.run (Re.Group n r1) k c
  = Re.run r1 (fun c' => k {| Re.pos := Re.pos c'; Re.prev := Re.prev c';
                              Re.rest := Re.rest c';
                              Re.caps := (n, (Re.pos c, Re.pos c')) :: Re.caps c' |}) c.
Proof. reflexivity. Qed.

Lemma run_plus_greedy_chr (f : ascii -> bool) (k : Re.cursor -> option Re.cursor)
      (a : ascii) (h t : string) (c r : Re.cursor) :
  f a = true -> all_chars f h = true -> stops f t = true ->
  Re.rest c = String a (h +:+ t) ->
  k (walk c (String a h) t) = Some r ->
  Re.run (Re.plus true (Re.Chr f)) k c = Some r.
Proof.
  intros Ha Hh Ht Hc Hk. unfold Re.plus. rewrite run_Seq, run_Chr, Hc, Ha.
  rewrite run_Star. apply (star_loop_greedy_chr f k h t r Hh Ht); [reflexivity| |exact Hk].
  cbn [Re.advance Re.rest]. rewrite length_append. lia.
Qed.

Lemma search_at_eq (r : Re.regex) (subject : string) (p : nat) (pv : option ascii)
      (s : string) :
  Re.search_at r subject p pv s
  = match Re.match_at r subject
            {| Re.pos := p; Re.prev := pv; Re.rest := s; Re.caps := [] |} with
    | Some m => Some m
    | None =>
        match s with
        | EmptyString => None
        | String a s' => Re.search_at r subject (S p) (Some a) s'
        end
    end.
Proof. now destruct s. Qed.

Lemma all_chars_app (f : ascii -> bool) (s t : string) :
  all_chars f (s +:+ t) = all_chars f s && all_chars f t.
Proof.
  induction s as [|a s IH]; [reflexivity|].
  rewrite append_cons. simpl. now rewrite IH, andb_assoc.
Qed.

(** [c not in s] for a character [c]. *)
Lemma contains_char (s : string) (a : ascii) :
  contains s (String a EmptyString) = negb (all_chars (fun b => negb (Ascii.eqb b a)) s).
Proof.
  unfold contains. induction s as [|b s IH]; [reflexivity|].
  rewrite find_eq. cbn [startswith all_chars]. rewrite startswith_nil, andb_true_r.
  destruct (Ascii.eqb b a); [reflexivity|]. cbn [negb andb]. rewrite <- IH.
  destruct (find_range s (String a "")) as [E|[E _]].
  - rewrite E. reflexivity.
  - destruct (Z.ltb_spec (find s (String a "")) 0); [lia|].
    destruct (Z.leb_spec 0 (find s (String a ""))); [|lia].
    apply Z.leb_le. lia.
Qed.

Lemma not_contains_char (s : string) (a : ascii) :
  contains s (String a EmptyString) = false ->
  all_chars (fun b => negb (Ascii.eqb b a)) s = true.
Proof. rewrite contains_char. now destruct (all_chars _ s). Qed.

Lemma stake_app_length (h t : string) : stake (String.length h) (h +:+ t) = h.
Proof. induction h as [|a h IH]; [now destruct t|]. rewrite append_cons. simpl. now rewrite IH. Qed.

Lemma sdrop_app_length (h t : string) : sdrop (String.length h) (h +:+ t) = t.
Proof. induction h as [|a h IH]; [reflexivity|]. rewrite append_cons. simpl. exact IH. Qed.

(** The pattern of an href attribute at the start of [href=Q h Q t]: it
    matches, and its group is [h]. *)
Lemma match_at_href (subject : string) (p : nat) (pv : option ascii) (h t : string) :
  h <> "" -> all_chars (fun b => negb (Ascii.eqb b DQ_char)) h = true ->
  Re.match_at href_re subject
    {| Re.pos := p; Re.prev := pv;
       Re.rest := ("href=" +:+ DQ) +:+ h +:+ DQ +:+ t; Re.caps := [] |}
  = Some {| Re.m_string := subject; Re.m_start := p;
            Re.m_end := (p + 6 + String.length h + 1)%nat;
            Re.m_caps := [(1%nat, ((p + 6)%nat, (p + 6 + String.length h)%nat))] |}.
Proof.
  intros Hne Hh. destruct h as [|a h]; [congruence|].
  cbn [all_chars] in Hh. apply andb_true_iff in Hh as [Ha Hh].
  unfold Re.match_at. cbn [Re.pos Re.prev Re.rest].
  unfold href_re. cbn [Re.seqs]. rewrite run_Seq.
  rewrite (run_lit _ _ _ (String a h +:+ DQ +:+ t)) by reflexivity.
  rewrite run_Seq, run_Group. unfold Re.not_char.
  match goal with
  | |- context [Re.run (Re.plus true (Re.Chr ?f)) ?k ?c] =>
      assert (Hk : k (walk c (String a h) (DQ +:+ t))
                   = Some {| Re.pos := (p + 6 + String.length (String a h) + 1)%nat;
                             Re.prev := Some DQ_char; Re.rest := t;
                             Re.caps := [(1%nat, ((p + 6)%nat,
                                                  (p + 6 + String.length (String a h))%nat))] |});
      [|rewrite (run_plus_greedy_chr f k a h (DQ +:+ t) c _ Ha Hh eq_refl eq_refl Hk);
        reflexivity]
  end.
  rewrite (run_lit _ _ _ t) by (cbn [Re.rest]; now rewrite walk_rest).
  unfold DQ. cbn [walk Re.advance Re.pos Re.prev Re.rest Re.caps].
  repeat (rewrite ?walk_pos, ?walk_caps; cbn [Re.advance Re.pos Re.caps]).
  change (String.length ("href=" +:+ String (ascii_of_nat 34) "")) with 6%nat.
  cbn [String.length].
  f_equal. f_equal; [lia|]. do 3 f_equal; lia.
Qed.

Lemma match_at_href_fail (subject : string) (p : nat) (pv : option ascii) (s : string) :
  startswith s ("href=" +:+ DQ) = false ->
  Re.match_at href_re subject {| Re.pos := p; Re.prev := pv; Re.rest := s; Re.caps := [] |}
  = None.
Proof.
  intros H. unfold Re.match_at. cbn [Re.pos Re.prev Re.rest].
  unfold href_re. cbn [Re.seqs]. rewrite run_Seq, run_lit_fail; [reflexivity | exact H].
Qed.

(** No href attribute in a text without a double quote. *)
Lemma search_at_href_none (subject : string) (s : string) :
  all_chars (fun b => negb (Ascii.eqb b DQ_char)) s = true ->
  forall p pv, Re.search_at href_re subject p pv s = None.
Proof.
  assert (Hstart : forall s0, all_chars (fun b => negb (Ascii.eqb b DQ_char)) s0 = true ->
                              startswith s0 ("href=" +:+ DQ) = false).
  { intros s0 H0. destruct (startswith s0 ("href=" +:+ DQ)) eqn:E; [|reflexivity].
    apply startswith_split in E. rewrite E, all_chars_app in H0.
    apply andb_true_iff in H0 as [H0 _]. vm_compute in H0. discriminate. }
  induction s as [|a s IH]; intros Hs p pv; rewrite search_at_eq.
  - now rewrite match_at_href_fail.
  - rewrite match_at_href_fail by now apply Hstart.
    cbn [all_chars] in Hs. apply andb_true_iff in Hs as [_ Hs]. now apply IH.
Qed.

Lemma matches_from_none (r : Re.regex) (subject : string) (fuel p : nat)
      (pv : option ascii) (s : string) :
  Re.search_at r subject p pv s = None -> Re.matches_from r subject fuel p pv s = [].
Proof. intros H. destruct fuel; [reflexivity|]. simpl. now rewrite H. Qed.

Lemma matches_from_S (r : Re.regex) (subject : string) (fuel p : nat)
      (pv : option ascii) (s : string) :
  Re.matches_from r subject (S fuel) p pv s
  = match Re.search_at r subject p pv s with
    | None => []
    | Some m =>
        let s1 := sdrop (Re.m_end m - p) s in
        let pv1 := if (p <? Re.m_end m)%nat
                   then String.get (Re.m_end m - p - 1) s
                   else pv in
        if (Re.m_start m <? Re.m_end m)%nat
        then m :: Re.matches_from r subject fuel (Re.m_end m) pv1 s1
        else match s1 with
             | EmptyString => [m]
             | String a s2 => m :: Re.matches_from r subject fuel (S (Re.m_end m)) (Some a) s2
             end
    end.
Proof. reflexivity. Qed.

(** The first href attribute of the anchor [<a href=Q h Q>text</a>]. *)
Lemma search_href_anchor (h text : string) :
  h <> "" -> all_chars (fun b => negb (Ascii.eqb b DQ_char)) h = true ->
  Re.search href_re (anchor h text)
  = Some {| Re.m_string := anchor h text; Re.m_start := 3;
            Re.m_end := (3 + 6 + String.length h + 1)%nat;
            Re.m_caps := [(1%nat, ((3 + 6)%nat, (3 + 6 + String.length h)%nat))] |}.
Proof.
  intros Hne Hh. unfold Re.search.
  change (Re.search_at href_re (anchor h text) 0 None (anchor h text))
    with (Re.search_at href_re (anchor h text) 0 None
            (String "<" (String "a" (String " "
               (("href=" +:+ DQ) +:+ h +:+ DQ +:+ ">" +:+ text +:+ "</a>"))))).
  do 3 (rewrite search_at_eq, match_at_href_fail by reflexivity).
  rewrite search_at_eq, match_at_href by assumption. reflexivity.
Qed.

Lemma anchor_sdrop (h text : string) (k : nat) :
  sdrop (9 + k) (anchor h text) = sdrop k (h +:+ DQ +:+ ">" +:+ text +:+ "</a>").
Proof. reflexivity. Qed.

Lemma group1_href_anchor (h text : string) :
  group1 {| Re.m_string := anchor h text; Re.m_start := 3;
            Re.m_end := (3 + 6 + String.length h + 1)%nat;
            Re.m_caps := [(1%nat, ((3 + 6)%nat, (3 + 6 + String.length h)%nat))] |}
  = h.
Proof.
  unfold group1, Re.group. cbn [List.find fst Nat.eqb Re.m_caps Re.m_string].
  unfold Re.substr.
  replace (3 + 6 + String.length h - (3 + 6))%nat with (String.length h) by lia.
  change (3 + 6)%nat with (9 + 0)%nat. rewrite anchor_sdrop. cbn [sdrop].
  apply stake_app_length.
Qed.

(** [fix_doc_links] on an anchor whose only attribute is the href: the
    href that it reads is the one of the anchor. *)
Lemma fix_doc_links_anchor (href text : string) :
  href <> "" -> contains href DQ = false ->
  fix_doc_links (anchor href text)
  = if skipped_href href then Some (anchor href text)
    else match Re.search doc_ext_re href with
         | Some _ =>
             Re.sub href_re (Re.template ("href=" +:+ DQ +:+ href +:+ ".html" +:+ DQ))
                    (anchor href text)
         | None => Some (anchor href text)
         end.
Proof.
  intros Hne Hq. apply not_contains_char in Hq.
  unfold fix_doc_links. rewrite (search_href_anchor href text Hne Hq).
  cbv zeta. rewrite group1_href_anchor. reflexivity.
Qed.

(** X13. A link that [fix_doc_links] leaves alone: the anchor of an external
    link, of an anchor of the page, or of a link that ends in [.html]
    already is returned as it is. *)
Theorem fix_doc_links_skipped (href text : string) :
  href <> "" -> contains href DQ = false ->
  skipped_href href = true ->
  fix_doc_links (anchor href text) = Some (anchor href text).
Proof.
  intros Hne Hq Hskip. rewrite (fix_doc_links_anchor href text Hne Hq), Hskip. reflexivity.
Qed.

Lemma fix_doc_links_skipped_witness :
  fix_doc_links (anchor "https://example.com/util.py" "x")
  = Some (anchor "https://example.com/util.py" "x").
Proof.
  apply (fix_doc_links_skipped "https://example.com/util.py" "x").
  - discriminate.
  - vm_compute. reflexivity.
  - vm_compute. reflexivity.
Defined.

(** The backslash. *)
Definition BS : string := String (ascii_of_nat 92) EmptyString.

Lemma search_at_suffix (r : Re.regex) (subject t : string) :
  (forall p pv, is_Some (Re.match_at r subject
                           {| Re.pos := p; Re.prev := pv; Re.rest := t; Re.caps := [] |})) ->
  forall pre p pv, is_Some (Re.search_at r subject p pv (pre +:+ t)).
Proof.
  intros Ht. induction pre as [|a pre IH]; intros p pv; rewrite search_at_eq.
  - rewrite append_nil_l. destruct (Ht p pv) as [m ->]. now exists m.
  - destruct (Re.match_at _ _ _) as [m|]; [now exists m|].
    rewrite append_cons. apply IH.
Qed.

(** A name that ends in one of the five extensions matches the pattern of
    a documentation file. *)
Lemma search_doc_ext (stem ext : string) :
  In ext [".c"; ".h"; ".py"; ".sh"; ".md"] ->
  is_Some (Re.search doc_ext_re (stem +:+ ext)).
Proof.
  intros Hext. unfold Re.search. apply search_at_suffix. intros p pv.
  simpl in Hext.
  destruct Hext as [<-|[<-|[<-|[<-|[<-|[]]]]]]; eexists; reflexivity.
Qed.

(** The replacement of the href of an anchor: every href attribute of the
    anchor is replaced, and the text of the anchor holds none when it has
    no double quote. *)
Lemma sub_href_anchor (href new text : string) :
  href <> "" -> contains href DQ = false -> contains new BS = false ->
  contains text DQ = false ->
  Re.sub href_re (Re.template ("href=" +:+ DQ +:+ new +:+ DQ)) (anchor href text)
  = Some (anchor new text).
Proof.
  intros Hne Hq Hb Htext.
  apply not_contains_char in Hq. apply not_contains_char in Hb.
  apply not_contains_char in Htext.
  unfold Re.sub, Re.finditer. rewrite matches_from_S.
  change (Re.search_at href_re (anchor href text) 0 None (anchor href text))
    with (Re.search href_re (anchor href text)).
  rewrite (search_href_anchor href text Hne Hq). cbv zeta. cbn [Re.m_start Re.m_end].
  replace (3 <? 3 + 6 + String.length href + 1)%nat with true
    by (symmetry; apply Nat.ltb_lt; lia).
  replace (3 + 6 + String.length href + 1 - 0)%nat with (9 + (String.length href + 1))%nat
    by lia.
  rewrite anchor_sdrop, <- sdrop_add, sdrop_app_length. cbn [sdrop append DQ].
  rewrite matches_from_none.
  - cbn [Re.splice Re.m_start Re.m_end]. unfold Re.template.
    replace (contains ("href=" +:+ DQ +:+ new +:+ DQ) (String (ascii_of_nat 92) ""))
      with false.
    + unfold Re.substr.
      replace (3 + 6 + String.length href + 1)%nat with (9 + (String.length href + 1))%nat
        by lia.
      rewrite anchor_sdrop, <- sdrop_add, sdrop_app_length. cbn [sdrop append DQ].
      f_equal. unfold anchor. rewrite !append_assoc. reflexivity.
    + symmetry. rewrite contains_char, !all_chars_app, Hb. reflexivity.
  - apply search_at_href_none.
    change (all_chars (fun b => negb (Ascii.eqb b (ascii_of_nat 34)))
                      (">" +:+ text +:+ "</a>") = true).
    rewrite !all_chars_app, Htext. reflexivity.
Qed.

(** X14. The rewriting of [fix_doc_links]: an anchor whose href ends in
    [.c], [.h], [.py], [.sh] or [.md] and is not skipped gets [.html]
    appended to the href, and the rest of the anchor is kept. *)
Theorem fix_doc_links_suffix (stem ext text : string) :
  In ext [".c"; ".h"; ".py"; ".sh"; ".md"] ->
  contains (stem +:+ ext) DQ = false ->
  contains (stem +:+ ext) BS = false ->
  contains text DQ = false ->
  skipped_href (stem +:+ ext) = false ->
  fix_doc_links (anchor (stem +:+ ext) text)
  = Some (anchor (stem +:+ ext +:+ ".html") text).
Proof.
  intros Hext Hq Hb Htext Hskip.
  assert (Hne : stem +:+ ext <> "").
  { intros E. apply (f_equal String.length) in E.
    rewrite length_append in E. simpl in Hext.
    destruct Hext as [<-|[<-|[<-|[<-|[<-|[]]]]]]; simpl in E; lia. }
  rewrite (fix_doc_links_anchor _ text Hne Hq), Hskip.
  destruct (search_doc_ext stem ext Hext) as [m ->].
  rewrite <- (append_assoc stem ext ".html").
  rewrite <- (sub_href_anchor (stem +:+ ext) ((stem +:+ ext) +:+ ".html") text Hne Hq);
    [now rewrite !append_assoc| |exact Htext].
  apply not_contains_char in Hb.
  unfold BS. rewrite contains_char, all_chars_app, Hb. reflexivity.
Qed.

Lemma fix_doc_links_suffix_witness :
  fix_doc_links (anchor ("util" +:+ ".py") "x")
  = Some (anchor ("util" +:+ ".py" +:+ ".html") "x").
Proof.
  apply (fix_doc_links_suffix "util" ".py" "x").
  - simpl. tauto.
  - vm_compute. reflexivity.
  - vm_compute. reflexivity.
  - vm_compute. reflexivity.
  - vm_compute. reflexivity.
Defined.

(** The pattern of a documentation file reads at most four characters. *)
Lemma match_at_doc_ext_long (subject : string) (p : nat) (pv : option ascii)
      (a b c d e : ascii) (s : string) :
  Re.match_at doc_ext_re subject
    {| Re.pos := p; Re.prev := pv;
       Re.rest := String a (String b (String c (String d (String e s)))); Re.caps := [] |}
  = None.
Proof.
  unfold Re.match_at, doc_ext_re. cbn -[Ascii.eqb String.eqb].
  repeat match goal with
         | |- context [Ascii.eqb ?x ?y] => destruct (Ascii.eqb x y)
         end; reflexivity.
Qed.

Lemma match_at_doc_ext_start (subject : string) (p : nat) (pv : option ascii) (s : string) :
  startswith s "." = false ->
  Re.match_at doc_ext_re subject
    {| Re.pos := p; Re.prev := pv; Re.rest := s; Re.caps := [] |}
  = None.
Proof.
  intros H. unfold Re.match_at, doc_ext_re. cbn [Re.seqs Re.pos Re.prev Re.rest].
  rewrite run_Seq. unfold Re.char. rewrite run_Chr. cbn [Re.rest].
  destruct s as [|a s]; [reflexivity|]. simpl in H. rewrite startswith_nil, andb_true_r in H.
  rewrite Ascii.eqb_sym, H. reflexivity.
Qed.

Lemma search_at_doc_ext_ipynb (subject stem : string) (p : nat) (pv : option ascii) :
  Re.search_at doc_ext_re subject p pv (stem +:+ ".ipynb") = None.
Proof.
  revert p pv. induction stem as [|a stem IH]; intros p pv.
  - rewrite append_nil_l.
    rewrite search_at_eq, match_at_doc_ext_long.
    repeat (rewrite search_at_eq, match_at_doc_ext_start by reflexivity).
    reflexivity.
  - rewrite append_cons, search_at_eq.
    assert (Hlong : exists b c d e s, stem +:+ ".ipynb" = String b (String c (String d (String e s)))).
    { destruct stem as [|b [|c [|d [|e s]]]]; rewrite ?append_cons, ?append_nil_l;
        eexists _, _, _, _, _; reflexivity. }
    destruct Hlong as (b & c & d & e & s & E).
    rewrite E at 1. rewrite match_at_doc_ext_long. apply IH.
Qed.

(** X15. A link to a notebook is not rewritten: the pattern of
    [fix_doc_links] knows [.c], [.h], [.py], [.sh] and [.md] but not
    [.ipynb], so the anchor is returned as it is although the page of a
    notebook is named after it with [.html] appended. *)
Theorem fix_doc_links_notebook (stem text : string) :
  contains (stem +:+ ".ipynb") DQ = false ->
  fix_doc_links (anchor (stem +:+ ".ipynb") text) = Some (anchor (stem +:+ ".ipynb") text).
Proof.
  intros Hq.
  assert (Hne : stem +:+ ".ipynb" <> "").
  { intros E. apply (f_equal String.length) in E. rewrite length_append in E.
    simpl in E. lia. }
  rewrite (fix_doc_links_anchor _ text Hne Hq).
  destruct (skipped_href _); [reflexivity|].
  unfold Re.search. now rewrite search_at_doc_ext_ipynb.
Qed.

Lemma fix_doc_links_notebook_witness :
  fix_doc_links (anchor ("plots" +:+ ".ipynb") "x") = Some (anchor ("plots" +:+ ".ipynb") "x").
Proof.
  apply (fix_doc_links_notebook "plots" "x"). vm_compute. reflexivity.
Defined.

(** ** Link suffixing: the pass on an anchor *)

(** The patterns made of characters, classes, sequences and greedy
    repetitions of a class, and the texts that such a pattern passes. *)
Fixpoint plain (r : Re.regex) : bool :=
  match r with
  | Re.Eps | Re.Chr _ => true
  | Re.Seq r1 r2 => plain r1 && plain r2
  | Re.Star true (Re.Chr _) => true
  | _ => false
  end.








Lemma plain_lit (p : string) : plain (Re.lit p) = true.
Proof. induction p as [|a p IH]; [reflexivity|]. cbn [Re.lit plain Re.char]. exact IH. Qed.













(** ** The title of the site *)

(** [^# (.+)$] with [MULTILINE] *)
Definition h1_re : Re.regex :=
  Re.seqs [Re.Bol true; Re.lit "# "; Re.Group 1 (Re.plus true (Re.dot false)); Re.Eol true].

(** [extract_h1_from_readme] *)
Definition extract_h1_from_readme (fl : flags) (readme_path : path) : M string :=
  try_except
    (do content <- read_text readme_path;
     match Re.search h1_re content with
     | Some h1_match => ret (strip (group1 h1_match))
     | None =>
         debug_print fl "Warning: No h1 heading found in README.md";;
         ret "Documentation"
     end)
    (fun e =>
       print ("Error reading README.md: " +:+ exn_str e);;
       ret "Documentation").

(** The heading pattern on a text that starts with a heading line. *)
Lemma search_h1_heading (title rest : string) :
  title <> "" -> contains title LF = false ->
  rest = "" \/ startswith rest LF = true ->
  exists m,
    Re.search h1_re ("# " +:+ title +:+ rest) = Some m /\ group1 m = title.
Proof.
  intros Hne Hlf Hrest. apply not_contains_char in Hlf.
  destruct title as [|a title]; [congruence|].
  cbn [all_chars] in Hlf. apply andb_true_iff in Hlf as [Ha Hlf].
  set (content := "# " +:+ String a title +:+ rest).
  set (m := {| Re.m_string := content; Re.m_start := 0;
               Re.m_end := (2 + String.length (String a title))%nat;
               Re.m_caps := [(1%nat, (2%nat, (2 + String.length (String a title))%nat))] |}).
  exists m. split.
  - unfold Re.search. rewrite search_at_eq.
    replace (Re.match_at h1_re content _) with (Some m); [reflexivity|]. symmetry.
    unfold Re.match_at. cbn [Re.pos Re.prev Re.rest].
    unfold h1_re. cbn [Re.seqs]. rewrite run_Seq.
    change (Re.run (Re.Bol true) ?k ?c) with (k c).
    rewrite run_Seq.
    rewrite (run_lit "# " _ _ (String a title +:+ rest)) by reflexivity.
    rewrite run_Seq, run_Group. unfold Re.dot.
    assert (Hstops : stops (fun b => false || negb (Ascii.eqb b LF_char)) rest = true).
    { destruct Hrest as [->|Hrest]; [reflexivity|].
      destruct rest as [|b rest]; [reflexivity|].
      simpl in Hrest. rewrite startswith_nil, andb_true_r in Hrest.
      cbn [stops orb]. now rewrite Hrest. }
    match goal with
    | |- context [Re.run (Re.plus true (Re.Chr ?f)) ?k ?c] =>
        assert (Hk : k (walk c (String a title) rest)
                     = Some {| Re.pos := (2 + String.length (String a title))%nat;
                               Re.prev := Re.prev (walk c (String a title) rest);
                               Re.rest := rest;
                               Re.caps := [(1%nat, (2%nat,
                                                    (2 + String.length (String a title))%nat))] |});
        [|rewrite (run_plus_greedy_chr f k a title rest c _ Ha Hlf Hstops eq_refl Hk);
          reflexivity]
    end.
    cbv beta. cbn [Re.run]. unfold Re.at_eol. cbn [Re.rest]. rewrite walk_rest.
    rewrite !walk_pos, !walk_caps. cbn [Re.pos Re.caps].
      destruct Hrest as [->|Hrest]; [reflexivity|].
      destruct rest as [|b rest]; [reflexivity|].
      simpl in Hrest. rewrite startswith_nil, andb_true_r in Hrest. rewrite Hrest.
      reflexivity.
  - unfold group1, Re.group, m. cbn [List.find fst Nat.eqb Re.m_caps Re.m_string].
    unfold Re.substr.
    replace (2 + String.length (String a title) - 2)%nat
      with (String.length (String a title)) by lia.
    change (sdrop 2 content) with (String a title +:+ rest).
    apply stake_app_length.
Qed.

(** X16. The title of the site is the text of the heading on the first line
    of the README, without the whitespace around it. *)
Theorem extract_h1_from_readme_heading (fl : flags) (readme_path : path) (w : world)
        (title rest : string) :
  files w !! readme_path = Some ("# " +:+ title +:+ rest) ->
  title <> "" -> contains title LF = false ->
  rest = "" \/ startswith rest LF = true ->
  extract_h1_from_readme fl readme_path w = (inr (strip title), w).
Proof.
  intros Hfile Hne Hlf Hrest.
  destruct (search_h1_heading title rest Hne Hlf Hrest) as (m & Hm & Hg).
  unfold extract_h1_from_readme, try_except, bind, read_text.
  now rewrite Hfile, Hm, Hg.
Qed.

(** A README with a heading and a paragraph. *)
Definition readme_world : world :=
  {| files := {[ ["repo"; "README.md"] := "# Bursting bubbles " +:+ LF +:+ "Text." ]};
     dirs := ∅; printed := [] |}.

Lemma extract_h1_from_readme_heading_witness :
  extract_h1_from_readme quiet ["repo"; "README.md"] readme_world
  = (inr (strip "Bursting bubbles "), readme_world).
Proof.
  apply (extract_h1_from_readme_heading quiet ["repo"; "README.md"] readme_world
           "Bursting bubbles " (LF +:+ "Text.")).
  - reflexivity.
  - discriminate.
  - vm_compute. reflexivity.
  - right. reflexivity.
Defined.

(** X17. Without a README, or with an empty one, the title is
    Documentation: [extract_h1_from_readme] does not raise, and a README
    path that is missing or is a directory is reported with the error of
    [open] for it. *)
Theorem extract_h1_from_readme_default (fl : flags) (readme_path : path) (w : world) :
  (files w !! readme_path = None ->
   extract_h1_from_readme fl readme_path w
   = (inr "Documentation",
      say w ["Error reading README.md: "
             +:+ exn_str (if bool_decide (readme_path ∈ dirs w)
                          then IsADirectoryError readme_path
                          else FileNotFoundError readme_path)]))
  /\ (files w !! readme_path = Some "" ->
      fst (extract_h1_from_readme fl readme_path w) = inr "Documentation"
      /\ files (snd (extract_h1_from_readme fl readme_path w)) = files w).
Proof.
  unfold extract_h1_from_readme, try_except, bind, read_text. split; intros ->.
  - reflexivity.
  - change (Re.search h1_re "") with (@None Re.rmatch).
    unfold debug_print. destruct (DEBUG fl); split; reflexivity.
Qed.

(** ** Python sources *)

(** The two delimiters of a docstring: three double quotes, three single
    quotes. *)
Definition TQ : string := DQ +:+ DQ +:+ DQ.
Definition TA : string := "'''".

(** The state of the loop of [process_python_file]. *)
Record py_state := {
  processed_lines : list string;
  in_code_block : bool;
  code_block : list string;
  in_docstring : bool;
  docstring_lines : list string
}.

(** The test on a line that opens or closes a docstring. *)
Definition is_delimiter (line : string) : bool :=
  startswith (strip line) TQ || startswith (strip line) TA.

(** A line of a docstring as it is emitted; [None] for a line that is
    skipped. *)
Definition clean_doc_line (doc_line : string) : option string :=
  if String.eqb (strip doc_line) TQ || String.eqb (strip doc_line) TA then None
  else
    let doc_line := strip doc_line in
    let doc_line :=
      if startswith doc_line TQ || startswith doc_line TA then sdrop 3 doc_line
      else doc_line in
    let doc_line :=
      if endswith doc_line TQ || endswith doc_line TA
      then stake (String.length doc_line - 3) doc_line
      else doc_line in
    Some (strip doc_line).

(** The fenced block of the code lines gathered so far. *)
Definition fenced (code : list string) : list string := ["```python"] ++ code ++ ["```"].

(** One turn of the loop on [line]. *)
Definition python_step (st : py_state) (line : string) : py_state :=
  if is_delimiter line then
    if in_docstring st then
      let clean_docstring := omap clean_doc_line (docstring_lines st) in
      {| processed_lines :=
           match clean_docstring with
           | [] => processed_lines st
           | _ :: _ => processed_lines st ++ [""] ++ clean_docstring ++ [""]
           end;
         in_code_block := in_code_block st;
         code_block := code_block st;
         in_docstring := false;
         docstring_lines := [] |}
    else if in_code_block st then
      {| processed_lines := processed_lines st ++ fenced (code_block st);
         in_code_block := false;
         code_block := [];
         in_docstring := true;
         docstring_lines := docstring_lines st |}
    else
      {| processed_lines := processed_lines st;
         in_code_block := in_code_block st;
         code_block := code_block st;
         in_docstring := true;
         docstring_lines := docstring_lines st |}
  else if in_docstring st then
    {| processed_lines := processed_lines st;
       in_code_block := in_code_block st;
       code_block := code_block st;
       in_docstring := in_docstring st;
       docstring_lines := docstring_lines st ++ [line] |}
  else if negb (in_code_block st) && negb (String.eqb (strip line) "") then
    {| processed_lines := processed_lines st;
       in_code_block := true;
       code_block := code_block st ++ [line];
       in_docstring := in_docstring st;
       docstring_lines := docstring_lines st |}
  else if in_code_block st then
    {| processed_lines := processed_lines st;
       in_code_block := in_code_block st;
       code_block := code_block st ++ [line];
       in_docstring := in_docstring st;
       docstring_lines := docstring_lines st |}
  else
    {| processed_lines := processed_lines st ++ [line];
       in_code_block := in_code_block st;
       code_block := code_block st;
       in_docstring := in_docstring st;
       docstring_lines := docstring_lines st |}.

(** What follows the loop: the code block and the docstring still open. *)
Definition python_finish (st : py_state) : list string :=
  let processed_lines :=
    if in_code_block st then processed_lines st ++ fenced (code_block st)
    else processed_lines st in
  if in_docstring st then processed_lines ++ [""] ++ docstring_lines st ++ [""]
  else processed_lines.

Definition python_start : py_state :=
  {| processed_lines := []; in_code_block := false; code_block := [];
     in_docstring := false; docstring_lines := [] |}.

(** The lines of the Markdown made from the lines of a Python source. *)
Definition python_markdown_lines (lines : list string) : list string :=
  python_finish (foldl python_step python_start lines).

(** [process_python_file], which [steps] leaves open in the driver. *)
Definition process_python (file_path : path) : M string :=
  do file_content <- read_text file_path;
  ret (join LF (python_markdown_lines (split_char LF_char file_content))).

(** ** Python sources: properties *)

(** X18. What a delimiter line holds besides the delimiter is dropped: the
    Markdown is the same when a line that opens or closes a docstring is
    replaced by any other such line, so the text that shares the line with
    the quotes never reaches the page. *)
Theorem python_delimiter_text_dropped (pre post : list string) (d d' : string) :
  is_delimiter d = true -> is_delimiter d' = true ->
  python_markdown_lines (pre ++ d :: post) = python_markdown_lines (pre ++ d' :: post).
Proof.
  intros Hd Hd'. unfold python_markdown_lines. rewrite !foldl_app. cbn [foldl].
  f_equal. f_equal. unfold python_step. now rewrite Hd, Hd'.
Qed.

Lemma python_delimiter_text_dropped_witness :
  python_markdown_lines (["x = 1"] ++ (TQ +:+ "Summary.") :: ["More."; TQ; "y = 2"])
  = python_markdown_lines (["x = 1"] ++ TQ :: ["More."; TQ; "y = 2"]).
Proof.
  apply (python_delimiter_text_dropped ["x = 1"] ["More."; TQ; "y = 2"]
           (TQ +:+ "Summary.") TQ); reflexivity.
Defined.

Lemma blank_not_delimiter (line : string) : strip line = "" -> is_delimiter line = false.
Proof. intros H. unfold is_delimiter. now rewrite H. Qed.

(** The loop on code lines, once a code block is open. *)
Lemma python_code_lines (code : list string) (st : py_state) :
  Forall (fun l => is_delimiter l = false) code ->
  in_code_block st = true -> in_docstring st = false ->
  foldl python_step st code
  = {| processed_lines := processed_lines st; in_code_block := true;
       code_block := code_block st ++ code; in_docstring := false;
       docstring_lines := docstring_lines st |}.
Proof.
  intros Hcode. revert st. induction Hcode as [|l code Hl _ IH]; intros st Hc Hd.
  - destruct st. cbn in *. subst. now rewrite app_nil_r.
  - cbn [foldl]. rewrite IH.
    + unfold python_step. rewrite Hl, Hd, Hc. cbn. now rewrite <- app_assoc.
    + unfold python_step. rewrite Hl, Hd, Hc. reflexivity.
    + unfold python_step. rewrite Hl, Hd, Hc. reflexivity.
Qed.

(** The loop on blank lines, outside code and docstrings. *)
Lemma python_blank_lines (blanks done : list string) :
  Forall (fun l => strip l = "") blanks ->
  foldl python_step
        {| processed_lines := done; in_code_block := false; code_block := [];
           in_docstring := false; docstring_lines := [] |} blanks
  = {| processed_lines := done ++ blanks; in_code_block := false; code_block := [];
       in_docstring := false; docstring_lines := [] |}.
Proof.
  intros Hblank. revert done.
  induction Hblank as [|l blanks Hl _ IH]; intros done; [now rewrite app_nil_r|].
  cbn [foldl]. unfold python_step at 2. rewrite (blank_not_delimiter l Hl), Hl. cbn.
  rewrite IH. now rewrite <- app_assoc.
Qed.

(** X19. A source without docstrings: after the blank lines at its head,
    which are kept as they are, all the lines from the first one that is not
    blank on go into one fenced block, in order and unchanged. *)
Theorem python_code_only (blanks : list string) (first : string) (code : list string) :
  Forall (fun l => strip l = "") blanks ->
  strip first <> "" ->
  Forall (fun l => is_delimiter l = false) (first :: code) ->
  python_markdown_lines (blanks ++ first :: code)
  = blanks ++ ["```python"] ++ (first :: code) ++ ["```"].
Proof.
  intros Hblank Hfirst Hcode. apply Forall_cons in Hcode as [Hf Hcode].
  unfold python_markdown_lines. rewrite foldl_app.
  unfold python_start. rewrite (python_blank_lines blanks [] Hblank). cbn [foldl app]. unfold python_step at 2. rewrite Hf. cbn.
  destruct (String.eqb_spec (strip first) "") as [E|_]; [contradiction|]. cbn.
  rewrite (python_code_lines code _ Hcode); reflexivity.
Qed.

Lemma python_code_only_witness :
  python_markdown_lines ([""] ++ "import os" :: ["x = 1"])
  = [""] ++ ["```python"] ++ ("import os" :: ["x = 1"]) ++ ["```"].
Proof.
  apply (python_code_only [""] "import os" ["x = 1"]).
  - repeat constructor.
  - discriminate.
  - repeat constructor.
Defined.

(** ** Whitespace: lemmas *)

Lemma lstrip_by_all (f : ascii -> bool) (s : string) :
  all_chars f (lstrip_by f s) = all_chars f s.
Proof.
  induction s as [|a s IH]; [reflexivity|].
  simpl. destruct (f a) eqn:E; [exact IH|]. simpl. now rewrite E.
Qed.

Lemma lstrip_by_nil (f : ascii -> bool) (s : string) :
  lstrip_by f s = "" <-> all_chars f s = true.
Proof.
  induction s as [|a s IH]; [easy|].
  simpl. destruct (f a); [exact IH|]. split; discriminate.
Qed.

Lemma rstrip_by_all (f : ascii -> bool) (s : string) :
  all_chars f (rstrip_by f s) = all_chars f s.
Proof.
  induction s as [|a s IH]; [reflexivity|].
  simpl. destruct (rstrip_by f s) as [|b r].
  - simpl in IH. rewrite <- IH. destruct (f a) eqn:E; simpl; now rewrite ?E.
  - cbn [all_chars]. cbn [all_chars] in IH. now rewrite IH.
Qed.

Lemma rstrip_by_nil (f : ascii -> bool) (s : string) :
  rstrip_by f s = "" <-> all_chars f s = true.
Proof.
  induction s as [|a s IH]; [easy|].
  simpl. destruct (rstrip_by f s) as [|b r].
  - destruct IH as [IH _]. rewrite (IH eq_refl), andb_true_r.
    destruct (f a); split; congruence.
  - split; [discriminate|]. intros H. apply andb_true_iff in H as [_ H].
    apply IH in H. discriminate.
Qed.

(** A line is blank when all its characters are whitespace. *)
Lemma strip_nil (s : string) : strip s = "" <-> all_chars is_space s = true.
Proof. unfold strip. now rewrite rstrip_by_nil, lstrip_by_all. Qed.

Lemma strip_all (s : string) : all_chars is_space (strip s) = all_chars is_space s.
Proof. unfold strip. now rewrite rstrip_by_all, lstrip_by_all. Qed.

(** Taking a text of whitespace out leaves a blank line blank and any
    other line not blank. *)
Lemma replace_from_blank (b : ascii) (old' : string) (s : string) :
  all_chars is_space (String b old') = true ->
  forall skip,
    all_chars is_space (stake skip s) = true ->
    all_chars is_space (replace_from (String b old') "" skip s) = all_chars is_space s.
Proof.
  intros Hold. cbn [all_chars] in Hold. apply andb_true_iff in Hold as [Hb Hold].
  induction s as [|a s IH]; intros skip Hskip; [now destruct skip|].
  destruct skip as [|k].
  - cbn [replace_from]. destruct (startswith (String a s) (String b old')) eqn:E.
    + rewrite append_nil_l. cbn [startswith] in E.
      apply andb_true_iff in E as [Eab E]. apply Ascii.eqb_eq in Eab as ->.
      replace (String.length (String b old') - 1)%nat with (String.length old')
        by (simpl; lia).
      rewrite IH.
      * cbn [all_chars]. now rewrite Hb.
      * rewrite (startswith_split _ _ E), stake_app_length. exact Hold.
    + cbn [all_chars]. now rewrite IH.
  - cbn [replace_from]. cbn [stake all_chars] in Hskip.
    apply andb_true_iff in Hskip as [Ha Hskip].
    cbn [all_chars]. rewrite Ha. now apply IH.
Qed.

Lemma replace_blank (s : string) (b : ascii) (old' : string) :
  all_chars is_space (String b old') = true ->
  all_chars is_space (replace s (String b old') "") = all_chars is_space s.
Proof. intros H. unfold replace. now apply replace_from_blank. Qed.

(** The line of the tree without its tree symbols has a first word when the
    line is not blank: [parts[0]] never fails. *)
Lemma tree_parts_nonempty (line : string) :
  strip line <> "" ->
  split_ws_1 (strip (replace (replace (replace line " " "") " " "") "   " "")) <> [].
Proof.
  intros Hline.
  assert (Hnb : all_chars is_space line = false).
  { destruct (all_chars is_space line) eqn:E; [|reflexivity].
    apply strip_nil in E. contradiction. }
  unfold split_ws_1.
  destruct (lstrip_by is_space _) as [|a s1] eqn:E.
  - exfalso. apply lstrip_by_nil in E.
    rewrite strip_all, !replace_blank in E by reflexivity. congruence.
  - destruct (span_not is_space (String a s1)) as [w r].
    destruct (lstrip_by is_space r); discriminate.
Qed.

Lemma pop_n_nil (n : nat) : pop_n n [] = [].
Proof. induction n as [|n IH]; [reflexivity | exact IH]. Qed.

(** X20. Where the tree parser cannot fail. On a line at level 0, and on
    any line as long as no directory is on the stack, a turn of the loop
    succeeds: the first word of a line that is not blank always exists, and
    the stack is indexed only for a file below level 0. A listing without
    indentation is parsed whatever its lines are. *)
Theorem tree_parser_safe (st : tree_state) :
  (forall line,
      indent_level_of line <= 0 \/ path_stack st = [] -> is_Some (tree_step st line))
  /\ (forall lines,
        Forall (fun line => indent_level_of line <= 0) lines ->
        is_Some (tree_loop st lines)).
Proof.
  assert (Hstep : forall st0 line,
             indent_level_of line <= 0 \/ path_stack st0 = [] ->
             is_Some (tree_step st0 line)).
  { intros st0 line Hsafe. unfold tree_step.
    destruct (String.eqb_spec (strip line) "") as [|Hline]; [eauto|].
    cbv zeta. pose proof (tree_parts_nonempty line Hline) as Hparts.
    destruct (split_ws_1 _) as [|path rest]; [congruence|].
    destruct (endswith path "/"); [eauto|].
    replace ((0 <? indent_level_of line) && negb (bool_decide (_ = []))) with false;
      [eauto|].
    symmetry. destruct Hsafe as [Hlevel|Hstack].
    - apply andb_false_intro1, Z.ltb_ge, Hlevel.
    - apply andb_false_intro2, negb_false_iff, bool_decide_eq_true_2.
      rewrite Hstack. destruct (_ <? _); [reflexivity|].
      destruct (_ <? _); [apply pop_n_nil | reflexivity]. }
  split; [apply Hstep|].
  intros lines Hlines. revert st.
  induction Hlines as [|line lines Hline _ IH]; intros st; [cbn; eauto|].
  cbn [tree_loop]. destruct (Hstep st line (or_introl Hline)) as [st' ->]. apply IH.
Qed.

(** ** Words: lemmas *)

(** No character of [t] is whitespace. *)
Definition no_space (t : string) : bool := all_chars (fun a => negb (is_space a)) t.

Lemma all_chars_impl (f g : ascii -> bool) (s : string) :
  (forall a, f a = true -> g a = true) -> all_chars f s = true -> all_chars g s = true.
Proof.
  intros Hfg. induction s as [|a s IH]; [reflexivity|].
  cbn [all_chars]. intros H. apply andb_true_iff in H as [Ha H].
  now rewrite (Hfg a Ha), IH.
Qed.

Lemma no_space_not (c : ascii) (t : string) :
  is_space c = true -> no_space t = true ->
  all_chars (fun b => negb (Ascii.eqb b c)) t = true.
Proof.
  intros Hc. apply all_chars_impl. intros a Ha.
  destruct (Ascii.eqb_spec a c) as [->|]; [|reflexivity].
  now rewrite Hc in Ha.
Qed.

(** A text that holds [c p'] holds the character [c]. *)
Lemma contains_head (s : string) (c : ascii) (p' : string) :
  all_chars (fun b => negb (Ascii.eqb b c)) s = true -> contains s (String c p') = false.
Proof.
  intros H. destruct (contains s (String c p')) eqn:E; [|reflexivity].
  unfold contains in E. apply Z.leb_le in E.
  destruct (find_split s (String c p') ltac:(discriminate) E) as [Hs _].
  rewrite Hs, !all_chars_app in H. cbn [all_chars] in H.
  rewrite Ascii.eqb_refl in H. cbn in H. now rewrite andb_false_r in H.
Qed.

Lemma not_contains_find (s p : string) : contains s p = false -> find s p = -1.
Proof.
  unfold contains. intros H. apply Z.leb_gt in H.
  destruct (find_range s p) as [E|[E _]]; [exact E | lia].
Qed.

Lemma not_contains_cons (a : ascii) (s p : string) :
  contains (String a s) p = false ->
  startswith (String a s) p = false /\ contains s p = false.
Proof.
  intros H. apply not_contains_find in H. rewrite find_eq in H.
  destruct (startswith (String a s) p); [discriminate|]. split; [reflexivity|].
  unfold contains. apply Z.leb_gt.
  destruct (Z.ltb_spec (find s p) 0); [assumption | lia].
Qed.

(** [s.replace(old, new)] and [s.count(old)] when [old] does not occur. *)
Lemma replace_absent (s old new : string) :
  old <> "" -> contains s old = false -> replace s old new = s.
Proof.
  intros Hold. unfold replace. destruct old as [|b old']; [congruence|].
  induction s as [|a s IH]; intros H; [reflexivity|].
  apply not_contains_cons in H as [H1 H2].
  cbn [replace_from]. rewrite H1. f_equal. now apply IH.
Qed.

Lemma count_absent (s old : string) :
  old <> "" -> contains s old = false -> count s old = 0.
Proof.
  intros Hold. unfold count. destruct old as [|b old']; [congruence|].
  induction s as [|a s IH]; intros H; [reflexivity|].
  apply not_contains_cons in H as [H1 H2].
  cbn [count_from]. rewrite H1. now apply IH.
Qed.

Lemma rstrip_by_none (f : ascii -> bool) (t : string) :
  all_chars (fun a => negb (f a)) t = true -> rstrip_by f t = t.
Proof.
  induction t as [|a t IH]; [reflexivity|].
  cbn [all_chars]. intros H. apply andb_true_iff in H as [Ha H].
  cbn [rstrip_by]. rewrite (IH H). destruct t; [|reflexivity].
  apply negb_true_iff in Ha. now rewrite Ha.
Qed.

Lemma lstrip_by_none (f : ascii -> bool) (t : string) :
  all_chars (fun a => negb (f a)) t = true -> lstrip_by f t = t.
Proof.
  destruct t as [|a t]; [reflexivity|]. cbn [all_chars]. intros H.
  apply andb_true_iff in H as [Ha _]. apply negb_true_iff in Ha.
  cbn [lstrip_by]. now rewrite Ha.
Qed.

Lemma strip_word (t : string) : no_space t = true -> strip t = t.
Proof. intros H. unfold strip. now rewrite lstrip_by_none, rstrip_by_none. Qed.

Lemma span_not_none (f : ascii -> bool) (t : string) :
  all_chars (fun a => negb (f a)) t = true -> span_not f t = (t, "").
Proof.
  induction t as [|a t IH]; [reflexivity|].
  cbn [all_chars]. intros H. apply andb_true_iff in H as [Ha H].
  apply negb_true_iff in Ha. cbn [span_not]. now rewrite Ha, (IH H).
Qed.

Lemma split_ws_1_word (t : string) : t <> "" -> no_space t = true -> split_ws_1 t = [t].
Proof.
  intros Hne H. unfold split_ws_1. rewrite lstrip_by_none by exact H.
  destruct t as [|a t]; [congruence|]. now rewrite span_not_none.
Qed.

(** The indentation of a word is 0, and its tree symbols are none. *)
Lemma indent_level_of_word (t : string) : no_space t = true -> indent_level_of t = 0.
Proof.
  intros H. unfold indent_level_of.
  rewrite !(contains_head t " ") by (apply no_space_not; [reflexivity | exact H]).
  reflexivity.
Qed.

Lemma clean_word (t : string) :
  no_space t = true -> replace (replace (replace t " " "") " " "") "   " "" = t.
Proof.
  intros H.
  assert (Hc : forall p', contains t (String " " p') = false)
    by (intros p'; apply contains_head, no_space_not; [reflexivity | exact H]).
  rewrite (replace_absent t " " "") by (first [discriminate | apply Hc]).
  rewrite (replace_absent t " " "") by (first [discriminate | apply Hc]).
  apply replace_absent; [discriminate | apply Hc].
Qed.

(** ** Lines indented by [k] groups of three spaces *)

Definition indented (k : nat) (t : string) : string := repeat_str "   " k +:+ t.

Lemma indented_S (k : nat) (t : string) :
  indented (S k) t = String " " (String " " (String " " (indented k t))).
Proof. unfold indented. cbn [repeat_str]. now rewrite append_assoc. Qed.

Lemma strip_indented (k : nat) (t : string) : no_space t = true -> strip (indented k t) = t.
Proof.
  intros H. unfold strip.
  replace (lstrip_by is_space (indented k t)) with t; [now apply rstrip_by_none|].
  induction k as [|k IH]; [symmetry; now apply lstrip_by_none|].
  rewrite indented_S. exact IH.
Qed.

Lemma count_indented (k : nat) (t : string) :
  no_space t = true -> count (indented k t) "   " = Z.of_nat k.
Proof.
  intros H. induction k as [|k IH].
  - apply count_absent; [discriminate|].
    apply contains_head, no_space_not; [reflexivity | exact H].
  - rewrite indented_S. unfold count in *. cbn [count_from startswith String.length Nat.sub].
    rewrite startswith_nil. cbn. rewrite IH. lia.
Qed.

Lemma contains_indented (k : nat) (t : string) : contains (indented (S k) t) "   " = true.
Proof.
  unfold indented. cbn [repeat_str]. rewrite append_assoc.
  exact (contains_app_mid "" "   " (repeat_str "   " k +:+ t)).
Qed.

Lemma replace_from_space (s : string) :
  replace_from " " "" 0 (String " " s) = replace_from " " "" 0 s.
Proof.
  cbn [replace_from startswith]. rewrite startswith_nil. reflexivity.
Qed.

Lemma clean_indented (k : nat) (t : string) :
  no_space t = true ->
  replace (replace (replace (indented k t) " " "") " " "") "   " "" = t.
Proof.
  intros H. replace (replace (indented k t) " " "") with t; [|symmetry].
  - assert (Hc : forall p', contains t (String " " p') = false)
      by (intros p'; apply contains_head, no_space_not; [reflexivity | exact H]).
    rewrite (replace_absent t " " "") by (first [discriminate | apply Hc]).
    apply replace_absent; [discriminate | apply Hc].
  - induction k as [|k IH].
    + apply replace_absent; [discriminate|].
      apply contains_head, no_space_not; [reflexivity | exact H].
    + rewrite indented_S. unfold replace in *. now rewrite !replace_from_space.
Qed.

Lemma indent_level_of_indented (k : nat) (t : string) :
  no_space t = true -> indent_level_of (indented (S k) t) = Z.of_nat (S k).
Proof.
  intros H. unfold indent_level_of. rewrite contains_indented.
  now apply count_indented.
Qed.

(** The lines of a text of two lines. *)
Lemma split_char_none (c : ascii) (s : string) :
  all_chars (fun b => negb (Ascii.eqb b c)) s = true -> split_char c s = [s].
Proof.
  induction s as [|a s IH]; [reflexivity|].
  cbn [all_chars]. intros H. apply andb_true_iff in H as [Ha H].
  apply negb_true_iff in Ha. cbn [split_char]. now rewrite Ha, (IH H).
Qed.

Lemma split_char_app (c : ascii) (s t : string) :
  all_chars (fun b => negb (Ascii.eqb b c)) s = true ->
  split_char c (s +:+ String c t) = s :: split_char c t.
Proof.
  induction s as [|a s IH].
  - intros _. rewrite append_nil_l. cbn [split_char]. now rewrite Ascii.eqb_refl.
  - cbn [all_chars]. intros H. apply andb_true_iff in H as [Ha H].
    apply negb_true_iff in Ha. rewrite append_cons. cbn [split_char].
    now rewrite Ha, (IH H).
Qed.

Lemma all_chars_repeat_str (g : ascii -> bool) (s : string) (k : nat) :
  all_chars g s = true -> all_chars g (repeat_str s k) = true.
Proof.
  intros H. induction k as [|k IH]; [reflexivity|].
  cbn [repeat_str]. now rewrite all_chars_app, H, IH.
Qed.

(** The turn of the loop on a directory at the head of the tree. *)
Lemma tree_step_top_dir (d : string) (html : list string) :
  d <> "" -> no_space d = true -> endswith d "/" = true ->
  exists html',
    tree_step {| path_stack := []; prev_indent := -1; html_structure := html |} d
    = Some {| path_stack := [rstrip d "/"]; prev_indent := 0; html_structure := html' |}.
Proof.
  intros Hne Hd Hdir. unfold tree_step. cbv zeta.
  rewrite (clean_word d Hd), (indent_level_of_word d Hd), (strip_word d Hd).
  rewrite (split_ws_1_word d Hne Hd), Hdir.
  destruct (String.eqb_spec d "") as [|_]; [contradiction|].
  cbn [path_stack prev_indent html_structure]. cbn [Z.ltb Z.compare List.length Z.of_nat Z.leb].
  destruct (String.eqb (rstrip d "/") "basilisk/src"); eexists; reflexivity.
Qed.

(** The turn of the loop on a file three levels or more below a directory
    of the top level. *)
Lemma tree_step_deep_file (dir_name f : string) (k : nat) (html : list string) :
  f <> "" -> no_space f = true -> endswith f "/" = false -> (3 <= k)%nat ->
  tree_step {| path_stack := [dir_name]; prev_indent := 0; html_structure := html |}
            (indented k f)
  = None.
Proof.
  intros Hne Hf Hfile Hk. destruct k as [|k]; [lia|].
  unfold tree_step. cbv zeta.
  rewrite (clean_indented (S k) f Hf), (indent_level_of_indented k f Hf),
    (strip_indented (S k) f Hf), (strip_word f Hf).
  rewrite (split_ws_1_word f Hne Hf), Hfile.
  destruct (String.eqb_spec f "") as [|_]; [contradiction|].
  cbn [path_stack prev_indent html_structure].
  replace (0 <? Z.of_nat (S k)) with true by (symmetry; apply Z.ltb_lt; lia).
  cbn [Z.leb Z.compare List.last app andb negb].
  rewrite bool_decide_eq_false_2 by discriminate. cbn [negb].
  rewrite lookup_ge_None_2; [reflexivity|]. simpl List.length. lia.
Qed.

(** X21. A file line indented three levels or more below a directory of the
    top level makes the tree parser fail: the stack holds two entries then,
    and the entry of the level above the file is looked up beyond them
    (an IndexError in [convert_directory_tree_to_html], which nothing
    catches). *)
Theorem tree_deep_file_fails (d f : string) (k : nat) :
  d <> "" -> no_space d = true -> endswith d "/" = true ->
  f <> "" -> no_space f = true -> endswith f "/" = false ->
  (3 <= k)%nat ->
  parse_tree (d +:+ LF +:+ indented k f) = None.
Proof.
  intros Hd Hds Hdir Hf Hfs Hfile Hk. unfold parse_tree. cbv zeta.
  change (d +:+ LF +:+ indented k f) with (d +:+ String LF_char (indented k f)).
  rewrite split_char_app by (apply no_space_not; [reflexivity | exact Hds]).
  rewrite split_char_none.
  - cbn [tree_loop].
    match goal with
    | |- context [tree_step {| path_stack := []; prev_indent := -1;
                               html_structure := ?h |} d] =>
        destruct (tree_step_top_dir d h Hd Hds Hdir) as [html' ->]
    end.
    now rewrite (tree_step_deep_file _ f k html' Hf Hfs Hfile Hk).
  - unfold indented. rewrite all_chars_app.
    rewrite all_chars_repeat_str by reflexivity.
    apply no_space_not; [reflexivity | exact Hfs].
Qed.

Lemma tree_deep_file_fails_witness :
  parse_tree ("app/" +:+ LF +:+ indented 3 "main.c") = None.
Proof.
  apply (tree_deep_file_fails "app/" "main.c" 3); try reflexivity; try discriminate.
Defined.

(** ** The index page of a directory *)

(** [<meta\s+name=Qdescription Q\s+content=Q([^Q]+)Q], where Q stands for
    the double quote *)
Definition meta_description_re : Re.regex :=
  Re.seqs [Re.lit "<meta"; Re.plus true Re.space;
           Re.lit ("name=" +:+ DQ +:+ "description" +:+ DQ); Re.plus true Re.space;
           Re.lit ("content=" +:+ DQ); Re.Group 1 (Re.plus true (Re.not_char DQ_char));
           Re.lit DQ].

(** The description that [generate_directory_index] shows for a page whose
    content is [html_content]. *)
Definition index_description (html_content : string) : string :=
  match Re.search meta_description_re html_content with
  | Some desc_match =>
      let description := strip (group1 desc_match) in
      if 120 <? len description then stake 117 description +:+ "..." else description
  | None => ""
  end.

(** The meta tag of a description [D], as the page template writes it. *)
Definition meta_description_tag (D : string) : string :=
  "<meta name=" +:+ DQ +:+ "description" +:+ DQ +:+ " content=" +:+ DQ +:+ D +:+ DQ.

(** The description pattern on a page that starts with the meta tag. *)
Lemma search_meta_description (D rest : string) :
  D <> "" -> contains D DQ = false ->
  exists m,
    Re.search meta_description_re (meta_description_tag D +:+ rest) = Some m
    /\ group1 m = D.
Proof.
  intros Hne Hq. apply not_contains_char in Hq.
  destruct D as [|a D]; [congruence|].
  cbn [all_chars] in Hq. apply andb_true_iff in Hq as [Ha Hq].
  set (content := meta_description_tag (String a D) +:+ rest).
  set (m := {| Re.m_string := content; Re.m_start := 0;
               Re.m_end := (34 + String.length (String a D) + 1)%nat;
               Re.m_caps := [(1%nat, (34%nat, (34 + String.length (String a D))%nat))] |}).
  set (t3 := DQ +:+ rest).
  set (t2 := ("content=" +:+ DQ) +:+ String a (D +:+ t3)).
  set (t1 := ("name=" +:+ DQ +:+ "description" +:+ DQ) +:+ String " " t2).
  assert (Hcontent : content = "<meta" +:+ String " " t1).
  { unfold content, meta_description_tag, t1, t2, t3. rewrite !append_assoc. reflexivity. }
  exists m. split.
  - unfold Re.search. rewrite search_at_eq.
    replace (Re.match_at meta_description_re content _) with (Some m); [reflexivity|].
    symmetry. unfold Re.match_at. cbn [Re.pos Re.prev Re.rest].
    unfold meta_description_re. cbn [Re.seqs]. rewrite run_Seq.
    rewrite (run_lit "<meta" _ _ (String " " t1)) by exact Hcontent.
    rewrite run_Seq. unfold Re.space.
    assert (Hs1 : stops is_space t1 = true) by reflexivity.
    assert (Hs2 : stops is_space t2 = true) by reflexivity.
    assert (Hs3 : stops (fun b => negb (Ascii.eqb b DQ_char)) t3 = true) by reflexivity.
    match goal with
    | |- context [Re.run (Re.plus true (Re.Chr is_space)) ?k ?c] =>
        assert (Hk : k (walk c (String " " "") t1) = Some
                     {| Re.pos := (34 + String.length (String a D) + 1)%nat;
                        Re.prev := Some DQ_char;
                        Re.rest := rest;
                        Re.caps := [(1%nat, (34%nat, (34 + String.length (String a D))%nat))] |});
        [|rewrite (run_plus_greedy_chr is_space k " " "" t1 c _ eq_refl eq_refl Hs1
                     ltac:(now rewrite walk_rest) Hk); reflexivity]
    end.
    cbv beta. rewrite run_Seq.
    rewrite (run_lit ("name=" +:+ DQ +:+ "description" +:+ DQ) _ _ (String " " t2))
      by (now rewrite walk_rest).
    rewrite run_Seq.
    match goal with
    | |- context [Re.run (Re.plus true (Re.Chr is_space)) ?k ?c] =>
        assert (Hk : k (walk c (String " " "") t2) = Some
                     {| Re.pos := (34 + String.length (String a D) + 1)%nat;
                        Re.prev := Some DQ_char;
                        Re.rest := rest;
                        Re.caps := [(1%nat, (34%nat, (34 + String.length (String a D))%nat))] |});
        [|rewrite (run_plus_greedy_chr is_space k " " "" t2 c _ eq_refl eq_refl Hs2
                     ltac:(now rewrite walk_rest) Hk); reflexivity]
    end.
    cbv beta. rewrite run_Seq.
    rewrite (run_lit ("content=" +:+ DQ) _ _ (String a (D +:+ t3)))
      by (now rewrite walk_rest).
    rewrite run_Seq, run_Group. unfold Re.not_char.
    match goal with
    | |- context [Re.run (Re.plus true (Re.Chr ?f)) ?k ?c] =>
        assert (Hk : k (walk c (String a D) t3) = Some
                     {| Re.pos := (34 + String.length (String a D) + 1)%nat;
                        Re.prev := Some DQ_char;
                        Re.rest := rest;
                        Re.caps := [(1%nat, (34%nat, (34 + String.length (String a D))%nat))] |});
        [|rewrite (run_plus_greedy_chr f k a D t3 c _ Ha Hq Hs3
                     ltac:(now rewrite walk_rest) Hk); reflexivity]
    end.
    cbv beta.
    rewrite (run_lit DQ _ _ rest) by (cbn [Re.rest]; now rewrite walk_rest).
    unfold DQ. cbn [walk Re.advance Re.pos Re.prev Re.rest Re.caps].
    repeat (rewrite ?walk_pos, ?walk_caps; cbn [Re.advance Re.pos Re.caps Re.prev Re.rest]).
    change (String.length "<meta") with 5%nat.
    change (String.length " ") with 1%nat.
    change (String.length ("name=" +:+ String (ascii_of_nat 34) "" +:+ "description"
                           +:+ String (ascii_of_nat 34) "")) with 18%nat.
    change (String.length ("content=" +:+ String (ascii_of_nat 34) "")) with 9%nat.
    cbn [String.length].
    replace (S (S (S (6 + 18) + 9) + String.length D))
      with (34 + S (String.length D) + 1)%nat by lia.
    replace (S (S (6 + 18) + 9) + String.length D)%nat
      with (34 + S (String.length D))%nat by lia.
    reflexivity.
  - unfold group1, Re.group, m. cbn [List.find fst Nat.eqb Re.m_caps Re.m_string].
    unfold Re.substr.
    replace (34 + String.length (String a D) - 34)%nat
      with (String.length (String a D)) by lia.
    replace (sdrop 34 content) with (String a D +:+ t3).
    + apply stake_app_length.
    + unfold content, meta_description_tag, t3. rewrite !append_assoc. reflexivity.
Qed.

(** X22. The description shown in the index page of a directory. For a
    page that starts with the meta tag of a description [D], the description
    shown is [D] without the whitespace around it when that has at most 120
    characters, and otherwise its first 117 characters followed by three
    dots, 120 characters in all; and whatever a page holds, the description
    shown for it is never longer than 120 characters. *)
Theorem index_description_length (D rest : string) :
  D <> "" -> contains D DQ = false ->
  index_description (meta_description_tag D +:+ rest)
  = (if 120 <? len (strip D) then stake 117 (strip D) +:+ "..." else strip D)
  /\ (120 < len (strip D) ->
      len (index_description (meta_description_tag D +:+ rest)) = 120)
  /\ (forall html_content, len (index_description html_content) <= 120).
Proof.
  intros Hne Hq.
  destruct (search_meta_description D rest Hne Hq) as (m & Hm & Hg).
  assert (Hshape : index_description (meta_description_tag D +:+ rest)
                   = (if 120 <? len (strip D) then stake 117 (strip D) +:+ "..."
                      else strip D)).
  { unfold index_description. rewrite Hm. cbv zeta. now rewrite Hg. }
  split; [exact Hshape|]. split.
  - intros Hlong. rewrite Hshape.
    destruct (Z.ltb_spec 120 (len (strip D))) as [_|H]; [|lia].
    unfold len in *. rewrite length_append.
    pose proof (f_equal String.length (stake_sdrop 117 (strip D))) as Hl.
    rewrite length_append, length_sdrop in Hl.
    change (String.length "...") with 3%nat.
    set (x := String.length (stake 117 (strip D))) in *.
    set (y := String.length (strip D)) in *.
    clearbody x y. clear -Hlong Hl. lia.
  - intros html_content. unfold index_description.
    destruct (Re.search meta_description_re html_content) as [m0|]; [|now vm_compute].
    cbv zeta. destruct (Z.ltb_spec 120 (len (strip (group1 m0)))) as [H|H]; [|exact H].
    unfold len. rewrite length_append.
    pose proof (length_stake_le 117 (strip (group1 m0))) as Hl.
    change (String.length "...") with 3%nat. lia.
Qed.

(** A description of 130 characters. *)
Definition long_description : string := repeat_str "abcdefghi " 13.

Lemma index_description_length_witness :
  index_description (meta_description_tag long_description +:+ "</head>")
  = (if 120 <? len (strip long_description)
     then stake 117 (strip long_description) +:+ "..." else strip long_description)
  /\ (120 < len (strip long_description) ->
      len (index_description (meta_description_tag long_description +:+ "</head>")) = 120)
  /\ (forall html_content, len (index_description html_content) <= 120).
Proof.
  apply (index_description_length long_description "</head>").
  - discriminate.
  - vm_compute. reflexivity.
Defined.

(** ** The copy-button script is added again *)

Lemma startswith_app_inv (a b p : string) :
  startswith (a +:+ b) p = true ->
  startswith a p = true
  \/ exists p2, p = a +:+ p2 /\ p2 <> "" /\ startswith b p2 = true.
Proof.
  revert p. induction a as [|x a IH]; intros p H.
  - rewrite append_nil_l in H. destruct p as [|y p]; [now left|].
    right. exists (String y p). now repeat split.
  - destruct p as [|y p]; [now left|].
    rewrite append_cons in H. cbn [startswith] in H.
    apply andb_true_iff in H as [Exy H]. apply Ascii.eqb_eq in Exy as ->.
    destruct (IH p H) as [H1|(p2 & -> & Hne & H2)].
    + left. cbn [startswith]. now rewrite Ascii.eqb_refl.
    + right. exists p2. now rewrite append_cons.
Qed.

(** An occurrence of [p] in [a b] lies in [a] or in [b] when [b] starts
    with a character that [p] does not hold. *)
Lemma contains_app_apart (a b p : string) (c : ascii) :
  startswith b (String c EmptyString) = true ->
  all_chars (fun x => negb (Ascii.eqb x c)) p = true ->
  contains a p = false -> contains b p = false ->
  contains (a +:+ b) p = false.
Proof.
  intros Hb Hp Ha Hbp. induction a as [|x a IH]; [exact Hbp|].
  apply not_contains_cons in Ha as [Hs Ha]. specialize (IH Ha).
  rewrite append_cons. unfold contains. apply Z.leb_gt. rewrite find_eq.
  destruct (startswith (String x (a +:+ b)) p) eqn:E.
  - exfalso. rewrite <- append_cons in E.
    apply startswith_app_inv in E as [E|(p2 & -> & Hne & E)]; [congruence|].
    rewrite all_chars_app in Hp. apply andb_true_iff in Hp as [_ Hp].
    destruct p2 as [|y p2]; [congruence|].
    destruct b as [|z b]; [discriminate|].
    cbn [startswith] in Hb, E. rewrite startswith_nil, andb_true_r in Hb.
    apply andb_true_iff in E as [Ezy _].
    apply Ascii.eqb_eq in Hb as ->. apply Ascii.eqb_eq in Ezy as ->.
    cbn [all_chars] in Hp. rewrite Ascii.eqb_refl in Hp. discriminate.
  - apply not_contains_find in IH. rewrite IH. cbn. lia.
Qed.

Lemma not_contains_app_r (s t p : string) : contains (s +:+ t) p = false -> contains t p = false.
Proof.
  intros H. destruct (contains t p) eqn:E; [|reflexivity].
  now rewrite (contains_app_r s t p E) in H.
Qed.

(** X23. The script accumulates. For every page with a closing body tag
    and without the marker of the copy button, the page that
    [insert_javascript_in_html] writes has no marker either, so the next
    application inserts the script once more: each application makes the
    page longer by the length of the script. *)
Theorem insert_javascript_accumulates (content c1 : string) :
  insert_javascript content = Some c1 ->
  0 <= find content "</body>" ->
  exists c2,
    insert_javascript c1 = Some c2
    /\ len c1 = len content + len copy_js
    /\ len c2 = len c1 + len copy_js.
Proof.
  intros H1 Hbody.
  assert (Hmark : contains content ("class=" +:+ DQ +:+ "copy-button" +:+ DQ) = false).
  { unfold insert_javascript in H1. destruct (contains content _); [discriminate|reflexivity]. }
  assert (Hgrow : forall c c', insert_javascript c = Some c' -> 0 <= find c "</body>" ->
                               len c' = len c + len copy_js).
  { intros c c' H Hb. unfold insert_javascript in H.
    destruct (contains c _); [discriminate|].
    destruct (Z.eqb_spec (find c "</body>") (-1)) as [E|_]; [lia|].
    injection H as <-. unfold len. rewrite !length_append.
    pose proof (f_equal String.length (stake_sdrop (Z.to_nat (find c "</body>")) c)) as Hl.
    rewrite length_append in Hl. lia. }
  assert (Hp : "</body>" <> "") by discriminate.
  destruct (find_split content "</body>" Hp Hbody) as [Hcontent _].
  set (pre := stake (Z.to_nat (find content "</body>")) content) in *.
  set (post := sdrop (Z.to_nat (find content "</body>") + String.length "</body>") content) in *.
  assert (Hc1 : c1 = pre +:+ copy_js +:+ "</body>" +:+ post).
  { unfold insert_javascript in H1. rewrite Hmark in H1.
    destruct (Z.eqb_spec (find content "</body>") (-1)) as [E|_]; [lia|].
    injection H1 as <-. fold pre. do 2 f_equal. unfold post.
    rewrite <- sdrop_add. apply (startswith_split _ _ (find_startswith _ _ Hbody)). }
  assert (Hmark1 : contains c1 ("class=" +:+ DQ +:+ "copy-button" +:+ DQ) = false).
  { rewrite Hc1. rewrite Hcontent in Hmark.
    apply (contains_app_apart pre _ _ LF_char); [reflexivity|reflexivity| |].
    - destruct (contains pre _) eqn:E; [|reflexivity].
      now rewrite (contains_app_l pre _ _ E) in Hmark.
    - apply (contains_app_apart copy_js _ _ "<"%char); [reflexivity|reflexivity| |].
      + vm_compute. reflexivity.
      + now apply not_contains_app_r in Hmark. }
  assert (Hbody1 : 0 <= find c1 "</body>").
  { rewrite Hc1.
    replace (pre +:+ copy_js +:+ "</body>" +:+ post)
      with ((pre +:+ copy_js) +:+ "</body>" +:+ post) by now rewrite append_assoc.
    apply find_app_mid. }
  destruct (insert_javascript c1) as [c2|] eqn:H2.
  - exists c2. split; [reflexivity|]. split; [now apply Hgrow | now apply Hgrow].
  - exfalso. unfold insert_javascript in H2. rewrite Hmark1 in H2.
    destruct (_ =? _); [destruct (negb _)|]; discriminate.
Qed.

Lemma insert_javascript_accumulates_witness :
  exists c2,
    insert_javascript ("<body><p>hi</p>" +:+ copy_js +:+ "</body>") = Some c2
    /\ len ("<body><p>hi</p>" +:+ copy_js +:+ "</body>")
       = len "<body><p>hi</p></body>" + len copy_js
    /\ len c2 = len ("<body><p>hi</p>" +:+ copy_js +:+ "</body>") + len copy_js.
Proof.
  apply (insert_javascript_accumulates "<body><p>hi</p></body>").
  - vm_compute. reflexivity.
  - vm_compute. discriminate.
Defined.

(** ** The pipeline of a Makefile *)




(** A disk with a Makefile; with a renderer that writes the page, the
    processing of the Makefile returns [True]. *)
Definition one_makefile : world :=
  {| files := {[ ["repo"; "Makefile"] := "all:" ]}; dirs := ∅; printed := [] |}.

Lemma makefile_page_built :
  fst (process_file_with_page2html_logic bare_tools quiet demo_site idle_steps
         ["repo"; "Makefile"] ["repo"; "docs"; "Makefile.html"] one_makefile)
  = inr true.
Proof. vm_compute. reflexivity. Qed.


(** ** Links of the tree: the parent directory only *)

(** The turn of the loop on a directory one level below a directory of the
    top level. *)
Lemma tree_step_sub_dir (dn e : string) (html : list string) :
  e <> "" -> no_space e = true -> endswith e "/" = true ->
  rstrip e "/" <> "basilisk/src" ->
  tree_step {| path_stack := [dn]; prev_indent := 0; html_structure := html |}
            (indented 1 e)
  = Some {| path_stack := [dn; rstrip e "/"]; prev_indent := 1;
            html_structure :=
              html ++ ["  * **[" +:+ e +:+ "](" +:+ rstrip e "/" +:+ ")** - "] |}.
Proof.
  intros Hne He Hdir Hbas. unfold tree_step. cbv zeta.
  rewrite (clean_indented 1 e He), (indent_level_of_indented 0 e He),
    (strip_indented 1 e He), (strip_word e He).
  rewrite (split_ws_1_word e Hne He), Hdir.
  destruct (String.eqb_spec e "") as [|_]; [contradiction|].
  destruct (String.eqb_spec (rstrip e "/") "basilisk/src") as [|_]; [contradiction|].
  cbn [path_stack prev_indent html_structure].
  reflexivity.
Qed.

(** The turn of the loop on a file two levels down, below that directory. *)
Lemma tree_step_sub_file (dn en f : string) (html : list string) :
  f <> "" -> no_space f = true -> endswith f "/" = false -> en <> "" ->
  tree_step {| path_stack := [dn; en]; prev_indent := 1; html_structure := html |}
            (indented 2 f)
  = Some {| path_stack := [dn; en; en]; prev_indent := 2;
            html_structure :=
              html ++ ["    * **[" +:+ f +:+ "](" +:+ lstrip (en +:+ "/" +:+ f) "/"
                       +:+ ".html)** - "] |}.
Proof.
  intros Hne Hf Hfile Hen. unfold tree_step. cbv zeta.
  rewrite (clean_indented 2 f Hf), (indent_level_of_indented 1 f Hf),
    (strip_indented 2 f Hf), (strip_word f Hf).
  rewrite (split_ws_1_word f Hne Hf), Hfile.
  destruct (String.eqb_spec f "") as [|_]; [contradiction|].
  cbn [path_stack prev_indent html_structure].
  change (Z.of_nat 2) with 2. change (1 <? 2) with true. change (0 <? 2) with true.
  cbv iota. rewrite bool_decide_eq_false_2 by discriminate.
  change (if 0 <=? 1 then [dn; en] ++ [List.last [dn; en] ""] else [dn; en])
    with [dn; en; en].
  change ([dn; en; en] !! Z.to_nat (2 - 1)) with (Some en).
  cbn [negb andb]. cbv beta iota.
  destruct (String.eqb_spec en "") as [|_]; [contradiction|].
  reflexivity.
Qed.

(** X25. The links of the tree name the parent directory only. For a
    directory at the top, a directory below it and a file below that one,
    whatever their names, the parser links the inner directory to its own
    name and the file to [inner/file.html]: the name of the outer directory
    is in neither target. *)
Theorem tree_links_parent_only (d e f : string) :
  d <> "" -> no_space d = true -> endswith d "/" = true ->
  rstrip d "/" <> "basilisk/src" ->
  e <> "" -> no_space e = true -> endswith e "/" = true ->
  rstrip e "/" <> "basilisk/src" -> rstrip e "/" <> "" ->
  f <> "" -> no_space f = true -> endswith f "/" = false ->
  parse_tree (d +:+ LF +:+ indented 1 e +:+ LF +:+ indented 2 f)
  = Some ["<div class=" +:+ DQ +:+ "repository-structure" +:+ DQ +:+ ">";
          "* **[" +:+ d +:+ "](" +:+ rstrip d "/" +:+ ")** - ";
          "  * **[" +:+ e +:+ "](" +:+ rstrip e "/" +:+ ")** - ";
          "    * **[" +:+ f +:+ "](" +:+ lstrip (rstrip e "/" +:+ "/" +:+ f) "/"
          +:+ ".html)** - ";
          "</div>"].
Proof.
  intros Hd Hds Hddir Hdbas He Hes Hedir Hebas Hen Hf Hfs Hfile.
  assert (Hlf : forall s, no_space s = true ->
                          all_chars (fun b => negb (Ascii.eqb b LF_char)) s = true)
    by (intros s Hs; apply no_space_not; [reflexivity | exact Hs]).
  assert (Hind : forall k s, no_space s = true ->
                   all_chars (fun b => negb (Ascii.eqb b LF_char)) (indented k s) = true).
  { intros k s Hs. unfold indented. rewrite all_chars_app.
    rewrite all_chars_repeat_str by reflexivity. now apply Hlf. }
  unfold parse_tree. cbv zeta.
  change (d +:+ LF +:+ indented 1 e +:+ LF +:+ indented 2 f)
    with (d +:+ String LF_char (indented 1 e +:+ String LF_char (indented 2 f))).
  rewrite split_char_app by now apply Hlf.
  rewrite split_char_app by now apply Hind.
  rewrite split_char_none by now apply Hind.
  cbn [tree_loop].
  assert (Htop : tree_step {| path_stack := []; prev_indent := -1;
                    html_structure := ["<div class=" +:+ DQ +:+ "repository-structure"
                                       +:+ DQ +:+ ">"] |} d
                 = Some {| path_stack := [rstrip d "/"]; prev_indent := 0;
                           html_structure :=
                             ["<div class=" +:+ DQ +:+ "repository-structure" +:+ DQ +:+ ">";
                              "* **[" +:+ d +:+ "](" +:+ rstrip d "/" +:+ ")** - "] |}).
  { unfold tree_step. cbv zeta.
    rewrite (clean_word d Hds), (indent_level_of_word d Hds), (strip_word d Hds).
    rewrite (split_ws_1_word d Hd Hds), Hddir.
    destruct (String.eqb_spec d "") as [|_]; [contradiction|].
    destruct (String.eqb_spec (rstrip d "/") "basilisk/src") as [|_]; [contradiction|].
    reflexivity. }
  rewrite Htop, (tree_step_sub_dir _ e _ He Hes Hedir Hebas).
  rewrite (tree_step_sub_file _ _ f _ Hf Hfs Hfile Hen).
  reflexivity.
Qed.

Lemma tree_links_parent_only_witness :
  parse_tree ("app/" +:+ LF +:+ indented 1 "core/" +:+ LF +:+ indented 2 "main.c")
  = Some ["<div class=" +:+ DQ +:+ "repository-structure" +:+ DQ +:+ ">";
          "* **[" +:+ "app/" +:+ "](" +:+ rstrip "app/" "/" +:+ ")** - ";
          "  * **[" +:+ "core/" +:+ "](" +:+ rstrip "core/" "/" +:+ ")** - ";
          "    * **[" +:+ "main.c" +:+ "](" +:+ lstrip (rstrip "core/" "/" +:+ "/" +:+ "main.c") "/"
          +:+ ".html)** - ";
          "</div>"].
Proof.
  apply (tree_links_parent_only "app/" "core/" "main.c");
    first [reflexivity | (vm_compute; discriminate)].
Defined.

(** ** More operations on the disk *)

Module Disk.

(** [try: m finally: cleanup]; an exception of the cleanup replaces the
    outcome of [m]. *)
Definition try_finally {A} (m : M A) (cleanup : M unit) : M A :=
  fun w =>
    let '(r, w1) := m w in
    match cleanup w1 with
    | (inl e, w2) => (inl e, w2)
    | (inr _, w2) => (r, w2)
    end.

(** [p.is_file()] and [p.is_dir()] *)
Definition is_file (p : path) : M bool :=
  fun w => (inr (bool_decide (is_Some (files w !! p))), w).

Definition is_dir (p : path) : M bool :=
  fun w => (inr (bool_decide (p ∈ dirs w)), w).

(** [p.unlink()] *)
Definition unlink (p : path) : M unit :=
  fun w =>
    match files w !! p with
    | Some _ => (inr tt, {| files := delete p (files w); dirs := dirs w;
                            printed := printed w |})
    | None =>
        (inl (if bool_decide (p ∈ dirs w) then IsADirectoryError p
              else FileNotFoundError p), w)
    end.

End Disk.

(** ** The awk step and its temporary file *)

Module Awk.

(** [Path(f'{file_path}.temp.html')] *)
Definition temp_output_path_of (file_path : path) : path :=
  removelast file_path ++ [name file_path +:+ ".temp.html"].

(** [run_awk_post_processing]; [awk] is the program started by [Popen], a
    function of its command line and its standard input, and what it prints
    on its standard output goes to the temporary file, which [open] has
    created or emptied before. *)
Definition run_awk_post_processing (awk : list string -> string -> M completed)
           (html_content : string) (file_path repo_root darcsit_dir : path) : M string :=
  let decl_anchors_script := joinpath darcsit_dir ["decl_anchors.awk"] in
  do script_found <- Disk.is_file decl_anchors_script;
  if negb script_found then
    raise {| exn_class := "FileNotFoundError";
             exn_msg := "decl_anchors.awk script not found at "
                        +:+ path_str decl_anchors_script |}
  else
    do rel <- relative_to_M file_path repo_root;
    match with_suffix rel (suffix file_path +:+ ".tags") with
    | None => raise {| exn_class := "ValueError"; exn_msg := "Invalid suffix" |}
    | Some relative_tags_path =>
        let temp_output_path := temp_output_path_of file_path in
        Disk.try_finally
          (write_text temp_output_path "";;
           let postproc_cmd :=
             ["awk"; "-v"; "tags=" +:+ rel_str relative_tags_path; "-f";
              path_str decl_anchors_script] in
           do postproc_proc <- awk postproc_cmd html_content;
           write_text temp_output_path (stdout postproc_proc);;
           if negb (returncode postproc_proc =? 0) then
             raise {| exn_class := "RuntimeError";
                      exn_msg := "Awk post-processing failed: " +:+ stderr postproc_proc |}
           else read_text temp_output_path)
          (do present <- exists_path temp_output_path;
           if present then Disk.unlink temp_output_path else ret tt)
    end.

(** An awk that copies its input, and a disk with the script, a C file and
    a file of the user at the place of the temporary file. *)
Definition copying_awk : list string -> string -> M completed :=
  fun _ input => ret {| returncode := 0; stdout := input; stderr := "" |}.

Definition disk_with_script : world :=
  {| files := {[ ["repo"; "basilisk"; "src"; "darcsit"; "decl_anchors.awk"] := "{ print }";
                 ["repo"; "src"; "a.c"] := "int x;";
                 ["repo"; "src"; "a.c.temp.html"] := "notes" ]};
     dirs := {[ ["repo"]; ["repo"; "src"] ]};
     printed := [] |}.

End Awk.

(** The cleanup of [run_awk_post_processing] leaves no file at the path. *)
Lemma awk_cleanup_files (p : path) (w : world) :
  let r := (do present <- exists_path p;
            if present then Disk.unlink p else ret tt) w in
  files (snd r) = delete p (files w).
Proof.
  cbv zeta. unfold bind, exists_path, Disk.unlink.
  destruct (files w !! p) as [c|] eqn:E.
  - rewrite bool_decide_eq_true_2 by eauto. cbn [orb]. rewrite E. reflexivity.
  - rewrite bool_decide_eq_false_2 by (intros [x Hx]; discriminate). cbn [orb].
    assert (Hd : delete p (files w) = files w) by now apply delete_id.
    destruct (bool_decide _); [rewrite E|]; cbn [snd ret]; now rewrite Hd.
Qed.

Lemma try_finally_files {A} (m : M A) (p : path) (w : world) :
  files (snd (Disk.try_finally m
                (do present <- exists_path p;
                 if present then Disk.unlink p else ret tt) w))
  = delete p (files (snd (m w))).
Proof.
  unfold Disk.try_finally. destruct (m w) as [r w1]. cbn [snd].
  rewrite <- (awk_cleanup_files p w1). cbv zeta.
  now destruct (bind _ _ w1) as [[e|[]] w2].
Qed.

(** X26. The temporary file of the awk step. Once the awk script is found
    and the tags path is computed, [run_awk_post_processing] leaves no file
    at [<file_path>.temp.html], whether awk succeeds, fails or cannot be
    started; and when awk itself changes no file, the disk after the call is
    the disk before it without that path: the temporary file stands beside
    the source file, and a file that was there before the call is lost. *)
Theorem run_awk_temp_file_removed (awk : list string -> string -> M completed)
        (html_content : string) (file_path repo_root darcsit_dir rel tags : path)
        (w : world) :
  is_Some (files w !! joinpath darcsit_dir ["decl_anchors.awk"]) ->
  relative_to file_path repo_root = Some rel ->
  with_suffix rel (suffix file_path +:+ ".tags") = Some tags ->
  let r := Awk.run_awk_post_processing awk html_content file_path repo_root darcsit_dir w in
  files (snd r) !! Awk.temp_output_path_of file_path = None
  /\ ((forall cmd input w0, files (snd (awk cmd input w0)) = files w0) ->
      files (snd r) = delete (Awk.temp_output_path_of file_path) (files w)).
Proof.
  intros Hscript Hrel Htags. cbv zeta.
  set (temp := Awk.temp_output_path_of file_path).
  set (script := joinpath darcsit_dir ["decl_anchors.awk"]) in *.
  set (body :=
         (write_text temp "";;
          do postproc_proc <- awk ["awk"; "-v"; "tags=" +:+ rel_str tags; "-f";
                                   path_str script] html_content;
          write_text temp (stdout postproc_proc);;
          if negb (returncode postproc_proc =? 0) then
            raise {| exn_class := "RuntimeError";
                     exn_msg := "Awk post-processing failed: " +:+ stderr postproc_proc |}
          else read_text temp)).
  assert (Hrun : Awk.run_awk_post_processing awk html_content file_path repo_root
                   darcsit_dir w
                 = Disk.try_finally body
                     (do present <- exists_path temp;
                      if present then Disk.unlink temp else ret tt) w).
  { unfold Awk.run_awk_post_processing. cbv zeta. fold script. fold temp.
    unfold bind at 1, Disk.is_file at 1. rewrite (bool_decide_eq_true_2 _ Hscript).
    cbn [negb]. rewrite (bind_inr _ _ _ _ _ (relative_to_M_Some _ _ _ w Hrel)), Htags.
    reflexivity. }
  rewrite Hrun, try_finally_files. split; [apply lookup_delete_eq|].
  intros Hpure. unfold body, bind at 1.
  assert (Hopen : write_text temp "" w = (inl (IsADirectoryError temp), w)
                  \/ write_text temp "" w
                     = (inr tt, {| files := <[temp := ""]> (files w); dirs := dirs w;
                                   printed := printed w |})).
  { unfold write_text. destruct (files w !! temp); [now right|].
    destruct (bool_decide (temp ∈ dirs w)); [now left | now right]. }
  destruct Hopen as [-> | ->]; [reflexivity|].
  unfold bind at 1.
  match goal with |- context [awk ?c ?i ?w1] =>
    pose proof (Hpure c i w1) as Hw; destruct (awk c i w1) as [[e|proc] w2] end;
    cbn [snd files] in Hw |- *.
  - rewrite Hw. apply delete_insert_eq.
  - unfold bind at 1, write_text at 1. rewrite Hw, lookup_insert_eq.
    assert (Hfin : delete temp (<[temp := stdout proc]> (<[temp := ""]> (files w)))
                   = delete temp (files w)).
    { rewrite delete_insert_eq. apply delete_insert_eq. }
    destruct (negb _); [exact Hfin|].
    unfold read_text. cbn [files]. rewrite lookup_insert_eq. exact Hfin.
Qed.

Lemma run_awk_temp_file_removed_witness :
  let r := Awk.run_awk_post_processing Awk.copying_awk "<p>x</p>" ["repo"; "src"; "a.c"]
             ["repo"] ["repo"; "basilisk"; "src"; "darcsit"] Awk.disk_with_script in
  files (snd r) !! Awk.temp_output_path_of ["repo"; "src"; "a.c"] = None
  /\ ((forall cmd input w0, files (snd (Awk.copying_awk cmd input w0)) = files w0) ->
      files (snd r)
      = delete (Awk.temp_output_path_of ["repo"; "src"; "a.c"]) (files Awk.disk_with_script)).
Proof.
  apply (run_awk_temp_file_removed Awk.copying_awk "<p>x</p>" ["repo"; "src"; "a.c"]
           ["repo"] ["repo"; "basilisk"; "src"; "darcsit"] ["src"; "a.c"]
           ["src"; "a.c.tags"] Awk.disk_with_script).
  - vm_compute. eauto.
  - reflexivity.
  - vm_compute. reflexivity.
Defined.

(** ** The temporary template and its cleanup *)

(** [p.stem]: the name up to its last dot, when that dot is neither the
    first nor the last character of the name. *)
Definition stem (p : path) : string :=
  let nm := name p in
  let i := rfind_char nm "." in
  if (0 <? i) && (i <? len nm - 1) then stake (Z.to_nat i) nm else nm.

Module ValidateConfig.

(** [TEMPLATE_PATH.with_suffix('.temp.html')] *)
Definition temp_template_path (TEMPLATE_PATH : path) : option path :=
  with_suffix TEMPLATE_PATH ".temp.html".

End ValidateConfig.

Module Main.

(** The path that the [finally] clause of [main] removes:
    [TEMPLATE_PATH.parent / (TEMPLATE_PATH.stem.replace('.temp', '') + '.temp.html')] *)
Definition temp_template_path (TEMPLATE_PATH : path) : path :=
  joinpath (parent TEMPLATE_PATH)
           [replace (stem TEMPLATE_PATH) ".temp" "" +:+ ".temp.html"].

End Main.

Lemma rfind_char_app (s t : string) (c : ascii) :
  0 <= rfind_char t c -> rfind_char (s +:+ t) c = len s + rfind_char t c.
Proof.
  intros H. unfold len. induction s as [|a s IH]; [rewrite append_nil_l; simpl; lia|].
  rewrite append_cons. cbn [rfind_char]. rewrite IH.
  destruct (Z.leb_spec 0 (Z.of_nat (String.length s) + rfind_char t c)); [|lia].
  simpl String.length. lia.
Qed.

Lemma stake_app_more (s t : string) (n : nat) :
  stake (String.length s + n) (s +:+ t) = s +:+ stake n t.
Proof.
  induction s as [|a s IH]; [now rewrite !append_nil_l|].
  rewrite !append_cons. simpl. now rewrite IH.
Qed.

(** The new name of [with_suffix] is the stem followed by the suffix. *)
Lemma with_suffix_stem (p q : path) (suf : string) :
  with_suffix p suf = Some q -> q = removelast p ++ [stem p +:+ suf].
Proof.
  unfold with_suffix, stem, suffix. cbv zeta.
  destruct (contains suf "/"); [discriminate|].
  destruct (_ || _); [discriminate|].
  destruct (String.eqb (name p) ""); [discriminate|].
  destruct ((0 <? rfind_char (name p) ".") && _) eqn:E.
  - apply andb_true_iff in E as [E1 E2].
    apply Z.ltb_lt in E1. apply Z.ltb_lt in E2. unfold len in E2.
    destruct (String.eqb_spec (sdrop (Z.to_nat (rfind_char (name p) ".")) (name p)) "")
      as [E0|_].
    + apply (f_equal String.length) in E0. rewrite length_sdrop in E0. simpl in E0. lia.
    + rewrite length_sdrop.
      replace (String.length (name p)
               - (String.length (name p) - Z.to_nat (rfind_char (name p) ".")))%nat
        with (Z.to_nat (rfind_char (name p) ".")) by lia.
      now intros [= <-].
  - cbn [String.eqb]. now intros [= <-].
Qed.

Lemma stem_temp_html (p : path) (s : string) :
  stem (p ++ [s +:+ ".temp.html"]) = s +:+ ".temp".
Proof.
  unfold stem. cbv zeta. rewrite name_snoc.
  rewrite (rfind_char_app s ".temp.html" ".") by (vm_compute; discriminate).
  change (rfind_char ".temp.html" ".") with 5. unfold len. rewrite length_append.
  change (String.length ".temp.html") with 10%nat.
  replace ((0 <? Z.of_nat (String.length s) + 5)
           && (Z.of_nat (String.length s) + 5 <? Z.of_nat (String.length s + 10) - 1))
    with true by (symmetry; apply andb_true_iff; split; apply Z.ltb_lt; lia).
  replace (Z.to_nat (Z.of_nat (String.length s) + 5)) with (String.length s + 5)%nat by lia.
  apply stake_app_more.
Qed.

Lemma startswith_refl (p : string) : startswith p p = true.
Proof. pose proof (startswith_app p "") as H. now rewrite append_nil_r in H. Qed.

Lemma replace_from_skip_all (old new s : string) :
  replace_from old new (String.length s) s = "".
Proof. induction s as [|a s IH]; [reflexivity | exact IH]. Qed.

(** [(s + old).replace(old, new)] when [old] does not occur in [s] and
    starts with a character that it does not hold again. *)
Lemma replace_app_end (s new : string) (c : ascii) (old' : string) :
  all_chars (fun b => negb (Ascii.eqb b c)) old' = true ->
  contains s (String c old') = false ->
  replace (s +:+ String c old') (String c old') new = s +:+ new.
Proof.
  intros Hold. unfold replace. induction s as [|a s IH]; intros Hs.
  - rewrite !append_nil_l. cbn [replace_from startswith String.length Nat.sub].
    rewrite Ascii.eqb_refl, startswith_refl, Nat.sub_0_r, replace_from_skip_all.
    now rewrite append_nil_r.
  - apply not_contains_cons in Hs as [Hstart Hs].
    rewrite !append_cons. cbn [replace_from].
    rewrite <- append_cons.
    destruct (startswith (String a s +:+ String c old') (String c old')) eqn:E.
    + exfalso. apply startswith_app_inv in E as [E|(p2 & Hp & Hne & E)]; [congruence|].
      rewrite append_cons in Hp. injection Hp as -> Hp.
      rewrite Hp, all_chars_app in Hold. apply andb_true_iff in Hold as [_ Hold].
      destruct p2 as [|b p2]; [congruence|].
      cbn [startswith] in E. apply andb_true_iff in E as [E _].
      apply Ascii.eqb_eq in E. subst b.
      cbn [all_chars] in Hold. rewrite Ascii.eqb_refl in Hold. discriminate.
    + rewrite (IH Hs), ?append_cons. reflexivity.
Qed.

(** X27. The temporary template is the file that [main] cleans up. When
    the stem of the template name does not hold [.temp], the path that the
    [finally] clause of [main] computes from the new [TEMPLATE_PATH] is the
    path that [validate_config] wrote. *)
Theorem temp_template_round_trip (TEMPLATE_PATH temp : path) :
  ValidateConfig.temp_template_path TEMPLATE_PATH = Some temp ->
  contains (stem TEMPLATE_PATH) ".temp" = false ->
  Main.temp_template_path temp = temp.
Proof.
  unfold ValidateConfig.temp_template_path, Main.temp_template_path.
  intros Htemp Hstem. apply with_suffix_stem in Htemp. subst temp.
  unfold parent, joinpath. rewrite removelast_last, stem_temp_html.
  change ".temp" with (String "." "temp") at 1 2.
  rewrite replace_app_end; [now rewrite append_nil_r|reflexivity|exact Hstem].
Qed.

Lemma temp_template_round_trip_witness :
  Main.temp_template_path ["repo"; ".github"; "assets"; "custom_template.temp.html"]
  = ["repo"; ".github"; "assets"; "custom_template.temp.html"].
Proof.
  apply (temp_template_round_trip ["repo"; ".github"; "assets"; "custom_template.html"]).
  - reflexivity.
  - vm_compute. reflexivity.
Defined.

(** Without the condition on the stem the two paths differ: a template
    named site.template.html is copied to site.template.temp.html, and the
    cleanup looks for sitelate.temp.html. *)
Lemma temp_template_not_cleaned :
  ValidateConfig.temp_template_path ["assets"; "site.template.html"]
  = Some ["assets"; "site.template.temp.html"]
  /\ Main.temp_template_path ["assets"; "site.template.temp.html"]
     = ["assets"; "sitelate.temp.html"].
Proof. split; vm_compute; reflexivity. Qed.

(** ** The validation of the configuration *)

(** [BASILISK_DIR] is [REPO_ROOT / 'basilisk']. *)
Definition BASILISK_DIR (st : site) : path := joinpath (REPO_ROOT st) ["basilisk"].

(** [process_template_for_assets] *)
Definition process_template_for_assets (fl : flags) (st : site) (template_path : path)
  : M string :=
  try_except
    (do template_content <- read_text template_path;
     print ("Repository name: " +:+ REPO_NAME st);;
     debug_print fl "Template processed for correct asset paths";;
     ret template_content)
    (fun e =>
       print ("Error processing template for assets: " +:+ exn_str e);;
       ret "").

(** The loop of [validate_config] over the essential paths: [false] at the
    first one that is missing. *)
Fixpoint check_essential_paths (essential_paths : list (path * string)) : M bool :=
  match essential_paths with
  | [] => ret true
  | (p, nm) :: rest =>
      do present <- (if endswith nm "DIR" then Disk.is_dir p else Disk.is_file p);
      if negb present then
        print ("Error: " +:+ nm +:+ " not found at " +:+ path_str p);;
        ret false
      else check_essential_paths rest
  end.

(** [validate_config]; beside its result, the value of the global
    [TEMPLATE_PATH] when it returns. *)
Definition validate_config (fl : flags) (st : site) : M (bool * path) :=
  let essential_paths :=
    [(BASILISK_DIR st, "BASILISK_DIR");
     (DARCSIT_DIR st, "DARCSIT_DIR");
     (TEMPLATE_PATH st, "TEMPLATE_PATH");
     (LITERATE_C_SCRIPT st, "literate-c script")] in
  do found <- check_essential_paths essential_paths;
  if negb found then ret (false, TEMPLATE_PATH st)
  else
    do processed_template <- process_template_for_assets fl st (TEMPLATE_PATH st);
    if String.eqb processed_template "" then ret (false, TEMPLATE_PATH st)
    else
      match ValidateConfig.temp_template_path (TEMPLATE_PATH st) with
      | None => raise {| exn_class := "ValueError"; exn_msg := "Invalid suffix" |}
      | Some temp_template_path =>
          do present <- exists_path temp_template_path;
          (if present then
             try_except
               (Disk.unlink temp_template_path)
               (fun e => print ("Warning: Could not delete existing temporary template: "
                                +:+ exn_str e))
           else ret tt);;
          try_except
            (write_text temp_template_path processed_template;;
             ret (true, temp_template_path))
            (fun e =>
               print ("Error creating temporary template file: " +:+ exn_str e);;
               ret (false, TEMPLATE_PATH st))
      end.

(** A disk with the directories and files of [demo_site], the template
    under its first name. *)
Definition source_site : site :=
  {| REPO_ROOT := ["repo"]; DARCSIT_DIR := ["repo"; "basilisk"; "src"; "darcsit"];
     TEMPLATE_PATH := ["repo"; ".github"; "assets"; "custom_template.html"];
     LITERATE_C_SCRIPT := ["repo"; "basilisk"; "src"; "darcsit"; "literate-c"];
     BASE_URL := "/"; WIKI_TITLE := "Documentation"; REPO_NAME := "repo" |}.

Definition configured (template : string) : world :=
  {| files := {[ ["repo"; ".github"; "assets"; "custom_template.html"] := template;
                 ["repo"; "basilisk"; "src"; "darcsit"; "literate-c"] := "#!/bin/sh" ]};
     dirs := {[ ["repo"]; ["repo"; "basilisk"]; ["repo"; "basilisk"; "src"];
                ["repo"; "basilisk"; "src"; "darcsit"] ]};
     printed := [] |}.

(** The checks of the four paths pass without a line when the paths are
    there, and change nothing in any case. *)
Lemma check_essential_paths_config (st : site) (w : world) :
  exists ok w',
    check_essential_paths
      [(BASILISK_DIR st, "BASILISK_DIR"); (DARCSIT_DIR st, "DARCSIT_DIR");
       (TEMPLATE_PATH st, "TEMPLATE_PATH"); (LITERATE_C_SCRIPT st, "literate-c script")] w
    = (inr ok, w')
    /\ files w' = files w /\ dirs w' = dirs w
    /\ (ok = true <->
        BASILISK_DIR st ∈ dirs w /\ DARCSIT_DIR st ∈ dirs w
        /\ is_Some (files w !! TEMPLATE_PATH st)
        /\ is_Some (files w !! LITERATE_C_SCRIPT st))
    /\ (ok = true -> w' = w).
Proof.
  cbn [check_essential_paths].
  change (endswith "BASILISK_DIR" "DIR") with true.
  change (endswith "DARCSIT_DIR" "DIR") with true.
  change (endswith "TEMPLATE_PATH" "DIR") with false.
  change (endswith "literate-c script" "DIR") with false.
  cbv iota. unfold bind, Disk.is_dir, Disk.is_file, print, ret.
  destruct (decide (BASILISK_DIR st ∈ dirs w)) as [H1|H1];
    [rewrite (bool_decide_eq_true_2 _ H1) | rewrite (bool_decide_eq_false_2 _ H1)];
    cbn [negb]; [|eexists _, _; repeat split; try reflexivity; try discriminate; tauto].
  destruct (decide (DARCSIT_DIR st ∈ dirs w)) as [H2|H2];
    [rewrite (bool_decide_eq_true_2 _ H2) | rewrite (bool_decide_eq_false_2 _ H2)];
    cbn [negb]; [|eexists _, _; repeat split; try reflexivity; try discriminate; tauto].
  destruct (decide (is_Some (files w !! TEMPLATE_PATH st))) as [H3|H3];
    [rewrite (bool_decide_eq_true_2 _ H3) | rewrite (bool_decide_eq_false_2 _ H3)];
    cbn [negb]; [|eexists _, _; repeat split; try reflexivity; try discriminate; tauto].
  destruct (decide (is_Some (files w !! LITERATE_C_SCRIPT st))) as [H4|H4];
    [rewrite (bool_decide_eq_true_2 _ H4) | rewrite (bool_decide_eq_false_2 _ H4)];
    cbn [negb]; eexists _, _; repeat split; try reflexivity; try discriminate; tauto.
Qed.

Lemma process_template_for_assets_run (fl : flags) (st : site) (p : path) (w : world) :
  process_template_for_assets fl st p w
  = match files w !! p with
    | Some c =>
        (inr c, say (say w ["Repository name: " +:+ REPO_NAME st])
                    (if DEBUG fl then ["Template processed for correct asset paths"]
                     else []))
    | None =>
        (inr "", say w ["Error processing template for assets: "
                        +:+ exn_str (open_error w p)])
    end.
Proof.
  unfold process_template_for_assets, try_except, bind at 1, read_text.
  destruct (files w !! p) as [c|]; [|reflexivity].
  now rewrite bind_print, bind_debug_print.
Qed.

(** The end of [validate_config]: the old temporary template is removed and
    the new one written. *)
Lemma write_temp_template_run (temp old : path) (c : string) (w : world) :
  let r :=
    bind (exists_path temp)
         (fun present =>
            bind (if present then
                    try_except
                      (Disk.unlink temp)
                      (fun e =>
                         print ("Warning: Could not delete existing temporary template: "
                                +:+ exn_str e))
                  else ret tt)
                 (fun _ =>
                    try_except
                      (bind (write_text temp c) (fun _ => ret (true, temp)))
                      (fun e =>
                         bind (print ("Error creating temporary template file: "
                                      +:+ exn_str e))
                              (fun _ => ret (false, old))))) w in
  (temp ∈ dirs w /\ fst r = inr (false, old))
  \/ ((temp ∉ dirs w) /\ fst r = inr (true, temp)
      /\ files (snd r) = <[temp := c]> (files w)).
Proof.
  cbv zeta.
  unfold bind, exists_path, try_except, Disk.unlink, write_text, print, ret.
  destruct (decide (temp ∈ dirs w)) as [Hd|Hd].
  - left. split; [exact Hd|].
    rewrite (bool_decide_eq_true_2 _ Hd), orb_true_r.
    destruct (files w !! temp) as [c0|] eqn:E; cbn [files dirs];
      rewrite ?lookup_delete_eq, ?E, ?(bool_decide_eq_true_2 _ Hd); cbn [files dirs];
      rewrite ?E, ?(bool_decide_eq_true_2 _ Hd); reflexivity.
  - right. split; [exact Hd|].
    rewrite (bool_decide_eq_false_2 _ Hd), orb_false_r.
    destruct (files w !! temp) as [c0|] eqn:E.
    + rewrite bool_decide_eq_true_2 by eauto. rewrite ?E. cbn [orb files dirs].
      rewrite lookup_delete_eq, (bool_decide_eq_false_2 _ Hd). cbn [fst snd files].
      split; [reflexivity|]. apply insert_delete_eq.
    + rewrite bool_decide_eq_false_2 by (intros [x Hx]; discriminate).
      rewrite ?E, (bool_decide_eq_false_2 _ Hd). cbn [fst snd files].
      split; reflexivity.
Qed.

(** X28. What [validate_config] has checked when it returns [True]: the two
    directories and the two files are there, the template is not empty, the
    new [TEMPLATE_PATH] is the template path with the suffix [.temp.html],
    that file holds the text of the template, and no other file has
    changed. *)
Theorem validate_config_accepts (fl : flags) (st : site) (w w' : world) (template : path) :
  validate_config fl st w = (inr (true, template), w') ->
  BASILISK_DIR st ∈ dirs w /\ DARCSIT_DIR st ∈ dirs w
  /\ is_Some (files w !! LITERATE_C_SCRIPT st)
  /\ ValidateConfig.temp_template_path (TEMPLATE_PATH st) = Some template
  /\ exists content,
       files w !! TEMPLATE_PATH st = Some content /\ content <> ""
       /\ files w' = <[template := content]> (files w).
Proof.
  unfold validate_config. cbv zeta.
  destruct (check_essential_paths_config st w) as (ok & w1 & E & _ & _ & Hok & Hw).
  rewrite (bind_inr _ _ _ _ _ E). destruct ok; cbn [negb]; [|discriminate].
  rewrite (Hw eq_refl). destruct (proj1 Hok eq_refl) as (H1 & H2 & [c Hc] & H4).
  unfold bind at 1. rewrite process_template_for_assets_run, Hc.
  destruct (String.eqb_spec c "") as [|Hne]; [discriminate|].
  destruct (ValidateConfig.temp_template_path (TEMPLATE_PATH st)) as [temp|];
    [|discriminate].
  match goal with
  | |- context [bind _ _ ?w2] =>
      pose proof (write_temp_template_run temp (TEMPLATE_PATH st) c w2) as Hrun
  end.
  cbv zeta in Hrun. intros Hres. rewrite Hres in Hrun. cbn [fst snd] in Hrun.
  destruct Hrun as [[_ Hr]|(_ & Hr & Hfiles)]; [discriminate|].
  injection Hr as <-. repeat split; try assumption.
  exists c. repeat split; assumption.
Qed.

Lemma validate_config_accepts_witness :
  BASILISK_DIR source_site ∈ dirs (configured "<html>$body$</html>")
  /\ DARCSIT_DIR source_site ∈ dirs (configured "<html>$body$</html>")
  /\ is_Some (files (configured "<html>$body$</html>") !! LITERATE_C_SCRIPT source_site)
  /\ ValidateConfig.temp_template_path (TEMPLATE_PATH source_site)
     = Some ["repo"; ".github"; "assets"; "custom_template.temp.html"]
  /\ exists content,
       files (configured "<html>$body$</html>") !! TEMPLATE_PATH source_site = Some content
       /\ content <> ""
       /\ files (snd (validate_config quiet source_site (configured "<html>$body$</html>")))
          = <[ ["repo"; ".github"; "assets"; "custom_template.temp.html"] := content ]>
              (files (configured "<html>$body$</html>")).
Proof.
  apply (validate_config_accepts quiet source_site (configured "<html>$body$</html>")
           (snd (validate_config quiet source_site (configured "<html>$body$</html>")))).
  reflexivity.
Defined.

(** X29. An empty template is turned down without a word: with the four
    paths in place and a template file that is empty, [validate_config]
    returns [False], writes no file and prints no error, only the name of
    the repository (and the debug line). *)
Theorem validate_config_empty_template (fl : flags) (st : site) (w : world) :
  BASILISK_DIR st ∈ dirs w -> DARCSIT_DIR st ∈ dirs w ->
  is_Some (files w !! LITERATE_C_SCRIPT st) ->
  files w !! TEMPLATE_PATH st = Some "" ->
  validate_config fl st w
  = (inr (false, TEMPLATE_PATH st),
     {| files := files w; dirs := dirs w;
        printed := printed w
                   ++ ["Repository name: " +:+ REPO_NAME st]
                   ++ (if DEBUG fl then ["Template processed for correct asset paths"]
                       else []) |}).
Proof.
  intros H1 H2 H4 H3. unfold validate_config. cbv zeta.
  destruct (check_essential_paths_config st w) as (ok & w1 & E & _ & _ & Hok & Hw).
  rewrite (bind_inr _ _ _ _ _ E).
  assert (Hi : ok = true) by (apply Hok; rewrite H3; eauto).
  subst ok. rewrite (Hw eq_refl). cbn [negb].
  unfold bind at 1. rewrite process_template_for_assets_run, H3.
  cbn [String.eqb]. unfold ret, say. cbn [files dirs printed].
  now rewrite <- app_assoc.
Qed.

Lemma validate_config_empty_template_witness :
  validate_config quiet source_site (configured "")
  = (inr (false, TEMPLATE_PATH source_site),
     {| files := files (configured ""); dirs := dirs (configured "");
        printed := printed (configured "")
                   ++ ["Repository name: " +:+ REPO_NAME source_site]
                   ++ (if DEBUG quiet then ["Template processed for correct asset paths"]
                       else []) |}).
Proof.
  apply (validate_config_empty_template quiet source_site (configured ""));
    vm_compute; eauto.
Defined.
